(** * Cutting-parameter bot: the conversation machine, the catalog lookup and
      the calculation engine of [bot.py], embedded and verified.

    Python floats are binary64 values: they are modelled by Rocq's primitive
    floats, whose operations are the IEEE 754 ones.  Python ints are [Z].
    Strings are UTF-8 byte strings.  A handler of the bot runs in a small
    monad that threads [context.user_data] and the replies sent so far, and
    that can raise a Python exception. *)

From Stdlib Require Import String Ascii List ZArith Bool Lia.
From Stdlib Require Import Floats DecimalString.
Import ListNotations.

Set Warnings "-inexact-float".
Local Open Scope string_scope.

(** ** Python values *)

(** The exceptions the program can meet. *)
Inductive exn : Type :=
| ValueError
| KeyError
| ZeroDivisionError
| OverflowError.

(** The outcome of an expression that may raise. *)
Inductive result (A : Type) : Type :=
| Ret (a : A)
| Raise (e : exn).
Arguments Ret {A} a.
Arguments Raise {A} e.

Definition exn_eqb (a b : exn) : bool :=
  match a, b with
  | ValueError, ValueError | KeyError, KeyError
  | ZeroDivisionError, ZeroDivisionError | OverflowError, OverflowError => true
  | _, _ => false
  end.

(** Truth value of a float: every float but the two zeros is true
    (a NaN is true as well). *)
Definition float_truthy (x : float) : bool := negb (x =? 0)%float.

(** [if v:] for a value that is [None] or a float. *)
Definition opt_float_truthy (v : option float) : bool :=
  match v with Some x => float_truthy x | None => false end.

(** [if v:] for a value that is [None] or an int. *)
Definition opt_int_truthy (v : option Z) : bool :=
  match v with Some n => negb (n =? 0)%Z | None => false end.

(** [if v:] for a value that is [None] or a str. *)
Definition opt_str_truthy (v : option string) : bool :=
  match v with Some s => negb (s =? "") | None => false end.

(** The float nearest to the rational [p / q] ([p >= 0], [q > 0]) with the
    sign [neg], ties to even: the division of the binary64 specification run
    on two integers of any size. *)
Definition nearest_float (neg : bool) (p q : Z) : float :=
  match p with
  | Z0 => if neg then neg_zero else zero
  | _ =>
      let '(m, e, l) := SFdiv_core_binary prec emax p 0 q 0 in
      SF2Prim (binary_round_aux prec emax neg m e l)
  end.

(** [float(n)]: the float nearest to the int [n]. *)
Definition float_of_int (n : Z) : float := nearest_float (n <? 0)%Z (Z.abs n) 1.

(** [a / b] on two ints: the correctly rounded quotient. *)
Definition int_truediv (a b : Z) : result float :=
  if (b =? 0)%Z then Raise ZeroDivisionError
  else
    let r := nearest_float (xorb (a <? 0)%Z (b <? 0)%Z) (Z.abs a) (Z.abs b) in
    if is_infinity r then Raise OverflowError else Ret r.

(** [x / y] on two floats. *)
Definition float_truediv (x y : float) : result float :=
  if (y =? 0)%float then Raise ZeroDivisionError else Ret (x / y)%float.

(** [math.pi] *)
Definition math_pi : float := 0x1.921fb54442d18p+1%float.

(** [math.sqrt]: the C library's square root; a NaN result for an argument
    that is not a NaN is reported as [ValueError] (math domain error). *)
Definition math_sqrt (x : float) : result float :=
  let r := PrimFloat.sqrt x in
  if is_nan r && negb (is_nan x) then Raise ValueError else Ret r.

(** *** Formatting with [{x:.Nf}] *)

Definition newline : string := String (ascii_of_nat 10) EmptyString.

Definition string_of_N (n : N) : string := NilZero.string_of_uint (N.to_uint n).

Fixpoint zeros (n : nat) : string :=
  match n with O => "" | S k => "0" ++ zeros k end.

(** [n] written with at least [width] digits. *)
Definition pad_digits (width : nat) (n : N) : string :=
  let s := string_of_N n in
  zeros (width - String.length s) ++ s.

(** The integer nearest to [p / q], ties to even ([p >= 0], [q > 0]). *)
Definition round_half_even (p q : Z) : Z :=
  let d := (p / q)%Z in
  let r := (p mod q)%Z in
  match (2 * r ?= q)%Z with
  | Lt => d
  | Gt => (d + 1)%Z
  | Eq => if Z.even d then d else (d + 1)%Z
  end.

(** The absolute value of a finite float as a fraction. *)
Definition fraction_of (m : positive) (e : Z) : Z * Z :=
  match e with
  | Zneg k => (Zpos m, Z.pow 2 (Zpos k))
  | _ => (Zpos m * Z.pow 2 e, 1)%Z
  end.

Definition fixed_digits (prec : nat) (scaled : Z) : string :=
  let unit := Z.pow 10 (Z.of_nat prec) in
  let whole := string_of_N (Z.to_N (scaled / unit)) in
  match prec with
  | O => whole
  | _ => whole ++ "." ++ pad_digits prec (Z.to_N (scaled mod unit))
  end.

(** [format(x, '.<prec>f')]: the exact value of [x] rounded to [prec]
    decimals, ties to even. *)
Definition format_f (prec : nat) (x : float) : string :=
  match Prim2SF x with
  | S754_nan => "nan"
  | S754_infinity s => if s then "-inf" else "inf"
  | S754_zero s => (if s then "-" else "") ++ fixed_digits prec 0
  | S754_finite s m e =>
      let '(p, q) := fraction_of m e in
      let scaled := round_half_even (p * Z.pow 10 (Z.of_nat prec)) q in
      (if s then "-" else "") ++ fixed_digits prec scaled
  end.

(** ** The parameter catalog *)

(** A Python dict with keys of type [K], in insertion order. *)
Definition dict (K V : Type) : Type := list (K * V).

Section Dict.
Context {K V : Type} (eqb : K -> K -> bool).

(** [d.get(k, None)] *)
Fixpoint dict_get (d : dict K V) (k : K) : option V :=
  match d with
  | [] => None
  | (k', v) :: rest => if eqb k k' then Some v else dict_get rest k
  end.

(** [k in d] *)
Definition dict_contains (d : dict K V) (k : K) : bool :=
  match dict_get d k with Some _ => true | None => false end.

(** [d[k]] *)
Definition dict_getitem (d : dict K V) (k : K) : result V :=
  match dict_get d k with Some v => Ret v | None => Raise KeyError end.
End Dict.

(** [list(d.keys())] *)
Definition dict_keys {K V : Type} (d : dict K V) : list K := map fst d.

Definition dict_values {K V : Type} (d : dict K V) : list V := map snd d.

(** A catalog entry, the dict [{'скорость': [a, b], 'подача': [a, b],
    'глубина': [a, b]}]; the speed and depth bounds are ints, the feed bounds
    floats, and the depth range may be absent. *)
Record entry : Type := mk_entry {
  speed : Z * Z;            (* 'скорость' *)
  feed : float * float;     (* 'подача' *)
  depth : option (Z * Z)    (* 'глубина' *)
}.

(** What a tool type maps a key to: an entry, or for the turning tools the
    dict of entries keyed by a dimension. *)
Inductive leaf : Type :=
| Entry (e : entry)
| ByDimension (d : dict float entry).

Definition tools : Type := dict string leaf.
Definition tool_types : Type := dict string tools.
Definition operations : Type := dict string tool_types.

Definition full (s1 s2 : Z) (f1 f2 : float) (d1 d2 : Z) : entry :=
  mk_entry (s1, s2) (f1, f2) (Some (d1, d2)).

Definition no_depth (s1 s2 : Z) (f1 f2 : float) : entry :=
  mk_entry (s1, s2) (f1, f2) None.

Definition cutting_parameters : dict string operations :=
  [ ("сталь",
     [ ("фрезерование",
        [ ("монолитная",
           [ ("цилиндрическая", Entry (full 80 120 0.1 0.3 1 4));
             ("сферическая", Entry (full 70 110 0.08 0.25 1 3)) ]);
          ("с_пластинами",
           [ ("торцевая", Entry (full 100 150 0.15 0.35 1 5));
             ("пазовая", Entry (full 90 140 0.1 0.3 1 4)) ]) ]);
       ("точение",
        [ ("проходной",
           [ ("радиус_пластины", ByDimension
                [ (0.4, full 70 100 0.1 0.3 1 5);
                  (0.8, full 80 110 0.15 0.35 1 5);
                  (1.2, full 90 120 0.2 0.4 1 5) ]%float) ]);
          ("канавочный",
           [ ("ширина_пластины", ByDimension
                [ (2.0, no_depth 40 60 0.05 0.15);
                  (3.0, no_depth 50 70 0.08 0.2);
                  (4.0, no_depth 60 80 0.1 0.25) ]%float) ]) ]);
       ("сверление",
        [ ("монолитное",
           [ ("hss", Entry (full 30 50 0.05 0.12 1 8));
             ("hss-co", Entry (full 40 60 0.08 0.15 1 10));
             ("твердый_сплав", Entry (full 70 100 0.1 0.2 1 12)) ]);
          ("со_сменными_пластинами",
           [ ("карбид", Entry (full 70 100 0.1 0.2 1 12)) ]) ]) ]);
    ("цветной_металл",
     [ ("фрезерование",
        [ ("монолитная",
           [ ("цилиндрическая", Entry (full 150 200 0.2 0.4 2 6));
             ("сферическая", Entry (full 140 180 0.15 0.35 2 5)) ]);
          ("с_пластинами",
           [ ("торцевая", Entry (full 180 250 0.25 0.45 2 8));
             ("пазовая", Entry (full 160 220 0.2 0.4 2 6)) ]) ]);
       ("точение",
        [ ("проходной",
           [ ("радиус_пластины", ByDimension
                [ (0.4, full 120 150 0.15 0.3 2 6);
                  (0.8, full 130 160 0.2 0.35 2 6);
                  (1.2, full 140 180 0.25 0.4 2 6) ]%float) ]);
          ("канавочный",
           [ ("ширина_пластины", ByDimension
                [ (2.0, no_depth 80 120 0.1 0.2);
                  (3.0, no_depth 90 130 0.15 0.25);
                  (4.0, no_depth 100 140 0.2 0.3) ]%float) ]) ]);
       ("сверление",
        [ ("монолитное",
           [ ("hss", Entry (full 60 80 0.1 0.2 2 10));
             ("hss-co", Entry (full 70 90 0.15 0.25 2 12));
             ("твердый_сплав", Entry (full 100 150 0.2 0.3 2 15)) ]);
          ("со_сменными_пластинами",
           [ ("карбид", Entry (full 100 150 0.2 0.3 2 15)) ]) ]) ]) ].

(** The entries below a leaf, and all the entries of the catalog. *)
Definition leaf_entries (l : leaf) : list entry :=
  match l with
  | Entry e => [e]
  | ByDimension d => dict_values d
  end.

Definition catalog_entries : list entry :=
  flat_map (fun ops : operations =>
    flat_map (fun tts : tool_types =>
      flat_map (fun ts : tools => flat_map leaf_entries (dict_values ts))
               (dict_values tts))
             (dict_values ops))
           (dict_values cutting_parameters).

(** [min <= max] for every range an entry holds. *)
Definition range_ok (e : entry) : bool :=
  (fst (speed e) <=? snd (speed e))%Z
  && (fst (feed e) <=? snd (feed e))%float
  && match depth e with
     | Some (lo, hi) => (lo <=? hi)%Z
     | None => true
     end.

(** The same, spelled out. *)
Definition ordered (e : entry) : Prop :=
  (fst (speed e) <= snd (speed e))%Z
  /\ (fst (feed e) <=? snd (feed e))%float = true
  /\ (forall lo hi, depth e = Some (lo, hi) -> (lo <= hi)%Z).

(** ** The calculation engine *)

(** [calculate_cutting_width(diameter, depth_of_cut, tool_subtype)] *)
Definition calculate_cutting_width
    (diameter depth_of_cut : float) (tool_subtype : string)
    : result (option float) :=
  if tool_subtype =? "цилиндрическая" then
    Ret (Some (0.5 * diameter)%float)
  else if tool_subtype =? "сферическая" then
    match math_sqrt (depth_of_cut * (diameter - depth_of_cut))%float with
    | Ret r => Ret (Some (2 * r)%float)
    | Raise e => Raise e
    end
  else Ret None.

(** [calculate_overlap(diameter, depth_of_cut)] *)
Definition calculate_overlap (diameter depth_of_cut : float) : option Z :=
  if (depth_of_cut <=? 0.3 * diameter)%float then Some 100%Z
  else if (depth_of_cut <=? 0.5 * diameter)%float then Some 70%Z
  else if (depth_of_cut <=? 0.7 * diameter)%float then Some 50%Z
  else if (depth_of_cut <=? diameter)%float then Some 30%Z
  else if (depth_of_cut <=? 2 * diameter)%float then Some 10%Z
  else None.

(** *** Signs of binary64 values *)

(** [x] is not negative: a NaN, a zero of either sign, or positive. *)
Definition not_negative (x : spec_float) : Prop :=
  match x with
  | S754_nan | S754_zero _ => True
  | S754_infinity s | S754_finite s _ _ => s = false
  end.

(** [x] is not a NaN and, unless it is a zero, has the sign [s]. *)
Definition signed (s : bool) (x : spec_float) : Prop :=
  match x with
  | S754_nan => False
  | S754_zero _ => True
  | S754_infinity s' | S754_finite s' _ _ => s' = s
  end.

(** ** The session and the handler monad *)

(** The states of the conversation handler ([range(9)]) and
    [ConversationHandler.END]. *)
Inductive state : Type :=
| MATERIAL | OPERATION | TOOL_TYPE | TOOL_SUBTYPE | DIAMETER
| NUMBER_OF_TEETH | DEPTH_OF_CUT | RADIUS | GROOVE_WIDTH
| END.

Definition state_code (s : state) : Z :=
  match s with
  | MATERIAL => 0 | OPERATION => 1 | TOOL_TYPE => 2 | TOOL_SUBTYPE => 3
  | DIAMETER => 4 | NUMBER_OF_TEETH => 5 | DEPTH_OF_CUT => 6 | RADIUS => 7
  | GROOVE_WIDTH => 8 | END => -1
  end%Z.

(** [context.user_data]: the dict of the answers collected so far.  The program
    uses nine keys and stores one type of value under each. *)
Record user_data : Type := mk_user_data {
  ud_material : option string;
  ud_operation : option string;
  ud_tool_type : option string;
  ud_tool_subtype : option string;
  ud_diameter : option float;
  ud_number_of_teeth : option Z;
  ud_depth_of_cut : option float;
  ud_radius : option float;
  ud_groove_width : option float
}.

(** The empty dict. *)
Definition no_data : user_data :=
  mk_user_data None None None None None None None None None.

(** A message sent with [reply_text]: its text and the rows of the reply
    keyboard, when one is attached. *)
Record reply : Type := mk_reply {
  reply_body : string;
  reply_markup : option (list (list string))
}.

(** What a handler works on: the user's dict and the messages sent so far,
    oldest first. *)
Record chat : Type := mk_chat {
  data : user_data;
  sent : list reply
}.

(** A handler computation: it may change the chat and it returns or raises;
    what it changed before raising stays changed. *)
Definition M (A : Type) : Type := chat -> result A * chat.

Definition ret {A} (a : A) : M A := fun c => (Ret a, c).

Definition raise {A} (e : exn) : M A := fun c => (Raise e, c).

Definition bind {A B} (m : M A) (k : A -> M B) : M B :=
  fun c =>
    match m c with
    | (Ret a, c') => k a c'
    | (Raise e, c') => (Raise e, c')
    end.

Declare Scope py_scope.
Delimit Scope py_scope with py.
Notation "x <- m ;; k" := (bind m (fun x => k))
  (at level 61, m at next level, right associativity) : py_scope.
Notation "m ;; k" := (bind m (fun _ => k))
  (at level 61, right associativity) : py_scope.
Local Open Scope py_scope.

(** An expression that may raise, used in a handler. *)
Definition lift {A} (r : result A) : M A := fun c => (r, c).

(** [try: body  except <e>: handler] *)
Definition try_except {A} (body : M A) (e : exn) (handler : M A) : M A :=
  fun c =>
    match body c with
    | (Raise e', c') => if exn_eqb e' e then handler c' else (Raise e', c')
    | r => r
    end.

(** [wp m Q c]: running [m] from the chat [c] ends in an outcome and a chat
    that satisfy [Q]. *)
Definition wp {A} (m : M A) (Q : result A -> chat -> Prop) (c : chat) : Prop :=
  Q (fst (m c)) (snd (m c)).

(** [context.user_data.get(key)] *)
Definition ud_get {A} (key : user_data -> option A) : M (option A) :=
  fun c => (Ret (key (data c)), c).

(** [context.user_data[key]] *)
Definition ud_getitem {A} (key : user_data -> option A) : M A :=
  fun c =>
    match key (data c) with
    | Some v => (Ret v, c)
    | None => (Raise KeyError, c)
    end.

Definition ud_update (f : user_data -> user_data) : M unit :=
  fun c => (Ret tt, mk_chat (f (data c)) (sent c)).

(** [context.user_data.clear()] *)
Definition ud_clear : M unit := ud_update (fun _ => no_data).

(** [context.user_data[key] = v], one definition per key. *)
Definition set_material (v : string) : M unit :=
  ud_update (fun u => mk_user_data (Some v) (ud_operation u) (ud_tool_type u)
    (ud_tool_subtype u) (ud_diameter u) (ud_number_of_teeth u)
    (ud_depth_of_cut u) (ud_radius u) (ud_groove_width u)).

Definition set_operation (v : string) : M unit :=
  ud_update (fun u => mk_user_data (ud_material u) (Some v) (ud_tool_type u)
    (ud_tool_subtype u) (ud_diameter u) (ud_number_of_teeth u)
    (ud_depth_of_cut u) (ud_radius u) (ud_groove_width u)).

Definition set_tool_type (v : string) : M unit :=
  ud_update (fun u => mk_user_data (ud_material u) (ud_operation u) (Some v)
    (ud_tool_subtype u) (ud_diameter u) (ud_number_of_teeth u)
    (ud_depth_of_cut u) (ud_radius u) (ud_groove_width u)).

Definition set_tool_subtype (v : string) : M unit :=
  ud_update (fun u => mk_user_data (ud_material u) (ud_operation u)
    (ud_tool_type u) (Some v) (ud_diameter u) (ud_number_of_teeth u)
    (ud_depth_of_cut u) (ud_radius u) (ud_groove_width u)).

Definition set_diameter (v : float) : M unit :=
  ud_update (fun u => mk_user_data (ud_material u) (ud_operation u)
    (ud_tool_type u) (ud_tool_subtype u) (Some v) (ud_number_of_teeth u)
    (ud_depth_of_cut u) (ud_radius u) (ud_groove_width u)).

Definition set_number_of_teeth (v : Z) : M unit :=
  ud_update (fun u => mk_user_data (ud_material u) (ud_operation u)
    (ud_tool_type u) (ud_tool_subtype u) (ud_diameter u) (Some v)
    (ud_depth_of_cut u) (ud_radius u) (ud_groove_width u)).

Definition set_depth_of_cut (v : float) : M unit :=
  ud_update (fun u => mk_user_data (ud_material u) (ud_operation u)
    (ud_tool_type u) (ud_tool_subtype u) (ud_diameter u)
    (ud_number_of_teeth u) (Some v) (ud_radius u) (ud_groove_width u)).

Definition set_radius (v : float) : M unit :=
  ud_update (fun u => mk_user_data (ud_material u) (ud_operation u)
    (ud_tool_type u) (ud_tool_subtype u) (ud_diameter u)
    (ud_number_of_teeth u) (ud_depth_of_cut u) (Some v) (ud_groove_width u)).

Definition set_groove_width (v : float) : M unit :=
  ud_update (fun u => mk_user_data (ud_material u) (ud_operation u)
    (ud_tool_type u) (ud_tool_subtype u) (ud_diameter u)
    (ud_number_of_teeth u) (ud_depth_of_cut u) (ud_radius u) (Some v)).

(** [update.message.reply_text(text, reply_markup=ReplyKeyboardMarkup(rows,
    one_time_keyboard=True))] *)
Definition reply_text (text : string) (markup : option (list (list string)))
    : M unit :=
  fun c => (Ret tt, mk_chat (data c) (sent c ++ [mk_reply text markup])).

(** The keyboard with one button per row and [/start] below:
    [[[k] for k in keys]] followed by [append(['/start'])]. *)
Definition keyboard_of (keys : list string) : list (list string) :=
  map (fun k => [k]) keys ++ [["/start"]].

(** [[[KeyboardButton('/start')]]] *)
Definition start_keyboard : list (list string) := [["/start"]].

(** ** The built-ins of Python the handlers call *)

(** [str.lower], [float(str)] and [int(str)] ([None] stands for
    [ValueError]), and [str(float)].  The handlers are written over any
    implementation of them; [reference_builtins] below is one. *)
Class Builtins : Type := {
  str_lower : string -> string;
  float_of_str : string -> option float;
  int_of_str : string -> option Z;
  str_of_float : float -> string
}.

(** [s.replace(',', '.')] *)
Fixpoint replace_comma (s : string) : string :=
  match s with
  | EmptyString => EmptyString
  | String c rest =>
      String (if Ascii.eqb c "," then "."%char else c) (replace_comma rest)
  end.

(** ** Reading a looked-up value *)

(** [not params] for what [get_cutting_parameters] returned: [None] and the
    empty dict are false. *)
Definition params_truthy (params : option leaf) : bool :=
  match params with
  | None => false
  | Some (Entry _) => true
  | Some (ByDimension d) => match d with [] => false | _ => true end
  end.

(** [params['скорость']], [params['подача']]: a dict keyed by dimensions has
    no such key. *)
Definition params_speed (params : leaf) : result (Z * Z) :=
  match params with Entry e => Ret (speed e) | ByDimension _ => Raise KeyError end.

Definition params_feed (params : leaf) : result (float * float) :=
  match params with Entry e => Ret (feed e) | ByDimension _ => Raise KeyError end.

(** [params['глубина'] if 'глубина' in params else None] *)
Definition params_depth (params : leaf) : option (Z * Z) :=
  match params with Entry e => depth e | ByDimension _ => None end.

(** [d.get(k, None)] on a value of the fourth level, with a float key. *)
Definition leaf_get (l : leaf) (k : float) : option leaf :=
  match l with
  | ByDimension d => option_map Entry (dict_get PrimFloat.eqb d k)
  | Entry _ => None
  end.

(** [cutting_parameters[material][operation][tool_type]] *)
Definition subscript (material operation tool_type : string) : result tools :=
  match dict_getitem String.eqb cutting_parameters material with
  | Raise e => Raise e
  | Ret ops =>
      match dict_getitem String.eqb ops operation with
      | Raise e => Raise e
      | Ret tts => dict_getitem String.eqb tts tool_type
      end
  end.

(** [cutting_parameters[material][operation][tool_type][key]] *)
Definition subscript4 (material operation tool_type key : string) : result leaf :=
  match subscript material operation tool_type with
  | Raise e => Raise e
  | Ret ts => dict_getitem String.eqb ts key
  end.

Section Handlers.
Context {B : Builtins}.

(** [float(s)] *)
Definition py_float (s : string) : result float :=
  match float_of_str s with Some x => Ret x | None => Raise ValueError end.

(** [int(s)] *)
Definition py_int (s : string) : result Z :=
  match int_of_str s with Some n => Ret n | None => Raise ValueError end.

(** [[str(k) for k in l.keys()]] on a value of the fourth level. *)
Definition leaf_key_names (l : leaf) : list string :=
  match l with
  | ByDimension d => map str_of_float (dict_keys d)
  | Entry e =>
      ["скорость"; "подача"]
      ++ match depth e with Some _ => ["глубина"] | None => [] end
  end.

(** [get_cutting_parameters(context)] *)
Definition get_cutting_parameters : M (option leaf) :=
  material <- ud_get ud_material ;;
  operation <- ud_get ud_operation ;;
  tool_type <- ud_get ud_tool_type ;;
  tool_subtype <- ud_get ud_tool_subtype ;;
  radius <- ud_get ud_radius ;;
  groove_width <- ud_get ud_groove_width ;;
  match material, operation, tool_type with
  | Some material, Some operation, Some tool_type =>
      if (material =? "") || (operation =? "") || (tool_type =? "")
      then ret None
      else
        try_except
          (if operation =? "фрезерование" then
             if ((tool_type =? "монолитная") || (tool_type =? "с_пластинами"))
                && opt_str_truthy tool_subtype
             then
               ts <- lift (subscript material operation tool_type) ;;
               ret (match tool_subtype with
                    | Some k => dict_get String.eqb ts k
                    | None => None
                    end)
             else ret None
           else if operation =? "точение" then
             if (tool_type =? "проходной") && opt_float_truthy radius then
               l <- lift (subscript4 material operation tool_type
                            "радиус_пластины") ;;
               ret (match radius with
                    | Some r => leaf_get l r
                    | None => None
                    end)
             else if (tool_type =? "канавочный")
                     && opt_float_truthy groove_width then
               l <- lift (subscript4 material operation tool_type
                            "ширина_пластины") ;;
               ret (match groove_width with
                    | Some w => leaf_get l w
                    | None => None
                    end)
             else ret None
           else if operation =? "сверление" then
             if (tool_type =? "монолитное") && opt_str_truthy tool_subtype then
               ts <- lift (subscript material operation tool_type) ;;
               ret (match tool_subtype with
                    | Some k => dict_get String.eqb ts k
                    | None => None
                    end)
             else if tool_type =? "со_сменными_пластинами" then
               ts <- lift (subscript material operation tool_type) ;;
               ret (dict_get String.eqb ts "карбид")
             else ret None
           else ret None)
          KeyError
          (ret None)
  | _, _, _ => ret None
  end.

(** [format_result(context, speed, feed, depth, n, feed_per_minute,
    cutting_width, overlap)] *)
Definition format_result (speed feed : float)
    (depth n feed_per_minute cutting_width : option float)
    (overlap : option Z) : M string :=
  material <- ud_get ud_material ;;
  operation <- ud_get ud_operation ;;
  tool_type <- ud_get ud_tool_type ;;
  tool_subtype <- ud_get ud_tool_subtype ;;
  let result :=
    "Рекомендованные параметры для "
    ++ match material with Some v => v | None => "неизвестный материал" end
    ++ " ("
    ++ match operation with Some v => v | None => "неизвестная операция" end
    ++ ") с инструментом "
    ++ match tool_type with
       | Some v => v
       | None => "неизвестный тип инструмента"
       end in
  let result :=
    match tool_subtype with
    | Some v => if v =? "" then result else result ++ " (" ++ v ++ ")"
    | None => result
    end in
  let result := result ++ ":" ++ newline in
  let result :=
    result ++ "Скорость резания: " ++ format_f 1 speed ++ " м/мин" ++ newline in
  let result :=
    result ++ "Подача: " ++ format_f 2 feed ++ " мм/об" ++ newline in
  let result :=
    match feed_per_minute with
    | Some v =>
        if float_truthy v
        then result ++ "Минутная подача: " ++ format_f 1 v ++ " мм/мин" ++ newline
        else result
    | None => result
    end in
  let not_milling :=
    match operation with
    | Some v => negb (v =? "фрезерование")
    | None => true
    end in
  let result :=
    match depth with
    | Some v =>
        if not_milling && float_truthy v
        then result ++ "Глубина резания: " ++ format_f 1 v ++ " мм" ++ newline
        else result
    | None => result
    end in
  diameter <- ud_get ud_diameter ;;
  let result :=
    match overlap, diameter with
    | Some o, Some d =>
        if negb (o =? 0)%Z && float_truthy d
        then result ++ "Ширина резания: "
               ++ format_f 1 (float_of_int o * d / 100)%float ++ " мм" ++ newline
        else result
    | _, _ => result
    end in
  let result :=
    match n with
    | Some v =>
        if float_truthy v
        then result ++ "Частота вращения шпинделя: " ++ format_f 0 v
               ++ " об/мин" ++ newline
        else result
    | None => result
    end in
  let result :=
    result ++ newline
    ++ "Если вам понравился бот, вы можете поддержать автора Дмитрий П.:"
    ++ newline in
  let result :=
    result ++ "💳 Счет Сбербанк для поддержки: 2202 2081 6242 6036" ++ newline in
  let result := result ++ "📧 Обратная связь: fetamlet@yandex.ru" in
  ret result.

(** The arithmetic mean of an int range and of a float range. *)
Definition mean_int (r : Z * Z) : result float := int_truediv (fst r + snd r) 2.

Definition mean_float (r : float * float) : result float :=
  float_truediv (fst r + snd r) 2.

Definition no_parameters : string :=
  "Ошибка: не удалось получить параметры резания.".

(** [start(update, context)] *)
Definition start : M (option state) :=
  ud_clear ;;
  let materials := ["сталь"; "цветной_металл"] in
  reply_text
    ("Привет! Я помогу вам выбрать оптимальные режимы резания. "
     ++ "Для начала выберите материал заготовки:")
    (Some (keyboard_of materials)) ;;
  ret (Some MATERIAL).

(** [material(update, context)] *)
Definition material (text : string) : M (option state) :=
  let material := str_lower text in
  if material =? "/start" then start
  else
    set_material material ;;
    if dict_contains String.eqb cutting_parameters material then
      ops <- lift (dict_getitem String.eqb cutting_parameters material) ;;
      reply_text
        ("Отлично! Теперь выберите тип операции для материала "
         ++ material ++ ":")
        (Some (keyboard_of (dict_keys ops))) ;;
      ret (Some OPERATION)
    else
      reply_text
        "Извините, я не могу найти параметры для этого материала. Попробуйте снова."
        None ;;
      ret (Some END).

(** [operation(update, context)] *)
Definition operation (text : string) : M (option state) :=
  let operation := str_lower text in
  if operation =? "/start" then start
  else
    set_operation operation ;;
    material <- ud_getitem ud_material ;;
    ops <- lift (dict_getitem String.eqb cutting_parameters material) ;;
    if dict_contains String.eqb ops operation then
      tts <- lift (dict_getitem String.eqb ops operation) ;;
      reply_text
        ("Выберите тип инструмента для операции " ++ operation ++ ":")
        (Some (keyboard_of (dict_keys tts))) ;;
      ret (Some TOOL_TYPE)
    else
      reply_text
        "Извините, я не могу найти параметры для этой операции. Попробуйте снова."
        None ;;
      ret (Some END).

(** [tool_type(update, context)]; where no branch returns, the function
    returns [None]. *)
Definition tool_type (text : string) : M (option state) :=
  let tool_type := str_lower text in
  if tool_type =? "/start" then start
  else
    set_tool_type tool_type ;;
    material <- ud_getitem ud_material ;;
    operation <- ud_getitem ud_operation ;;
    ops <- lift (dict_getitem String.eqb cutting_parameters material) ;;
    tts <- lift (dict_getitem String.eqb ops operation) ;;
    if dict_contains String.eqb tts tool_type then
      if operation =? "фрезерование" then
        if (tool_type =? "монолитная") || (tool_type =? "с_пластинами") then
          ts <- lift (subscript material operation tool_type) ;;
          reply_text "Выберите тип фрезы:" (Some (keyboard_of (dict_keys ts))) ;;
          ret (Some TOOL_SUBTYPE)
        else ret None
      else if operation =? "точение" then
        if tool_type =? "канавочный" then
          reply_text "Введите ширину пластины (в мм):" None ;;
          ret (Some GROOVE_WIDTH)
        else if tool_type =? "проходной" then
          l <- lift (subscript4 material operation tool_type "радиус_пластины") ;;
          reply_text "Выберите радиус пластины (в мм):"
            (Some (keyboard_of (leaf_key_names l))) ;;
          ret (Some RADIUS)
        else ret None
      else if operation =? "сверление" then
        if tool_type =? "монолитное" then
          ts <- lift (subscript material operation tool_type) ;;
          reply_text "Выберите тип сверла:" (Some (keyboard_of (dict_keys ts))) ;;
          ret (Some TOOL_SUBTYPE)
        else
          reply_text "Введите диаметр сверла (в мм):" None ;;
          ret (Some DIAMETER)
      else ret None
    else
      reply_text
        "Извините, я не могу найти параметры для этого типа инструмента. Попробуйте снова."
        None ;;
      ret (Some END).

(** [tool_subtype(update, context)] *)
Definition tool_subtype (text : string) : M (option state) :=
  let tool_subtype := str_lower text in
  if tool_subtype =? "/start" then start
  else
    set_tool_subtype tool_subtype ;;
    operation <- ud_getitem ud_operation ;;
    if operation =? "фрезерование" then
      reply_text "Введите диаметр фрезы (в мм):" None ;;
      ret (Some DIAMETER)
    else if operation =? "сверление" then
      reply_text "Введите диаметр сверла (в мм):" None ;;
      ret (Some DIAMETER)
    else
      reply_text "Извините, произошла ошибка. Попробуйте снова." None ;;
      ret (Some END).

Definition ask_depth_of_cut : string :=
  "Введите глубину резания в мм (используйте точку для десятичных значений):".

(** [diameter(update, context)] *)
Definition diameter (text : string) : M (option state) :=
  try_except
    (diameter <- lift (py_float (replace_comma text)) ;;
     set_diameter diameter ;;
     operation <- ud_getitem ud_operation ;;
     if operation =? "фрезерование" then
       reply_text "Введите количество зубьев фрезы:" None ;;
       ret (Some NUMBER_OF_TEETH)
     else if operation =? "сверление" then
       params <- get_cutting_parameters ;;
       match params with
       | Some p =>
           if negb (params_truthy params) then
             reply_text no_parameters None ;; ret (Some END)
           else
             s <- lift (params_speed p) ;;
             recommended_speed <- lift (mean_int s) ;;
             f <- lift (params_feed p) ;;
             recommended_feed <- lift (mean_float f) ;;
             n <- lift (float_truediv (1000 * recommended_speed)
                                      (math_pi * diameter)) ;;
             let feed_per_minute := (recommended_feed * n)%float in
             result_message <-
               format_result recommended_speed recommended_feed None
                             (Some n) (Some feed_per_minute) None None ;;
             reply_text result_message (Some start_keyboard) ;;
             ret (Some END)
       | None => reply_text no_parameters None ;; ret (Some END)
       end
     else
       reply_text ask_depth_of_cut None ;;
       ret (Some DEPTH_OF_CUT))
    ValueError
    (reply_text
       "Пожалуйста, введите числовое значение для диаметра (используйте точку для десятичных значений)."
       None ;;
     ret (Some DIAMETER)).

(** [number_of_teeth(update, context)] *)
Definition number_of_teeth (text : string) : M (option state) :=
  try_except
    (number_of_teeth <- lift (py_int text) ;;
     set_number_of_teeth number_of_teeth ;;
     reply_text ask_depth_of_cut None ;;
     ret (Some DEPTH_OF_CUT))
    ValueError
    (reply_text "Пожалуйста, введите целое число для количества зубьев." None ;;
     ret (Some NUMBER_OF_TEETH)).

Definition depth_of_cut_retry : string :=
  "Пожалуйста, введите числовое значение для глубины резания (используйте точку для десятичных значений).".

(** [depth_of_cut(update, context)] *)
Definition depth_of_cut (text : string) : M (option state) :=
  try_except
    (depth_of_cut <- lift (py_float (replace_comma text)) ;;
     set_depth_of_cut depth_of_cut ;;
     params <- get_cutting_parameters ;;
     match params with
     | Some p =>
         if negb (params_truthy params) then
           reply_text no_parameters None ;; ret (Some END)
         else
           diameter <- ud_get ud_diameter ;;
           tool_subtype <- ud_get ud_tool_subtype ;;
           cutting_width <-
             match diameter, tool_subtype with
             | Some d, Some t =>
                 if float_truthy d && negb (t =? "")
                 then lift (calculate_cutting_width d depth_of_cut t)
                 else ret None
             | _, _ => ret None
             end ;;
           let overlap :=
             match diameter with
             | Some d =>
                 if float_truthy d then calculate_overlap d depth_of_cut
                 else None
             | None => None
             end in
           s <- lift (params_speed p) ;;
           recommended_speed <- lift (mean_int s) ;;
           f <- lift (params_feed p) ;;
           recommended_feed <- lift (mean_float f) ;;
           recommended_depth <-
             match params_depth p with
             | Some r => v <- lift (mean_int r) ;; ret (Some v)
             | None => ret None
             end ;;
           diameter' <- ud_get ud_diameter ;;
           n <-
             match diameter' with
             | Some d =>
                 if float_truthy d then
                   v <- lift (float_truediv (1000 * recommended_speed)
                                            (math_pi * d)) ;;
                   ret (Some v)
                 else ret None
             | None => ret None
             end ;;
           let feed_per_minute :=
             match n with
             | Some v =>
                 if float_truthy v then Some (recommended_feed * v)%float
                 else None
             | None => None
             end in
           result_message <-
             format_result recommended_speed recommended_feed
                           recommended_depth n feed_per_minute
                           cutting_width overlap ;;
           reply_text result_message (Some start_keyboard) ;;
           ret (Some END)
     | None => reply_text no_parameters None ;; ret (Some END)
     end)
    ValueError
    (reply_text depth_of_cut_retry None ;;
     ret (Some DEPTH_OF_CUT)).

Definition new_calculation : string := "Для нового расчета нажмите /start".

(** [radius(update, context)] *)
Definition radius (text : string) : M (option state) :=
  try_except
    (radius <- lift (py_float (replace_comma text)) ;;
     set_radius radius ;;
     params <- get_cutting_parameters ;;
     match params with
     | Some p =>
         if negb (params_truthy params) then
           reply_text no_parameters None ;; ret (Some END)
         else
           s <- lift (params_speed p) ;;
           recommended_speed <- lift (mean_int s) ;;
           f <- lift (params_feed p) ;;
           recommended_feed <- lift (mean_float f) ;;
           recommended_depth <-
             match params_depth p with
             | Some r => v <- lift (mean_int r) ;; ret (Some v)
             | None => ret None
             end ;;
           material <- ud_getitem ud_material ;;
           operation <- ud_getitem ud_operation ;;
           reply_text
             ("Рекомендованные параметры для " ++ material ++ " (" ++ operation
              ++ ") с пластиной радиусом " ++ str_of_float radius ++ " мм:")
             None ;;
           reply_text
             ("Скорость резания: " ++ format_f 1 recommended_speed ++ " м/мин")
             None ;;
           reply_text ("Подача: " ++ format_f 2 recommended_feed ++ " мм/об")
             None ;;
           (if opt_float_truthy recommended_depth then
              match recommended_depth with
              | Some v =>
                  reply_text ("Глубина резания: " ++ format_f 1 v ++ " мм") None
              | None => ret tt
              end
            else ret tt) ;;
           reply_text new_calculation (Some start_keyboard) ;;
           ret (Some END)
     | None => reply_text no_parameters None ;; ret (Some END)
     end)
    ValueError
    (reply_text
       "Пожалуйста, введите числовое значение для радиуса (используйте точку для десятичных значений)."
       None ;;
     ret (Some RADIUS)).

(** [groove_width(update, context)] *)
Definition groove_width (text : string) : M (option state) :=
  try_except
    (groove_width <- lift (py_float (replace_comma text)) ;;
     set_groove_width groove_width ;;
     params <- get_cutting_parameters ;;
     match params with
     | Some p =>
         if negb (params_truthy params) then
           reply_text no_parameters None ;; ret (Some END)
         else
           s <- lift (params_speed p) ;;
           recommended_speed <- lift (mean_int s) ;;
           f <- lift (params_feed p) ;;
           recommended_feed <- lift (mean_float f) ;;
           material <- ud_getitem ud_material ;;
           operation <- ud_getitem ud_operation ;;
           reply_text
             ("Рекомендованные параметры для " ++ material ++ " (" ++ operation
              ++ ") с шириной канавки " ++ str_of_float groove_width ++ " мм:")
             None ;;
           reply_text
             ("Скорость резания: " ++ format_f 1 recommended_speed ++ " м/мин")
             None ;;
           reply_text ("Подача: " ++ format_f 2 recommended_feed ++ " мм/об")
             None ;;
           reply_text new_calculation (Some start_keyboard) ;;
           ret (Some END)
     | None => reply_text no_parameters None ;; ret (Some END)
     end)
    ValueError
    (reply_text
       "Пожалуйста, введите числовое значение для ширины канавки (используйте точку для десятичных значений)."
       None ;;
     ret (Some GROOVE_WIDTH)).

(** [cancel(update, context)] (the log line is not modelled). *)
Definition cancel : M (option state) :=
  reply_text "Операция отменена." (Some start_keyboard) ;;
  ret (Some END).

(** ** The conversation handler built in [main] *)

(** An incoming text message.  [command] is the name of the bot command the
    message starts with (lower case, without the slash), when Telegram
    marked one at its first character. *)
Record message : Type := mk_message {
  text : string;
  command : option string
}.

(** [states]: every state's [MessageHandler(Filters.text & ~Filters.command,
    handler)]. *)
Definition states (s : state) : option (string -> M (option state)) :=
  match s with
  | MATERIAL => Some material
  | OPERATION => Some operation
  | TOOL_TYPE => Some tool_type
  | TOOL_SUBTYPE => Some tool_subtype
  | DIAMETER => Some diameter
  | NUMBER_OF_TEETH => Some number_of_teeth
  | DEPTH_OF_CUT => Some depth_of_cut
  | RADIUS => Some radius
  | GROOVE_WIDTH => Some groove_width
  | END => None
  end.

(** [entry_points]: [CommandHandler('start', start)]. *)
Definition entry_points (cmd : string) : option (M (option state)) :=
  if cmd =? "start" then Some start else None.

(** [fallbacks]: [CommandHandler('cancel', cancel)], then
    [CommandHandler('start', start)]. *)
Definition fallbacks (cmd : string) : option (M (option state)) :=
  if cmd =? "cancel" then Some cancel
  else if cmd =? "start" then Some start
  else None.

(** One user's conversation: the state stored by the conversation handler
    ([None] while no conversation is running) and the chat. *)
Record conversation : Type := mk_conversation {
  current : option state;
  chat_of : chat
}.

(** The handler that takes a message: an entry point when no conversation
    runs; otherwise the handler of the current state for a text that is not
    a command, and the first matching fallback for a command. *)
Definition select (cur : option state) (msg : message)
    : option (M (option state)) :=
  match cur with
  | None =>
      match command msg with
      | Some cmd => entry_points cmd
      | None => None
      end
  | Some s =>
      match command msg with
      | None =>
          match states s with
          | Some h => Some (h (text msg))
          | None => None
          end
      | Some cmd => fallbacks cmd
      end
  end.

(** The state stored after a handler returned [r]: [None] keeps the state,
    [END] closes the conversation. *)
Definition update_state (cur : option state) (r : option state) : option state :=
  match r with
  | None => cur
  | Some END => None
  | Some s => Some s
  end.

(** [conv_handler] on one message.  A message no handler takes changes
    nothing; an exception that leaves a handler is reported to the
    dispatcher (second component) and leaves the state as it was. *)
Definition conv_handler (cv : conversation) (msg : message)
    : conversation * option exn :=
  match select (current cv) msg with
  | None => (cv, None)
  | Some h =>
      match h (chat_of cv) with
      | (Ret r, c) => (mk_conversation (update_state (current cv) r) c, None)
      | (Raise e, c) => (mk_conversation (current cv) c, Some e)
      end
  end.

(** The conversation after a sequence of messages. *)
Fixpoint run (cv : conversation) (msgs : list message) : conversation :=
  match msgs with
  | [] => cv
  | msg :: rest => run (fst (conv_handler cv msg)) rest
  end.

End Handlers.

(** No conversation, nothing stored, nothing sent. *)
Definition idle : conversation := mk_conversation None (mk_chat no_data []).

(** ** A reference implementation of the built-ins

    [str.lower] on the Basic Latin and Cyrillic letters (other characters are
    kept), [float] and [int] on ASCII digits and ASCII white space, and the
    shortest decimal that reads back as the float for [str].

    These are Python's built-ins on the texts the examples use: ASCII
    characters and the Cyrillic letters U+0400..U+045F.  Outside of them they
    are not: Python's [float] and [int] also read the decimal digits and the
    white space of other scripts, and [str.lower] changes every cased letter.
    No property below is stated of this instance for an arbitrary text: the
    properties hold for every instance of [Builtins], and this one only
    evaluates the examples. *)
Module Reference.

Definition code (c : ascii) : N := N_of_ascii c.

Definition between (lo hi n : N) : bool := (lo <=? n)%N && (n <=? hi)%N.

Definition lower_ascii (c : ascii) : ascii :=
  if between 65 90 (code c) then ascii_of_N (code c + 32) else c.

(** Lower case on UTF-8: [A-Z], and the two-byte sequences of
    U+0400..U+042F, which map to U+0450..U+045F and U+0430..U+044F. *)
Fixpoint lower (s : string) : string :=
  match s with
  | EmptyString => EmptyString
  | String c1 tail =>
      match tail with
      | String c2 rest =>
          if (code c1 =? 208)%N then
            if between 128 143 (code c2) then
              String (ascii_of_N 209) (String (ascii_of_N (code c2 + 16)) (lower rest))
            else if between 144 159 (code c2) then
              String c1 (String (ascii_of_N (code c2 + 32)) (lower rest))
            else if between 160 175 (code c2) then
              String (ascii_of_N 209) (String (ascii_of_N (code c2 - 32)) (lower rest))
            else String c1 (lower tail)
          else String (lower_ascii c1) (lower tail)
      | EmptyString => String (lower_ascii c1) EmptyString
      end
  end.

(** *** Reading numbers *)

Definition is_space (c : ascii) : bool :=
  between 9 13 (code c) || (code c =? 32)%N.

Definition is_digit (c : ascii) : bool := between 48 57 (code c).

Fixpoint drop_spaces (s : list ascii) : list ascii :=
  match s with
  | c :: rest => if is_space c then drop_spaces rest else s
  | [] => []
  end.

Definition strip (s : list ascii) : list ascii :=
  rev (drop_spaces (rev (drop_spaces s))).

(** The longest prefix made of digits and underscores, and the rest. *)
Fixpoint span_group (s : list ascii) : list ascii * list ascii :=
  match s with
  | c :: rest =>
      if is_digit c || Ascii.eqb c "_" then
        let (g, r) := span_group rest in (c :: g, r)
      else ([], s)
  | [] => ([], [])
  end.

(** Every underscore of the group stands between two digits. *)
Fixpoint group_ok (after_digit : bool) (g : list ascii) : bool :=
  match g with
  | [] => after_digit
  | c :: rest =>
      if is_digit c then group_ok true rest
      else after_digit
           && match rest with d :: _ => is_digit d | [] => false end
           && group_ok false rest
  end.

Definition opt_group_ok (g : list ascii) : bool :=
  match g with [] => true | _ => group_ok false g end.

Definition digits_of (g : list ascii) : list ascii := filter is_digit g.

Definition number_of (ds : list ascii) : Z :=
  fold_left (fun acc c => (10 * acc + Z.of_N (code c - 48))%Z) ds 0%Z.

(** An optional sign: whether it is a minus, and the rest. *)
Definition take_sign (s : list ascii) : bool * list ascii :=
  match s with
  | c :: rest =>
      if Ascii.eqb c "-" then (true, rest)
      else if Ascii.eqb c "+" then (false, rest)
      else (false, s)
  | [] => (false, [])
  end.

(** [digits * 10 ^ exp10] as a float. *)
Definition decimal (neg : bool) (digits exp10 : Z) : float :=
  match exp10 with
  | Zneg k => nearest_float neg digits (Z.pow 10 (Zpos k))
  | _ => nearest_float neg (digits * Z.pow 10 exp10) 1
  end.

(** The exponent part: nothing, or [e] or [E], a sign and digits. *)
Definition exponent_of (s : list ascii) : option Z :=
  match s with
  | [] => Some 0%Z
  | c :: rest =>
      if Ascii.eqb c "e" || Ascii.eqb c "E" then
        let (neg, rest') := take_sign rest in
        let (g, tail) := span_group rest' in
        match g, tail with
        | _ :: _, [] =>
            if group_ok false g then
              Some (if neg then - number_of (digits_of g)
                    else number_of (digits_of g))%Z
            else None
        | _, _ => None
        end
      else None
  end.

Definition word (s : list ascii) : string :=
  string_of_list_ascii (map lower_ascii s).

(** [float(s)] *)
Definition parse_float (s : string) : option float :=
  let (neg, body) := take_sign (strip (list_ascii_of_string s)) in
  if (word body =? "inf") || (word body =? "infinity") then
    Some (if neg then neg_infinity else infinity)
  else if word body =? "nan" then Some nan
  else
    let (ip, r1) := span_group body in
    let (fp, r2) :=
      match r1 with
      | c :: r =>
          if Ascii.eqb c "." then span_group r else ([], r1)
      | [] => ([], [])
      end in
    if opt_group_ok ip && opt_group_ok fp
       && negb (Nat.eqb (List.length ip + List.length fp) 0) then
      match exponent_of r2 with
      | Some e =>
          let frac := digits_of fp in
          Some (decimal neg (number_of (digits_of ip ++ frac))
                        (e - Z.of_nat (List.length frac)))
      | None => None
      end
    else None.

(** [int(s)] *)
Definition parse_int (s : string) : option Z :=
  let (neg, body) := take_sign (strip (list_ascii_of_string s)) in
  let (g, tail) := span_group body in
  match g, tail with
  | _ :: _, [] =>
      if group_ok false g then
        Some (if neg then - number_of (digits_of g) else number_of (digits_of g))%Z
      else None
  | _, _ => None
  end.

(** *** Writing a float *)

(** [10 ^ t <= p / q], for positive [p] and [q]. *)
Definition pow10_le (t p q : Z) : bool :=
  match t with
  | Zneg k => (q <=? p * Z.pow 10 (Zpos k))%Z
  | _ => (Z.pow 10 t * q <=? p)%Z
  end.

Fixpoint climb (fuel : nat) (t p q : Z) : Z :=
  match fuel with
  | O => t
  | S f => if pow10_le (t + 1) p q then climb f (t + 1) p q else t
  end.

(** The [t] with [10 ^ t <= p / q < 10 ^ (t + 1)]. *)
Definition decimal_exponent (p q : Z) : Z :=
  let lg := (Z.log2 p - Z.log2 q)%Z in
  climb 8 ((lg - 1) * 30103 / 100000 - 2)%Z p q.

(** The shortest decimal [c * 10 ^ e] that reads back as [x], the nearest to
    [x = p / q] among those with as few digits; [k] digits are tried, then
    more. *)
Fixpoint shortest (fuel k : nat) (x : float) (p q t : Z) : Z * Z :=
  let e := (t - Z.of_nat k + 1)%Z in
  let '(p', q') :=
    match e with
    | Zneg j => (p * Z.pow 10 (Zpos j), q)%Z
    | _ => (p, q * Z.pow 10 e)%Z
    end in
  let lo := (p' / q')%Z in
  let hi := (lo + 1)%Z in
  let reads c := Leibniz.eqb (decimal false c e) x in
  let nearer_lo :=
    match (2 * p' ?= (2 * lo + 1) * q')%Z with
    | Lt => true
    | Gt => false
    | Eq => Z.even lo
    end in
  match reads lo, reads hi with
  | true, true => if nearer_lo then (lo, e) else (hi, e)
  | true, false => (lo, e)
  | false, true => (hi, e)
  | false, false =>
      match fuel with
      | O => (lo, e)
      | S f => shortest f (S k) x p q t
      end
  end.

(** Trailing zeros of the digits moved into the exponent. *)
Fixpoint trim (fuel : nat) (c e : Z) : Z * Z :=
  match fuel with
  | O => (c, e)
  | S f => if (c mod 10 =? 0)%Z then trim f (c / 10) (e + 1) else (c, e)
  end.

Fixpoint take (n : nat) (s : string) : string :=
  match n, s with
  | S k, String c rest => String c (take k rest)
  | _, _ => EmptyString
  end.

Fixpoint drop (n : nat) (s : string) : string :=
  match n, s with
  | S k, String _ rest => drop k rest
  | _, _ => s
  end.

(** The digits [ds] with the decimal point after the first [point] of them:
    plain notation for [-4 < point <= 16], scientific otherwise. *)
Definition layout (ds : string) (point : Z) : string :=
  let n := Z.of_nat (String.length ds) in
  if ((-4 <? point) && (point <=? 16))%Z then
    if (point <=? 0)%Z then "0." ++ zeros (Z.to_nat (- point)) ++ ds
    else if (n <=? point)%Z then ds ++ zeros (Z.to_nat (point - n)) ++ ".0"
    else take (Z.to_nat point) ds ++ "." ++ drop (Z.to_nat point) ds
  else
    let e := (point - 1)%Z in
    take 1 ds
    ++ (if (1 <? n)%Z then "." ++ drop 1 ds else "")
    ++ "e" ++ (if (e <? 0)%Z then "-" else "+")
    ++ pad_digits 2 (Z.to_N (Z.abs e)).

(** [str(x)] *)
Definition repr (x : float) : string :=
  match Prim2SF x with
  | S754_nan => "nan"
  | S754_infinity s => if s then "-inf" else "inf"
  | S754_zero s => if s then "-0.0" else "0.0"
  | S754_finite s m e =>
      let '(p, q) := fraction_of m e in
      let '(c, e10) :=
        shortest 17 1 (abs x) p q (decimal_exponent p q) in
      let '(c, e10) := trim 17 c e10 in
      let ds := string_of_N (Z.to_N c) in
      (if s then "-" else "")
      ++ layout ds (Z.of_nat (String.length ds) + e10)
  end.
End Reference.

(** The reference built-ins. *)
#[global] Instance reference_builtins : Builtins := {
  str_lower := Reference.lower;
  float_of_str := Reference.parse_float;
  int_of_str := Reference.parse_int;
  str_of_float := Reference.repr
}.

(** ** What the properties are stated with *)

Definition is_entry (l : leaf) : bool :=
  match l with Entry _ => true | ByDimension _ => false end.

(** [l] is an entry, one of the catalog's. *)
Definition listed (l : leaf) : Prop :=
  exists e, l = Entry e /\ In e catalog_entries.

(** The keys of the dict a leaf of the turning operation holds. *)
Definition dimension_keys (l : leaf) : list float :=
  match l with ByDimension d => dict_keys d | Entry _ => [] end.

Definition float_list_eqb (a b : list float) : bool :=
  (Nat.eqb (List.length a) (List.length b))
  && forallb (fun p => Leibniz.eqb (fst p) (snd p)) (combine a b).

(** The shape of the catalog: below milling and drilling every tool type maps
    subtype names to entries; below turning every tool type maps exactly
    [dimension] to the dict keyed by [keys]. *)
Definition tools_shape (operation tool_type : string) (ts : tools) : bool :=
  if operation =? "точение" then
    let expect dimension keys :=
      match ts with
      | [(k, l)] =>
          (k =? dimension) && negb (is_entry l)
          && float_list_eqb (dimension_keys l) keys
      | _ => false
      end in
    if tool_type =? "проходной" then expect "радиус_пластины" [0.4; 0.8; 1.2]%float
    else if tool_type =? "канавочный" then expect "ширина_пластины" [2.0; 3.0; 4.0]%float
    else false
  else forallb is_entry (dict_values ts).

Definition catalog_shape : bool :=
  forallb (fun mo : string * operations =>
    forallb (fun ot : string * tool_types =>
      forallb (fun tt : string * tools => tools_shape (fst ot) (fst tt) (snd tt))
              (snd ot))
            (snd mo))
          cutting_parameters.

(** The tool types of each operation, as the handlers test them. *)
Definition tool_types_of (operation : string) : list string :=
  if operation =? "фрезерование" then ["монолитная"; "с_пластинами"]
  else if operation =? "точение" then ["проходной"; "канавочный"]
  else if operation =? "сверление" then ["монолитное"; "со_сменными_пластинами"]
  else [].

Definition string_list_eqb (a b : list string) : bool :=
  (Nat.eqb (List.length a) (List.length b))
  && forallb (fun p => String.eqb (fst p) (snd p)) (combine a b).

(** Every material offers the three operations, each with its tool types. *)
Definition catalog_keys_ok : bool :=
  forallb (fun mo : string * operations =>
    string_list_eqb (dict_keys (snd mo)) ["фрезерование"; "точение"; "сверление"]
    && forallb (fun ot : string * tool_types =>
         string_list_eqb (dict_keys (snd ot)) (tool_types_of (fst ot)))
       (snd mo))
    cutting_parameters.

(** [needle] occurs in [hay]. *)
Fixpoint occurs (needle hay : string) : bool :=
  String.prefix needle hay
  || match hay with
     | EmptyString => false
     | String _ rest => occurs needle rest
     end.

(** The same chat with [v] stored by [f] and the replies [rs] sent. *)
Definition after (c : chat) (f : user_data -> user_data) (rs : list reply) : chat :=
  mk_chat (f (data c)) (sent c ++ rs).

Definition with_diameter (v : float) (u : user_data) : user_data :=
  mk_user_data (ud_material u) (ud_operation u) (ud_tool_type u)
    (ud_tool_subtype u) (Some v) (ud_number_of_teeth u)
    (ud_depth_of_cut u) (ud_radius u) (ud_groove_width u).

Definition with_depth_of_cut (v : float) (u : user_data) : user_data :=
  mk_user_data (ud_material u) (ud_operation u) (ud_tool_type u)
    (ud_tool_subtype u) (ud_diameter u) (ud_number_of_teeth u)
    (Some v) (ud_radius u) (ud_groove_width u).

Definition with_radius (v : float) (u : user_data) : user_data :=
  mk_user_data (ud_material u) (ud_operation u) (ud_tool_type u)
    (ud_tool_subtype u) (ud_diameter u) (ud_number_of_teeth u)
    (ud_depth_of_cut u) (Some v) (ud_groove_width u).

Definition with_groove_width (v : float) (u : user_data) : user_data :=
  mk_user_data (ud_material u) (ud_operation u) (ud_tool_type u)
    (ud_tool_subtype u) (ud_diameter u) (ud_number_of_teeth u)
    (ud_depth_of_cut u) (ud_radius u) (Some v).

(** The keys offered at an enum-valued prompt: the keys of the catalog at the
    path stored so far. *)
Definition options_at (s : state) (u : user_data) : option (list string) :=
  match s with
  | MATERIAL => Some (dict_keys cutting_parameters)
  | OPERATION =>
      match ud_material u with
      | Some m => option_map dict_keys (dict_get String.eqb cutting_parameters m)
      | None => None
      end
  | TOOL_TYPE =>
      match ud_material u, ud_operation u with
      | Some m, Some o =>
          match dict_get String.eqb cutting_parameters m with
          | Some ops => option_map dict_keys (dict_get String.eqb ops o)
          | None => None
          end
      | _, _ => None
      end
  | _ => None
  end.

Definition mem (k : string) (keys : list string) : bool :=
  existsb (String.eqb k) keys.

(** The terminal reply of each enum-valued prompt to an unknown value. *)
Definition not_found (s : state) : string :=
  match s with
  | MATERIAL =>
      "Извините, я не могу найти параметры для этого материала. Попробуйте снова."
  | OPERATION =>
      "Извините, я не могу найти параметры для этой операции. Попробуйте снова."
  | _ =>
      "Извините, я не могу найти параметры для этого типа инструмента. Попробуйте снова."
  end.

(** The reply of each numeric prompt to a text that is not a number. *)
Definition retry (s : state) : string :=
  match s with
  | DIAMETER =>
      "Пожалуйста, введите числовое значение для диаметра (используйте точку для десятичных значений)."
  | DEPTH_OF_CUT => depth_of_cut_retry
  | RADIUS =>
      "Пожалуйста, введите числовое значение для радиуса (используйте точку для десятичных значений)."
  | _ =>
      "Пожалуйста, введите числовое значение для ширины канавки (используйте точку для десятичных значений)."
  end.

Definition greeting : reply :=
  mk_reply
    ("Привет! Я помогу вам выбрать оптимальные режимы резания. "
     ++ "Для начала выберите материал заготовки:")
    (Some [["сталь"]; ["цветной_металл"]; ["/start"]]).

(** The conversation a restart leaves: the first prompt, nothing stored. *)
Definition restarted (cv : conversation) : conversation :=
  mk_conversation (Some MATERIAL)
    (mk_chat no_data (sent (chat_of cv) ++ [greeting])).

Definition enum_state (s : state) : bool :=
  match s with
  | MATERIAL | OPERATION | TOOL_TYPE | TOOL_SUBTYPE => true
  | _ => false
  end.

Definition numeric_state (s : state) : bool :=
  match s with
  | DIAMETER | DEPTH_OF_CUT | RADIUS | GROOVE_WIDTH => true
  | _ => false
  end.

Definition asks (s : state) : bool :=
  match s with
  | MATERIAL | OPERATION | TOOL_TYPE => true
  | _ => false
  end.

(** The dict after the answer [v] to the prompt of [s] is stored. *)
Definition with_answer (s : state) (v : string) (u : user_data) : user_data :=
  match s with
  | MATERIAL =>
      mk_user_data (Some v) (ud_operation u) (ud_tool_type u)
        (ud_tool_subtype u) (ud_diameter u) (ud_number_of_teeth u)
        (ud_depth_of_cut u) (ud_radius u) (ud_groove_width u)
  | OPERATION =>
      mk_user_data (ud_material u) (Some v) (ud_tool_type u)
        (ud_tool_subtype u) (ud_diameter u) (ud_number_of_teeth u)
        (ud_depth_of_cut u) (ud_radius u) (ud_groove_width u)
  | TOOL_TYPE =>
      mk_user_data (ud_material u) (ud_operation u) (Some v)
        (ud_tool_subtype u) (ud_diameter u) (ud_number_of_teeth u)
        (ud_depth_of_cut u) (ud_radius u) (ud_groove_width u)
  | _ => u
  end.

(** The prompt that follows an accepted answer. *)
Definition moves (s s' : state) : bool :=
  match s, s' with
  | MATERIAL, OPERATION | OPERATION, TOOL_TYPE
  | TOOL_TYPE, (TOOL_SUBTYPE | RADIUS | GROOVE_WIDTH | DIAMETER) => true
  | _, _ => false
  end.

(** The keys of the two dimension dicts. *)
Definition radii : list float := [0.4; 0.8; 1.2]%float.
Definition widths : list float := [2.0; 3.0; 4.0]%float.

(** [x] equals one of [keys]. *)
Definition is_key (x : float) (keys : list float) : bool :=
  existsb (PrimFloat.eqb x) keys.

Definition dimension_keys_of (s : state) : list float :=
  match s with RADIUS => radii | _ => widths end.

Definition with_dimension (s : state) (x : float) (u : user_data) : user_data :=
  match s with
  | RADIUS => with_radius x u
  | GROOVE_WIDTH => with_groove_width x u
  | _ => u
  end.

Definition dimension_state (s : state) : bool :=
  match s with RADIUS | GROOVE_WIDTH => true | _ => false end.

(** The means the handlers take of an entry's ranges are defined. *)
Definition means_ok (e : entry) : bool :=
  match int_truediv (fst (speed e) + snd (speed e)) 2 with
  | Ret _ => true
  | Raise _ => false
  end
  && match depth e with
     | Some r =>
         match int_truediv (fst r + snd r) 2 with
         | Ret _ => true
         | Raise _ => false
         end
     | None => true
     end.

(** A text message and the [/start] command. *)
Definition say (s : string) : message := mk_message s None.
Definition start_command : message := mk_message "/start" (Some "start").

(** The answers that lead to the diameter prompt of a solid carbide drill in
    steel, and to the depth prompt of a 10 mm ball-nose cutter with 4 teeth. *)
Definition drilling_answers : list message :=
  [start_command; say "сталь"; say "сверление"; say "монолитное";
   say "твердый_сплав"].

Definition ball_nose_answers : list message :=
  [start_command; say "сталь"; say "фрезерование"; say "монолитная";
   say "сферическая"; say "10"; say "4"].

Definition profiling_answers : list message :=
  [start_command; say "сталь"; say "точение"; say "проходной"].

Definition grooving_answers : list message :=
  [start_command; say "сталь"; say "точение"; say "канавочный"].

(** The body of the last reply sent. *)
Definition last_body (cv : conversation) : string :=
  reply_body (last (sent (chat_of cv)) (mk_reply "" None)).

(** The result the bot sends for the drilling answers and the diameter 10. *)
Definition drilling_message : string :=
  "Рекомендованные параметры для сталь (сверление) с инструментом монолитное (твердый_сплав):"
  ++ newline ++ "Скорость резания: 85.0 м/мин"
  ++ newline ++ "Подача: 0.15 мм/об"
  ++ newline ++ "Минутная подача: 405.8 мм/мин"
  ++ newline ++ "Частота вращения шпинделя: 2706 об/мин"
  ++ newline
  ++ newline ++ "Если вам понравился бот, вы можете поддержать автора Дмитрий П.:"
  ++ newline ++ "💳 Счет Сбербанк для поддержки: 2202 2081 6242 6036"
  ++ newline ++ "📧 Обратная связь: fetamlet@yandex.ru".

Section Reachability.
Context {B : Builtins}.

(** The conversations the bot can be in: those [conv_handler] leads to from
    the idle one. *)
Inductive reachable : conversation -> Prop :=
| reachable_idle : reachable idle
| reachable_step cv msg :
    reachable cv -> reachable (fst (conv_handler cv msg)).

(** The material stored is a key of the catalog, and so on down the path. *)
Definition path1 (u : user_data) : Prop :=
  exists m ops,
    ud_material u = Some m
    /\ dict_get String.eqb cutting_parameters m = Some ops.

Definition path2 (u : user_data) : Prop :=
  exists m ops o tts,
    ud_material u = Some m
    /\ dict_get String.eqb cutting_parameters m = Some ops
    /\ ud_operation u = Some o
    /\ dict_get String.eqb ops o = Some tts.

Definition path3 (u : user_data) : Prop :=
  exists m ops o tts t ts,
    ud_material u = Some m
    /\ dict_get String.eqb cutting_parameters m = Some ops
    /\ ud_operation u = Some o
    /\ dict_get String.eqb ops o = Some tts
    /\ ud_tool_type u = Some t
    /\ dict_get String.eqb tts t = Some ts.

(** What each state of the conversation guarantees about the answers
    stored. *)
Definition state_inv (s : state) (u : user_data) : Prop :=
  match s with
  | MATERIAL | END => True
  | OPERATION => path1 u
  | TOOL_TYPE => path2 u
  | TOOL_SUBTYPE =>
      path3 u
      /\ ((ud_operation u = Some "фрезерование")
          \/ (ud_operation u = Some "сверление"
              /\ ud_tool_type u = Some "монолитное"))
  | DIAMETER =>
      path3 u
      /\ ((ud_operation u = Some "фрезерование" /\ ud_tool_subtype u <> None)
          \/ (ud_operation u = Some "сверление"
              /\ (ud_tool_type u = Some "со_сменными_пластинами"
                  \/ ud_tool_subtype u <> None)))
  | NUMBER_OF_TEETH | DEPTH_OF_CUT =>
      path3 u
      /\ ud_operation u = Some "фрезерование"
      /\ ud_tool_subtype u <> None
      /\ ud_diameter u <> None
  | RADIUS =>
      path3 u
      /\ ud_operation u = Some "точение"
      /\ ud_tool_type u = Some "проходной"
  | GROOVE_WIDTH =>
      path3 u
      /\ ud_operation u = Some "точение"
      /\ ud_tool_type u = Some "канавочный"
  end.

Definition conv_inv (cv : conversation) : Prop :=
  match current cv with
  | Some s => s <> END /\ state_inv s (data (chat_of cv))
  | None => True
  end.
(** The handler [h], run in the state [S], keeps the invariant: if it
    returns, the conversation it leaves satisfies it, and if it raises, the
    state is kept and its invariant still holds. *)
Definition preserves (S : state) (h : M (option state)) : Prop :=
  forall c, state_inv S (data c) ->
    wp h (fun r c' =>
      match r with
      | Ret r => conv_inv (mk_conversation (update_state (Some S) r) c')
      | Raise e => state_inv S (data c')
      end) c.
End Reachability.

(** ** What the further properties are stated with *)

(** The dict after the subtype [v] is stored. *)
Definition with_tool_subtype (v : string) (u : user_data) : user_data :=
  mk_user_data (ud_material u) (ud_operation u) (ud_tool_type u)
    (Some v) (ud_diameter u) (ud_number_of_teeth u)
    (ud_depth_of_cut u) (ud_radius u) (ud_groove_width u).

(** The prompt for the diameter, of a cutter or of a drill. *)
Definition diameter_prompt (operation : string) : string :=
  if operation =? "фрезерование" then "Введите диаметр фрезы (в мм):"
  else "Введите диаметр сверла (в мм):".

(** The paths on which the lookup reads the subtype. *)
Definition reads_subtype (operation tool_type : string) : bool :=
  (operation =? "фрезерование")
  || ((operation =? "сверление") && (tool_type =? "монолитное")).

(** The answers a prompt offers on its keyboard: the keys of the catalog at
    the path stored so far, for a radius written with [str]; [None] where the
    prompt has no keyboard. *)
Definition choices {B : Builtins} (s : state) (u : user_data)
    : option (list string) :=
  match s with
  | TOOL_SUBTYPE =>
      match ud_material u, ud_operation u, ud_tool_type u with
      | Some m, Some o, Some t =>
          match subscript m o t with
          | Ret ts => Some (dict_keys ts)
          | Raise _ => None
          end
      | _, _, _ => None
      end
  | RADIUS =>
      match ud_material u, ud_operation u, ud_tool_type u with
      | Some m, Some o, Some t =>
          match subscript4 m o t "радиус_пластины" with
          | Ret l => Some (leaf_key_names l)
          | Raise _ => None
          end
      | _, _, _ => None
      end
  | _ => options_at s u
  end.

(** The moves of the conversation: a handler ends it, restarts it, asks
    again at a numeric prompt, or goes one step further along the path. *)
Definition transition (s s' : state) : bool :=
  match s, s' with
  | _, END | _, MATERIAL => true
  | MATERIAL, OPERATION | OPERATION, TOOL_TYPE
  | TOOL_TYPE, (TOOL_SUBTYPE | RADIUS | GROOVE_WIDTH | DIAMETER)
  | TOOL_SUBTYPE, DIAMETER
  | DIAMETER, (DIAMETER | NUMBER_OF_TEETH)
  | NUMBER_OF_TEETH, (NUMBER_OF_TEETH | DEPTH_OF_CUT)
  | DEPTH_OF_CUT, DEPTH_OF_CUT | RADIUS, RADIUS
  | GROOVE_WIDTH, GROOVE_WIDTH => true
  | _, _ => false
  end.

(** How far along the path a prompt is. *)
Definition rank (s : state) : nat :=
  match s with
  | MATERIAL => 0 | OPERATION => 1 | TOOL_TYPE => 2
  | TOOL_SUBTYPE | RADIUS | GROOVE_WIDTH => 3
  | DIAMETER => 4 | NUMBER_OF_TEETH => 5 | DEPTH_OF_CUT => 6 | END => 7
  end.

(** The one situation in which a handler raises: the diameter prompt of a
    drilling conversation and a text that reads as zero. *)
Definition zero_drill_diameter {B : Builtins} (S : state) (t : string) (c : chat)
    : Prop :=
  S = DIAMETER
  /\ ud_operation (data c) = Some "сверление"
  /\ exists d, float_of_str (replace_comma t) = Some d /\ (d =? 0)%float = true.

(** What a handler run in the state [S] on the text [t] leaves: a next state
    and at least one more reply, at an enum-valued prompt one reply with the
    keyboard of the next prompt; or [ZeroDivisionError] for a zero diameter
    of a drill, with nothing sent. *)
Definition outcome {B : Builtins} (S : state) (t : string) (c : chat)
    (r : result (option state)) (c' : chat) : Prop :=
  match r with
  | Ret r =>
      exists s' rs,
        r = Some s'
        /\ transition S s' = true
        /\ sent c' = (sent c ++ rs)%list
        /\ rs <> []
        /\ (enum_state S = true -> s' <> END ->
            exists rep,
              rs = [rep]
              /\ reply_markup rep
                 = option_map keyboard_of (choices s' (data c')))
  | Raise e =>
      e = ZeroDivisionError /\ zero_drill_diameter S t c /\ sent c' = sent c
  end.

(** Two dicts that differ at most in what is stored under
    ['number_of_teeth']. *)
Definition same_but_teeth (u u' : user_data) : Prop :=
  ud_material u = ud_material u'
  /\ ud_operation u = ud_operation u'
  /\ ud_tool_type u = ud_tool_type u'
  /\ ud_tool_subtype u = ud_tool_subtype u'
  /\ ud_diameter u = ud_diameter u'
  /\ ud_depth_of_cut u = ud_depth_of_cut u'
  /\ ud_radius u = ud_radius u'
  /\ ud_groove_width u = ud_groove_width u'.

(** The same, and with [teeth_too] the number of teeth agrees as well. *)
Definition same_data (teeth_too : bool) (u u' : user_data) : Prop :=
  same_but_teeth u u'
  /\ (teeth_too = true -> ud_number_of_teeth u = ud_number_of_teeth u').

(** [l] and [l'] are [p] and [p'] followed by the same replies. *)
Definition same_since (p p' l l' : list reply) : Prop :=
  exists k, l = (p ++ k)%list /\ l' = (p' ++ k)%list.

(** Two chats whose dicts agree and whose replies agree after [p] and
    [p']. *)
Definition alike (teeth_too : bool) (p p' : list reply) (c c' : chat) : Prop :=
  same_data teeth_too (data c) (data c') /\ same_since p p' (sent c) (sent c').

(** [m] cannot tell two chats that are alike apart: it gives the same
    outcome from both and leaves chats that are alike. *)
Definition blind (teeth_too : bool) (p p' : list reply) {A} (m : M A) : Prop :=
  forall c c', alike teeth_too p p' c c' ->
    fst (m c) = fst (m c') /\ alike teeth_too p p' (snd (m c)) (snd (m c')).

(** Two conversations in the same state whose chats are alike. *)
Definition alike_conv (teeth_too : bool) (p p' : list reply)
    (cv cv' : conversation) : Prop :=
  current cv = current cv' /\ alike teeth_too p p' (chat_of cv) (chat_of cv').

(** [lo <= v <= hi] for the mean [v] the handlers take of an int range. *)
Definition int_mean_within (r : Z * Z) : bool :=
  match int_truediv (fst r + snd r) 2 with
  | Ret v => (float_of_int (fst r) <=? v)%float && (v <=? float_of_int (snd r))%float
  | Raise _ => false
  end.

(** The same for a float range. *)
Definition float_mean_within (r : float * float) : bool :=
  match float_truediv (fst r + snd r) 2 with
  | Ret v => (fst r <=? v)%float && (v <=? snd r)%float
  | Raise _ => false
  end.

(** The means of the ranges of [e] are defined, lie within the ranges and
    are not zero. *)
Definition means_within (e : entry) : bool :=
  int_mean_within (speed e)
  && float_mean_within (feed e)
  && match depth e with
     | Some r =>
         int_mean_within r
         && match int_truediv (fst r + snd r) 2 with
            | Ret v => float_truthy v
            | Raise _ => false
            end
     | None => true
     end.

(** The replies of the radius and the width handlers to a value the catalog
    knows: a heading, the speed, the feed, for a radius the depth, and the
    invitation to restart. *)
Definition turning_result (s : state) (material operation dimension : string)
    (speed feed : float) (depth : option float) : list reply :=
  [ mk_reply
      ("Рекомендованные параметры для " ++ material ++ " (" ++ operation
       ++ match s with
          | RADIUS => ") с пластиной радиусом "
          | _ => ") с шириной канавки "
          end
       ++ dimension ++ " мм:") None;
    mk_reply ("Скорость резания: " ++ format_f 1 speed ++ " м/мин") None;
    mk_reply ("Подача: " ++ format_f 2 feed ++ " мм/об") None ]
  ++ match s, depth with
     | RADIUS, Some v => [mk_reply ("Глубина резания: " ++ format_f 1 v ++ " мм") None]
     | _, _ => []
     end
  ++ [mk_reply new_calculation (Some start_keyboard)].

(** The mean of the depth range of an entry, when it has one. *)
Definition mean_depth (e : entry) (dp : option float) : Prop :=
  match depth e with
  | Some r => exists v, mean_int r = Ret v /\ dp = Some v
  | None => dp = None
  end.

(** The answers that lead to the depth prompt of a cutter of diameter 0,
    and the result the bot then sends. *)
Definition zero_cutter_answers : list message :=
  [start_command; say "сталь"; say "фрезерование"; say "монолитная";
   say "цилиндрическая"; say "0"; say "4"].

Definition zero_cutter_message : string :=
  "Рекомендованные параметры для сталь (фрезерование) с инструментом монолитная (цилиндрическая):"
  ++ newline ++ "Скорость резания: 100.0 м/мин"
  ++ newline ++ "Подача: 0.20 мм/об"
  ++ newline
  ++ newline ++ "Если вам понравился бот, вы можете поддержать автора Дмитрий П.:"
  ++ newline ++ "💳 Счет Сбербанк для поддержки: 2202 2081 6242 6036"
  ++ newline ++ "📧 Обратная связь: fetamlet@yandex.ru".

(** *** Rounding to the nearest float *)

(** [r] is [m / P] rounded to the nearest integer, ties to even. *)
Definition nearest_even (m P r : Z) : Prop :=
  ((2 * r - 1) * P <= 2 * m <= (2 * r + 1) * P
   /\ (2 * m = (2 * r - 1) * P -> Z.even r = true)
   /\ (2 * m = (2 * r + 1) * P -> Z.even r = true))%Z.

(** The float [binary_round_aux] ends with, from the rounded mantissa [r] at
    the exponent [E]. *)
Definition finish (s : bool) (r E : Z) : spec_float :=
  let '(m, e) := (if r <? 2 ^ 53 then (r, E) else (r / 2, E + 1))%Z in
  match m with
  | Z0 => S754_zero s
  | Zpos p => if (e <=? emax - prec)%Z then S754_finite s p e
              else S754_infinity s
  | Zneg _ => S754_nan
  end.

(** The answers that lead to the depth prompt of a cylindrical cutter of
    diameter 3. *)
Definition cylindrical_answers : list message :=
  [start_command; say "сталь"; say "фрезерование"; say "монолитная";
   say "цилиндрическая"; say "3"; say "4"].

(** The words every result message starts with. *)
Definition result_heading : string := "Рекомендованные параметры для ".

(** * Properties *)

(** ** Dictionaries and the shape of the catalog *)

Section DictFacts.
Context {K V : Type} (eqb : K -> K -> bool).

Lemma dict_get_In (d : dict K V) k v :
  dict_get eqb d k = Some v -> exists k', In (k', v) d /\ eqb k k' = true.
Proof.
  induction d as [|[k' v'] d IH]; simpl; [discriminate|].
  destruct (eqb k k') eqn:E.
  - intros [= <-]. exists k'. auto.
  - intros H. destruct (IH H) as (k'' & Hin & Hk). exists k''. auto.
Qed.

Lemma dict_getitem_Ret (d : dict K V) k v :
  dict_getitem eqb d k = Ret v <-> dict_get eqb d k = Some v.
Proof.
  unfold dict_getitem. destruct (dict_get eqb d k); split; congruence.
Qed.

Lemma dict_getitem_Raise (d : dict K V) k e :
  dict_getitem eqb d k = Raise e -> e = KeyError /\ dict_get eqb d k = None.
Proof.
  unfold dict_getitem. destruct (dict_get eqb d k); [discriminate|].
  intros [= <-]. auto.
Qed.
End DictFacts.

Lemma dict_get_str_In {V} (d : dict string V) k v :
  dict_get String.eqb d k = Some v -> In (k, v) d.
Proof.
  intros H. destruct (dict_get_In _ _ _ _ H) as (k' & Hin & Hk).
  apply String.eqb_eq in Hk. now subst.
Qed.

Lemma subscript_Ret m o t ts :
  subscript m o t = Ret ts <->
  exists ops tts,
    dict_get String.eqb cutting_parameters m = Some ops
    /\ dict_get String.eqb ops o = Some tts
    /\ dict_get String.eqb tts t = Some ts.
Proof.
  unfold subscript, dict_getitem. split.
  - destruct (dict_get String.eqb cutting_parameters m) as [ops|] eqn:E1;
      [|discriminate].
    destruct (dict_get String.eqb ops o) as [tts|] eqn:E2; [|discriminate].
    destruct (dict_get String.eqb tts t) as [ts'|] eqn:E3; [|discriminate].
    intros [= <-]. exists ops, tts. auto.
  - intros (ops & tts & -> & -> & ->). reflexivity.
Qed.

Lemma subscript_Raise m o t e : subscript m o t = Raise e -> e = KeyError.
Proof.
  unfold subscript, dict_getitem.
  destruct (dict_get String.eqb cutting_parameters m) as [ops|]; [|congruence].
  destruct (dict_get String.eqb ops o) as [tts|]; [|congruence].
  destruct (dict_get String.eqb tts t) as [ts'|]; congruence.
Qed.

Lemma subscript4_Raise m o t k e : subscript4 m o t k = Raise e -> e = KeyError.
Proof.
  unfold subscript4. destruct (subscript m o t) eqn:E.
  - intros H. now apply dict_getitem_Raise in H.
  - intros [= <-]. eapply subscript_Raise; eauto.
Qed.

Lemma catalog_shape_ok : catalog_shape = true.
Proof. vm_compute. reflexivity. Qed.

Lemma shape_at m ops o tts t ts :
  dict_get String.eqb cutting_parameters m = Some ops ->
  dict_get String.eqb ops o = Some tts ->
  dict_get String.eqb tts t = Some ts ->
  tools_shape o t ts = true.
Proof.
  intros H1 H2 H3.
  apply dict_get_str_In in H1, H2, H3.
  pose proof catalog_shape_ok as S. unfold catalog_shape in S.
  rewrite forallb_forall in S. specialize (S _ H1). cbn [snd fst] in S.
  rewrite forallb_forall in S. specialize (S _ H2). cbn [snd fst] in S.
  rewrite forallb_forall in S. specialize (S _ H3). exact S.
Qed.

Lemma catalog_entries_intro m ops o tts t ts k l e :
  dict_get String.eqb cutting_parameters m = Some ops ->
  dict_get String.eqb ops o = Some tts ->
  dict_get String.eqb tts t = Some ts ->
  dict_get String.eqb ts k = Some l ->
  In e (leaf_entries l) ->
  In e catalog_entries.
Proof.
  intros H1 H2 H3 H4 He.
  apply dict_get_str_In in H1, H2, H3, H4.
  unfold catalog_entries.
  apply in_flat_map. exists ops. split; [apply (in_map snd _ _ H1)|].
  apply in_flat_map. exists tts. split; [apply (in_map snd _ _ H2)|].
  apply in_flat_map. exists ts. split; [apply (in_map snd _ _ H3)|].
  apply in_flat_map. exists l. split; [apply (in_map snd _ _ H4)|].
  exact He.
Qed.

Lemma tools_entry m o t ts k l :
  subscript m o t = Ret ts ->
  (o =? "точение") = false ->
  dict_get String.eqb ts k = Some l ->
  listed l.
Proof.
  intros Hs Ho Hk. apply subscript_Ret in Hs as (ops & tts & H1 & H2 & H3).
  pose proof (shape_at _ _ _ _ _ _ H1 H2 H3) as S.
  unfold tools_shape in S. rewrite Ho in S.
  rewrite forallb_forall in S.
  pose proof (dict_get_str_In _ _ _ Hk) as Hin.
  specialize (S l (in_map snd _ _ Hin)).
  destruct l as [e|d]; [|discriminate].
  exists e. split; [reflexivity|].
  eapply catalog_entries_intro; eauto. now left.
Qed.

Lemma dimension_entry m o t k l' r l :
  subscript4 m o t k = Ret l' ->
  leaf_get l' r = Some l ->
  listed l.
Proof.
  unfold subscript4. destruct (subscript m o t) as [ts|] eqn:Hs; [|discriminate].
  intros Hk Hl. apply dict_getitem_Ret in Hk.
  apply subscript_Ret in Hs as (ops & tts & H1 & H2 & H3).
  destruct l' as [e'|d]; [discriminate|]. cbn in Hl.
  destruct (dict_get PrimFloat.eqb d r) as [e|] eqn:Hd; [|discriminate].
  injection Hl as <-. exists e. split; [reflexivity|].
  eapply catalog_entries_intro; eauto.
  destruct (dict_get_In _ _ _ _ Hd) as (k' & Hin & _).
  apply (in_map snd _ _ Hin).
Qed.

Section Lookup.
Context {B : Builtins}.

Lemma gcp_run c :
exists r, get_cutting_parameters c = (Ret r, c)
          /\ forall l, r = Some l -> listed l.
Proof.
unfold get_cutting_parameters.
cbv beta iota zeta delta [bind ud_get ret lift try_except].
assert (N : forall l : leaf, @None leaf = Some l -> listed l) by discriminate.
destruct (ud_material (data c)) as [m|]; [|eauto].
destruct (ud_operation (data c)) as [o|]; [|eauto].
destruct (ud_tool_type (data c)) as [t|]; [|eauto].
destruct ((m =? "") || (o =? "") || (t =? "")); [eauto|].
destruct (o =? "фрезерование") eqn:Ho1.
{ apply String.eqb_eq in Ho1. subst o.
  destruct (_ && _); [|eauto].
  destruct (subscript m _ t) as [ts|e] eqn:Hs.
  - eexists; split; [reflexivity|].
    destruct (ud_tool_subtype (data c)) as [k|]; [|assumption].
    intros l Hl. eapply tools_entry; eauto.
  - apply subscript_Raise in Hs. subst e. cbn. eauto. }
destruct (o =? "точение") eqn:Ho2.
{ destruct (_ && _).
  - destruct (subscript4 m o t _) as [l'|e] eqn:Hs.
    + eexists; split; [reflexivity|].
      destruct (ud_radius (data c)) as [r|]; [|assumption].
      intros l Hl. eapply dimension_entry; eauto.
    + apply subscript4_Raise in Hs. subst e. cbn. eauto.
  - destruct (_ && _); [|eauto].
    destruct (subscript4 m o t _) as [l'|e] eqn:Hs.
    + eexists; split; [reflexivity|].
      destruct (ud_groove_width (data c)) as [r|]; [|assumption].
      intros l Hl. eapply dimension_entry; eauto.
    + apply subscript4_Raise in Hs. subst e. cbn. eauto. }
destruct (o =? "сверление") eqn:Ho3; [|eauto].
destruct (_ && _).
- destruct (subscript m o t) as [ts|e] eqn:Hs.
  + eexists; split; [reflexivity|].
    destruct (ud_tool_subtype (data c)) as [k|]; [|assumption].
    intros l Hl. eapply tools_entry; eauto.
  + apply subscript_Raise in Hs. subst e. cbn. eauto.
- destruct (t =? _); [|eauto].
  destruct (subscript m o t) as [ts|e] eqn:Hs.
  + eexists; split; [reflexivity|].
    intros l Hl. eapply tools_entry; eauto.
  + apply subscript_Raise in Hs. subst e. cbn. eauto.
Qed.
Lemma gcp_missing c :
ud_material (data c) = None \/ ud_operation (data c) = None
\/ ud_tool_type (data c) = None ->
get_cutting_parameters c = (Ret None, c).
Proof.
unfold get_cutting_parameters.
cbv beta iota zeta delta [bind ud_get ret lift try_except].
intros [H|[H|H]]; rewrite H.
- reflexivity.
- destruct (ud_material (data c)); reflexivity.
- destruct (ud_material (data c)), (ud_operation (data c)); reflexivity.
Qed.

Lemma gcp_no_branch c o t :
ud_operation (data c) = Some o ->
ud_tool_type (data c) = Some t ->
mem t (tool_types_of o) = false ->
get_cutting_parameters c = (Ret None, c).
Proof.
intros Ho Ht Hm.
unfold get_cutting_parameters.
cbv beta iota zeta delta [bind ud_get ret lift try_except].
rewrite Ho, Ht.
destruct (ud_material (data c)) as [m|]; [|reflexivity].
destruct ((m =? "") || (o =? "") || (t =? "")); [reflexivity|].
unfold tool_types_of, mem in Hm.
destruct (o =? "фрезерование").
{ cbn [existsb] in Hm. rewrite orb_false_r in Hm. rewrite Hm. reflexivity. }
destruct (o =? "точение").
{ cbn [existsb] in Hm. apply orb_false_elim in Hm as [-> Hm].
  apply orb_false_elim in Hm as [-> _]. reflexivity. }
destruct (o =? "сверление"); [|reflexivity].
cbn [existsb] in Hm. apply orb_false_elim in Hm as [-> Hm].
apply orb_false_elim in Hm as [-> _]. reflexivity.
Qed.

End Lookup.

Lemma catalog_ranges : forallb range_ok catalog_entries = true.
Proof. vm_compute. reflexivity. Qed.

Lemma range_ok_ordered e : range_ok e = true -> ordered e.
Proof.
  unfold range_ok, ordered. intros H.
  apply andb_prop in H as [H Hd]. apply andb_prop in H as [Hs Hf].
  split; [now apply Z.leb_le|]. split; [exact Hf|].
  intros lo hi E. rewrite E in Hd. now apply Z.leb_le.
Qed.

(** ** Binary64 arithmetic *)

Lemma SFcompare_refl x : x <> S754_nan -> SFcompare x x = Some Eq.
Proof.
  destruct x as [s|s| |s m e]; cbn; try congruence.
  - destruct s; reflexivity.
  - intros _. rewrite Z.compare_refl, Pos.compare_cont_refl. destruct s; reflexivity.
Qed.

Lemma is_nan_spec x : is_nan x = true <-> Prim2SF x = S754_nan.
Proof.
  unfold is_nan. rewrite eqb_spec. unfold SFeqb. split.
  - destruct (Prim2SF x) eqn:E; try reflexivity;
      rewrite SFcompare_refl by discriminate; discriminate.
  - intros ->. reflexivity.
Qed.

Lemma SFcompare_antisym x y :
  SFcompare y x = option_map CompOpp (SFcompare x y).
Proof.
  destruct x as [s|s| |s m e], y as [s'|s'| |s' m' e']; cbn; try reflexivity;
    try (destruct s; reflexivity); try (destruct s'; reflexivity);
    try (destruct s, s'; reflexivity).
  destruct s, s'; cbn; try reflexivity.
  - rewrite (Z.compare_antisym e e'). destruct (e ?= e')%Z eqn:E; cbn; try reflexivity.
    rewrite (Pos.compare_cont_antisym m m' Eq). reflexivity.
  - rewrite (Z.compare_antisym e e'). destruct (e ?= e')%Z eqn:E; cbn; try reflexivity.
    rewrite (Pos.compare_cont_antisym m m' Eq). reflexivity.
Qed.

Lemma ltb_leb x y : (x <? y)%float = true -> (y <=? x)%float = false.
Proof.
  rewrite ltb_spec, leb_spec. unfold SFltb, SFleb.
  rewrite (SFcompare_antisym (Prim2SF x) (Prim2SF y)).
  destruct (SFcompare (Prim2SF x) (Prim2SF y)) as [[| |]|]; cbn; congruence.
Qed.

Lemma shr_1_nonneg mrs : (0 <= shr_m mrs)%Z -> (0 <= shr_m (shr_1 mrs))%Z.
Proof.
  destruct mrs as [m r s]. cbn.
  destruct m as [|[p|p|]|[p|p|]]; cbn; lia.
Qed.

Lemma iter_shr_1_nonneg p mrs :
  (0 <= shr_m mrs)%Z -> (0 <= shr_m (iter_pos shr_1 p mrs))%Z.
Proof.
  revert mrs. induction p as [p IH|p IH|]; intros mrs H; cbn.
  - apply IH, IH, shr_1_nonneg, H.
  - apply IH, IH, H.
  - apply shr_1_nonneg, H.
Qed.

Lemma shr_fexp_nonneg m e l :
  (0 <= m)%Z -> (0 <= shr_m (fst (shr_fexp prec emax m e l)))%Z.
Proof.
  intros H. unfold shr_fexp, shr.
  assert (H0 : (0 <= shr_m (shr_record_of_loc m l))%Z)
    by (destruct l as [|[]]; exact H).
  destruct (_ - e)%Z; cbn [fst]; auto using iter_shr_1_nonneg.
Qed.

Lemma round_nearest_even_nonneg m l :
  (0 <= m)%Z -> (0 <= round_nearest_even m l)%Z.
Proof.
  unfold round_nearest_even. destruct l as [|[]]; try lia.
  destruct (Z.even m); lia.
Qed.

Lemma binary_round_aux_signed s m e l :
  (0 <= m)%Z -> signed s (binary_round_aux prec emax s m e l).
Proof.
  intros H. unfold binary_round_aux.
  pose proof (shr_fexp_nonneg m e l H) as H1.
  destruct (shr_fexp prec emax m e l) as [mrs' e']. cbn [fst] in H1.
  pose proof (shr_fexp_nonneg _ e' loc_Exact
                (round_nearest_even_nonneg _ (loc_of_shr_record mrs') H1)) as H2.
  destruct (shr_fexp prec emax (round_nearest_even _ _) e' loc_Exact) as [mrs'' e''].
  cbn [fst] in H2.
  destruct (shr_m mrs'') as [|p|p]; cbn; [exact I| |lia].
  destruct (e'' <=? _)%Z; reflexivity.
Qed.

Lemma signed_not_negative x : signed false x -> not_negative x.
Proof. destruct x; cbn; auto. Qed.

Lemma SFmul_not_negative x y :
  not_negative x -> not_negative y -> not_negative (SFmul prec emax x y).
Proof.
  destruct x as [s|s| |s m e], y as [s'|s'| |s' m' e']; cbn; auto;
    try (intros -> ->; reflexivity); try (intros _ ->; exact I).
  intros -> ->. apply signed_not_negative, binary_round_aux_signed. lia.
Qed.

Lemma SFsqrt_not_nan x :
  not_negative x -> x <> S754_nan -> SFsqrt prec emax x <> S754_nan.
Proof.
  destruct x as [s|s| |s m e]; cbn; try congruence.
  - intros -> _. discriminate.
  - intros -> _.
    destruct (SFsqrt_core_binary prec emax (Z.pos m) e) as [[mz ez] lz] eqn:E.
    assert (Hm : (0 <= mz)%Z).
    { unfold SFsqrt_core_binary in E.
      destruct (Z.sqrtrem _) as [q r] eqn:Q. injection E as <- _ _.
      change q with (fst (q, r)). rewrite <- Q, Z.sqrtrem_sqrt. apply Z.sqrt_nonneg. }
    pose proof (binary_round_aux_signed false mz ez lz Hm) as S.
    intros N. rewrite N in S. exact S.
Qed.

Lemma digits2_size m : digits2_pos m = Pos.size m.
Proof. induction m; cbn; congruence. Qed.

Lemma digits2_lt m : (Zpos m < 2 ^ Zpos (digits2_pos m))%Z.
Proof.
  rewrite digits2_size. pose proof (Pos.size_gt m) as H.
  apply Pos2Z.pos_lt_pos in H. now rewrite Pos2Z.inj_pow in H.
Qed.

Lemma digits2_ge m : (2 ^ Zpos (digits2_pos m) <= 2 * Zpos m)%Z.
Proof.
  rewrite digits2_size. pose proof (Pos.size_le m) as H.
  apply Pos2Z.pos_le_pos in H. now rewrite Pos2Z.inj_pow in H.
Qed.

Lemma iter_xO m d : Zpos (Pos.iter xO m d) = (Zpos m * 2 ^ Zpos d)%Z.
Proof.
  induction d as [|d IH] using Pos.peano_ind.
  - cbn. lia.
  - rewrite Pos.iter_succ, Pos2Z.inj_xO, IH, Pos2Z.inj_succ, Z.pow_succ_r by lia.
    lia.
Qed.

Lemma shl_align_value m e ez :
  (ez <= e)%Z ->
  Zpos (fst (shl_align m e ez)) = (Zpos m * 2 ^ (e - ez))%Z.
Proof.
  intros H. unfold shl_align.
  destruct (ez - e)%Z as [|p|p] eqn:E; cbn [fst].
  - replace (e - ez)%Z with 0%Z by lia. cbn. lia.
  - lia.
  - rewrite iter_xO. f_equal. f_equal. lia.
Qed.

(** What [valid_binary] says of a finite float's mantissa and exponent. *)
Lemma bounded_digits m e :
  bounded prec emax m e = true ->
  (Zpos (digits2_pos m) <= 53)%Z
  /\ (-1074 <= e)%Z
  /\ ((-1074 < e)%Z -> Zpos (digits2_pos m) = 53%Z).
Proof.
  unfold bounded, canonical_mantissa, fexp, SpecFloat.emin, emax, prec.
  intros H. apply andb_prop in H as [H _]. apply Z.eqb_eq in H. lia.
Qed.

Lemma sub_nonneg ma ea mD eD :
  bounded prec emax ma ea = true ->
  bounded prec emax mD eD = true ->
  SFleb (S754_finite false ma ea) (S754_finite false mD eD) = true ->
  let ez := Z.min eD ea in
  (0 <= Zpos (fst (shl_align mD eD ez)) - Zpos (fst (shl_align ma ea ez)))%Z.
Proof.
  intros Ba BD Hle ez. subst ez.
  rewrite !shl_align_value by lia.
  apply bounded_digits in Ba as (Da & Ea & _).
  apply bounded_digits in BD as (DD & ED & FD).
  unfold SFleb in Hle. cbn in Hle.
  destruct (ea ?= eD)%Z eqn:C.
  - apply Z.compare_eq in C. subst eD.
    replace (ea - Z.min ea ea)%Z with 0%Z by lia. rewrite Z.pow_0_r.
    change (Pos.compare_cont Eq ma mD) with (Pos.compare ma mD) in Hle.
    destruct (Pos.compare ma mD) eqn:P; try discriminate.
    + apply Pos.compare_eq in P. subst. lia.
    + assert (P' : (ma < mD)%positive) by exact P. lia.
  - assert (C' : (ea < eD)%Z) by exact C.
    replace (ea - Z.min eD ea)%Z with 0%Z by lia.
    replace (eD - Z.min eD ea)%Z with (eD - ea)%Z by lia.
    pose proof (digits2_lt ma) as La. pose proof (digits2_ge mD) as GD.
    rewrite (FD ltac:(lia)) in GD.
    assert (Zpos ma < 2 ^ 53)%Z.
    { eapply Z.lt_le_trans; [exact La|]. apply Z.pow_le_mono_r; lia. }
    assert (K : (2 ^ 1 <= 2 ^ (eD - ea))%Z) by (apply Z.pow_le_mono_r; lia).
    change (2 ^ 1)%Z with 2%Z in K. rewrite Z.pow_0_r.
    change (2 ^ 53)%Z with 9007199254740992%Z in *.
    set (k := (2 ^ (eD - ea))%Z) in *. nia.
  - discriminate.
Qed.

Lemma binary_normalize_not_negative m e :
  (0 <= m)%Z -> not_negative (binary_normalize prec emax m e false).
Proof.
  destruct m as [|p|p]; cbn; [auto| |lia]. intros _.
  unfold binary_round. destruct (shl_align _ _ _) as [mz ez].
  apply signed_not_negative, binary_round_aux_signed. lia.
Qed.

Lemma SFsub_not_negative D a :
  valid_binary D = true -> valid_binary a = true ->
  SFleb (S754_zero false) a = true ->
  SFleb a D = true ->
  not_negative (SFsub prec emax D a).
Proof.
  intros VD Va H0 Hle.
  destruct a as [s|s| |s ma ea]; try discriminate.
  - destruct D as [s'|s'| |s' mD eD]; try discriminate.
    + destruct s', s; exact I.
    + destruct s'; [discriminate|reflexivity].
    + destruct s'; [discriminate|reflexivity].
  - destruct s; [discriminate|].
    destruct D as [s'|s'| |s' mD eD]; try discriminate.
    destruct s'; [discriminate|exact I].
  - destruct s; [discriminate|].
    destruct D as [s'|s'| |s' mD eD]; try discriminate.
    + destruct s'; [discriminate|reflexivity].
    + destruct s'; [discriminate|].
      cbn [SFsub cond_Zopp].
      apply binary_normalize_not_negative.
      now apply sub_nonneg.
Qed.

Lemma leb_zero_not_negative a :
  SFleb (S754_zero false) a = true -> not_negative a.
Proof. destruct a as [s|s| |s m e]; cbn; auto; destruct s; auto; discriminate. Qed.

Lemma math_sqrt_in_domain D a :
  (0 <=? a)%float = true -> (a <=? D)%float = true ->
  math_sqrt (a * (D - a)) = Ret (sqrt (a * (D - a))).
Proof.
  intros H0 Hle. unfold math_sqrt.
  destruct (is_nan (a * (D - a))) eqn:N; [now rewrite andb_false_r|].
  destruct (is_nan (sqrt (a * (D - a)))) eqn:S; [|reflexivity].
  exfalso. apply is_nan_spec in S. rewrite sqrt_spec in S.
  revert S. apply SFsqrt_not_nan.
  - rewrite mul_spec. rewrite leb_spec in H0, Hle.
    apply SFmul_not_negative.
    + apply leb_zero_not_negative. exact H0.
    + rewrite sub_spec. apply SFsub_not_negative; auto using Prim2SF_valid.
  - intros E. apply is_nan_spec in E. congruence.
Qed.

Lemma math_sqrt_negative x :
  (x <? 0)%float = true -> math_sqrt x = Raise ValueError.
Proof.
  intros H. unfold math_sqrt.
  rewrite ltb_spec in H. unfold SFltb in H.
  assert (Hs : Prim2SF (sqrt x) = S754_nan /\ Prim2SF x <> S754_nan).
  { rewrite sqrt_spec. change (Prim2SF 0) with (S754_zero false) in H.
    destruct (Prim2SF x) as [s|s| |s m e]; try discriminate.
    - destruct s; [|discriminate]. split; [reflexivity|discriminate].
    - destruct s; [|discriminate]. split; [reflexivity|discriminate]. }
  destruct Hs as [Hs Hx].
  apply is_nan_spec in Hs. rewrite Hs.
  destruct (is_nan x) eqn:N; [|reflexivity].
  apply is_nan_spec in N. contradiction.
Qed.

(** *** Rounding does not lose a product with [math.pi] *)

Section Rounding.
Local Open Scope Z_scope.

Lemma shr_1_half mrs : 0 <= shr_m mrs -> shr_m (shr_1 mrs) = shr_m mrs / 2.
Proof.
  destruct mrs as [m r s]. cbn [shr_m shr_1]. rewrite <- Z.div2_div.
  destruct m as [|[p|p|]|p]; cbn [shr_m]; intros H; try reflexivity; lia.
Qed.

Lemma pow2_xI p : 2 ^ Zpos p~1 = 2 * (2 ^ Zpos p * 2 ^ Zpos p).
Proof.
  change (Zpos p~1) with (2 * Zpos p + 1).
  rewrite Z.pow_add_r, Z.pow_twice_r by lia.
  change (2 ^ 1) with 2. lia.
Qed.

Lemma pow2_xO p : 2 ^ Zpos p~0 = 2 ^ Zpos p * 2 ^ Zpos p.
Proof. change (Zpos p~0) with (2 * Zpos p). apply Z.pow_twice_r. Qed.

Lemma iter_shr_1_div p mrs :
  0 <= shr_m mrs ->
  shr_m (iter_pos shr_1 p mrs) = shr_m mrs / 2 ^ Zpos p.
Proof.
  assert (P : forall q, 0 < 2 ^ Zpos q) by (intros; apply Z.pow_pos_nonneg; lia).
  revert mrs. induction p as [p IH|p IH|]; intros mrs H; cbn [iter_pos].
  - rewrite IH by (apply iter_shr_1_nonneg, shr_1_nonneg, H).
    rewrite IH by (apply shr_1_nonneg, H).
    rewrite shr_1_half by exact H.
    pose proof (P p).
    rewrite !Z.div_div by lia. rewrite pow2_xI. reflexivity.
  - rewrite IH by (apply iter_shr_1_nonneg, H).
    rewrite IH by exact H.
    pose proof (P p).
    rewrite !Z.div_div by lia. rewrite pow2_xO. reflexivity.
  - rewrite shr_1_half by exact H. reflexivity.
Qed.

Lemma shr_fexp_div m e l :
  0 <= m ->
  let n := Z.max 0 (fexp prec emax (Zdigits2 m + e) - e) in
  shr_m (fst (shr_fexp prec emax m e l)) = m / 2 ^ n
  /\ snd (shr_fexp prec emax m e l) = e + n.
Proof.
  intros H n. subst n. unfold shr_fexp, shr.
  assert (H0 : shr_m (shr_record_of_loc m l) = m) by (destruct l as [|[]]; reflexivity).
  destruct (fexp prec emax (Zdigits2 m + e) - e) as [|p|p] eqn:E; cbn [fst snd].
  - rewrite H0. cbn. rewrite Z.div_1_r. lia.
  - rewrite iter_shr_1_div by lia. rewrite H0.
    rewrite Z.max_r by lia. split; reflexivity.
  - rewrite H0. rewrite Z.max_l by lia. cbn. rewrite Z.div_1_r. lia.
Qed.

Lemma digits2_bounds m :
  2 ^ (Zpos (digits2_pos m) - 1) <= Zpos m < 2 ^ Zpos (digits2_pos m).
Proof.
  split; [|apply digits2_lt].
  pose proof (digits2_ge m) as H.
  replace (Zpos (digits2_pos m)) with (1 + (Zpos (digits2_pos m) - 1)) in H by lia.
  rewrite Z.pow_add_r in H by lia. lia.
Qed.

Lemma round_nearest_even_ge m l : m <= round_nearest_even m l.
Proof.
  unfold round_nearest_even. destruct l as [|[]]; try lia.
  destruct (Z.even m); lia.
Qed.

Lemma div_pow2_lower m d n :
  0 <= n <= d -> 2 ^ d <= m -> 2 ^ (d - n) <= m / 2 ^ n.
Proof.
  intros Hn Hm. apply Z.div_le_lower_bound; [apply Z.pow_pos_nonneg; lia|].
  rewrite <- Z.pow_add_r by lia. replace (n + (d - n)) with d by lia. exact Hm.
Qed.

Lemma Zdigits2_bounds m :
  0 < m -> 2 ^ (Zdigits2 m - 1) <= m < 2 ^ Zdigits2 m /\ 0 < Zdigits2 m.
Proof.
  destruct m as [|p|p]; try lia. intros _. cbn [Zdigits2].
  split; [apply digits2_bounds|lia].
Qed.

(** A product of at least [2 ^ 52] units of [2 ^ e], [e >= -1125], does not
    round to zero. *)
Lemma binary_round_aux_not_zero s m e :
  2 ^ 52 <= m -> -1125 <= e ->
  forall z, binary_round_aux prec emax s m e loc_Exact <> S754_zero z.
Proof.
  intros Hm He z. unfold binary_round_aux.
  assert (Hm0 : 0 <= m) by lia.
  pose proof (shr_fexp_div m e loc_Exact Hm0) as [H1 E1].
  destruct (shr_fexp prec emax m e loc_Exact) as [mrs' e'].
  cbn [fst snd] in H1, E1.
  destruct (Zdigits2_bounds m ltac:(lia)) as [[Dl Du] Dp].
  assert (D53 : 53 <= Zdigits2 m).
  { destruct (Z.lt_ge_cases (Zdigits2 m) 53) as [L|L]; [|exact L].
    assert (2 ^ Zdigits2 m <= 2 ^ 52) by (apply Z.pow_le_mono_r; lia). lia. }
  unfold fexp, SpecFloat.emin, emax, prec in H1, E1.
  set (n1 := Z.max 0 (Z.max (Zdigits2 m + e - 53) (3 - 1024 - 53) - e)) in *.
  assert (Hn1 : 0 <= n1 <= Zdigits2 m - 2) by lia.
  assert (He' : -1074 <= e') by lia.
  assert (M1 : 2 <= shr_m mrs').
  { rewrite H1.
    pose proof (div_pow2_lower m (Zdigits2 m - 1) n1 ltac:(lia) Dl) as L.
    assert (2 ^ 1 <= 2 ^ (Zdigits2 m - 1 - n1)) by (apply Z.pow_le_mono_r; lia).
    change (2 ^ 1) with 2 in *. lia. }
  pose proof (round_nearest_even_ge (shr_m mrs') (loc_of_shr_record mrs')) as R.
  set (m2 := round_nearest_even (shr_m mrs') (loc_of_shr_record mrs')) in *.
  assert (Hm2 : 0 <= m2) by lia.
  pose proof (shr_fexp_div m2 e' loc_Exact Hm2) as [H2 E2].
  destruct (shr_fexp prec emax m2 e' loc_Exact) as [mrs'' e''].
  cbn [fst snd] in H2, E2.
  destruct (Zdigits2_bounds m2 ltac:(lia)) as [[Dl2 Du2] Dp2].
  unfold fexp, SpecFloat.emin, emax, prec in H2, E2.
  set (n2 := Z.max 0 (Z.max (Zdigits2 m2 + e' - 53) (3 - 1024 - 53) - e')) in *.
  assert (Hn2 : 0 <= n2 <= Zdigits2 m2 - 1) by lia.
  assert (M3 : 1 <= shr_m mrs'').
  { rewrite H2.
    pose proof (div_pow2_lower m2 (Zdigits2 m2 - 1) n2 ltac:(lia) Dl2) as L.
    assert (2 ^ 0 <= 2 ^ (Zdigits2 m2 - 1 - n2)) by (apply Z.pow_le_mono_r; lia).
    change (2 ^ 0) with 1 in *. lia. }
  destruct (shr_m mrs'') as [|p|p]; try lia.
  destruct (e'' <=? _)%Z; discriminate.
Qed.

Lemma pi_mul_not_zero d :
  (d =? 0)%float = false -> (math_pi * d =? 0)%float = false.
Proof.
  rewrite !eqb_spec, mul_spec. unfold SF64mul.
  change (Prim2SF 0) with (S754_zero false).
  change (Prim2SF math_pi) with (S754_finite false 7074237752028440 (-51)).
  pose proof (Prim2SF_valid d) as V.
  destruct (Prim2SF d) as [s|s| |s m e]; try (intros H; discriminate H);
    try reflexivity.
  - intros _. destruct s; reflexivity.
  - intros _. cbn [SFmul].
    apply bounded_digits in V as (_ & E & _).
    pose proof (binary_round_aux_not_zero (xorb false s)
                  (Zpos (7074237752028440 * m)) (-51 + e)) as N.
    assert (H52 : 2 ^ 52 <= Zpos (7074237752028440 * m)).
    { rewrite Pos2Z.inj_mul. change (2 ^ 52) with 4503599627370496. lia. }
    specialize (N H52 ltac:(lia)).
    destruct (binary_round_aux prec emax (xorb false s) _ _ loc_Exact)
      as [z|z| |z p q] eqn:R; try reflexivity.
    + exfalso. now apply (N z).
    + destruct z; reflexivity.
    + destruct z; reflexivity.
Qed.
End Rounding.

(** *** Rounding to nearest is monotone *)

Section Nearest.
Local Open Scope Z_scope.

Lemma iter_pos_nat {A} (f : A -> A) p x :
  iter_pos f p x = Nat.iter (Pos.to_nat p) f x.
Proof.
  revert x. induction p as [p IH|p IH|]; intros x; cbn [iter_pos].
  - rewrite !IH, Pos2Nat.inj_xI.
    replace (S (2 * Pos.to_nat p)) with (Pos.to_nat p + (Pos.to_nat p + 1))%nat by lia.
    rewrite !Nat.iter_add. reflexivity.
  - rewrite !IH, Pos2Nat.inj_xO.
    replace (2 * Pos.to_nat p)%nat with (Pos.to_nat p + Pos.to_nat p)%nat by lia.
    rewrite Nat.iter_add. reflexivity.
  - reflexivity.
Qed.

Lemma shr_1_spec q r s :
  0 <= q ->
  shr_1 (Build_shr_record q r s) = Build_shr_record (q / 2) (Z.odd q) (r || s).
Proof.
  intros H. rewrite <- Z.div2_div.
  destruct q as [|[p|p|]|p]; try lia; reflexivity.
Qed.

Lemma pow2_pos k : 0 <= k -> 0 < 2 ^ k.
Proof. intros. apply Z.pow_pos_nonneg; lia. Qed.

Lemma pow2_succ k : 0 <= k -> 2 ^ (k + 1) = 2 ^ k * 2.
Proof. intros. rewrite Z.pow_add_r by lia. reflexivity. Qed.

(** [k] halvings of [m] keep the quotient, the last bit shifted out and
    whether any bit before it was set. *)
Lemma iter_shr_1_spec m k :
  0 <= m ->
  Nat.iter k shr_1 (Build_shr_record m false false)
  = Build_shr_record (2 * m / 2 ^ (Z.of_nat k + 1))
      (Z.odd (2 * m / 2 ^ Z.of_nat k))
      (negb (2 * m mod 2 ^ Z.of_nat k =? 0)).
Proof.
  intros Hm. induction k as [|k IH].
  - change (Nat.iter 0 shr_1 ?x) with x. change (2 ^ (Z.of_nat 0 + 1)) with 2.
    change (2 ^ Z.of_nat 0) with 1.
    rewrite Z.mul_comm, Z.div_mul by lia.
    rewrite Z.div_1_r, Z.mod_1_r, Z.odd_mul.
    change (Z.odd 2) with false. rewrite andb_false_r. reflexivity.
  - rewrite Nat.iter_succ, IH. clear IH.
    set (M := 2 * m). assert (HM : 0 <= M) by lia.
    pose proof (pow2_pos (Z.of_nat k) ltac:(lia)) as P.
    rewrite shr_1_spec by (apply Z.div_pos; [lia|apply pow2_pos; lia]).
    rewrite Nat2Z.inj_succ. unfold Z.succ.
    rewrite Z.div_div by (try apply pow2_pos; lia).
    rewrite <- pow2_succ by lia.
    f_equal.
    rewrite (pow2_succ (Z.of_nat k)) by lia.
    rewrite Z.rem_mul_r by lia.
    rewrite Zmod_odd.
    pose proof (Z.mod_pos_bound M (2 ^ Z.of_nat k) P) as B.
    destruct (Z.odd (M / 2 ^ Z.of_nat k)); cbn [orb].
    + symmetry. apply negb_true_iff, Z.eqb_neq. lia.
    + rewrite Z.mul_0_r, Z.add_0_r. reflexivity.
Qed.

Lemma shr_round_nearest_even m p :
  0 <= m ->
  let mrs := iter_pos shr_1 p (Build_shr_record m false false) in
  let r := round_nearest_even (shr_m mrs) (loc_of_shr_record mrs) in
  nearest_even m (2 ^ Zpos p) r /\ m / 2 ^ Zpos p <= r <= m / 2 ^ Zpos p + 1.
Proof.
  intros Hm mrs r. subst r mrs.
  rewrite iter_pos_nat, iter_shr_1_spec by exact Hm.
  rewrite positive_nat_Z.
  set (n := Zpos p).
  pose proof (pow2_pos n ltac:(lia)) as P.
  rewrite pow2_succ by lia.
  rewrite (Z.mul_comm (2 ^ n) 2), <- Z.div_div, (Z.mul_comm 2 m), Z.div_mul by lia.
  rewrite Z.mul_comm.
  set (q := m / 2 ^ n).
  (* 2 m = 2 q P + b P + t *)
  assert (E : 2 * m = 2 * q * 2 ^ n
                      + (if Z.odd (2 * m / 2 ^ n) then 2 ^ n else 0)
                      + 2 * m mod 2 ^ n).
  { pose proof (Z.div_mod (2 * m) (2 ^ n * 2) ltac:(lia)) as D.
    rewrite Z.rem_mul_r in D by lia.
    rewrite <- Z.div_div, (Z.mul_comm 2 m) in D by lia.
    rewrite (Z.mul_comm 2 m).
    assert (Q : m * 2 / 2 ^ n / 2 = q).
    { rewrite Z.div_div, (Z.mul_comm (2 ^ n) 2), <- Z.div_div, Z.div_mul by lia.
      reflexivity. }
    rewrite Q in D. rewrite Zmod_odd in D.
    destruct (Z.odd (m * 2 / 2 ^ n)); lia. }
  pose proof (Z.mod_pos_bound (2 * m) (2 ^ n) P) as B.
  set (t := 2 * m mod 2 ^ n) in *.
  unfold nearest_even.
  destruct (Z.odd (2 * m / 2 ^ n)); destruct (Z.eqb_spec t 0) as [T|T];
    cbn [negb shr_m loc_of_shr_record round_nearest_even].
  - destruct (Z.even q) eqn:Q.
    + repeat split; try lia. intros _. exact Q.
    + repeat split; try lia. intros _.
      rewrite Z.even_add, Q. reflexivity.
  - repeat split; lia.
  - repeat split; lia.
  - repeat split; lia.
Qed.


Lemma finish_spec s r E :
  0 <= r <= 2 ^ 53 -> -1074 <= E ->
  (let '(mrs, e) := shr_fexp prec emax r E loc_Exact in
   match shr_m mrs with
   | Z0 => S754_zero s
   | Zpos p => if e <=? emax - prec then S754_finite s p e else S754_infinity s
   | Zneg _ => S754_nan
   end) = finish s r E.
Proof.
  intros Hr HE.
  pose proof (shr_fexp_div r E loc_Exact ltac:(lia)) as [H1 H2].
  destruct (shr_fexp prec emax r E loc_Exact) as [mrs e]. cbn [fst snd] in H1, H2.
  unfold finish. rewrite H1, H2. clear H1 H2.
  unfold fexp, SpecFloat.emin, emax, prec.
  destruct (Z.ltb_spec r (2 ^ 53)) as [L|L].
  - assert (N : Z.max 0 (Z.max (Zdigits2 r + E - 53) (3 - 1024 - 53) - E) = 0).
    { destruct (Z.eq_dec r 0) as [->|R]; [cbn [Zdigits2]; lia|].
      destruct (Zdigits2_bounds r ltac:(lia)) as [[Dl _] _].
      assert (Zdigits2 r - 1 < 53); [|lia].
      apply (Z.pow_lt_mono_r_iff 2); lia. }
    rewrite N, Z.div_1_r, Z.add_0_r. reflexivity.
  - assert (R : r = 2 ^ 53) by lia. subst r.
    change (Zdigits2 (2 ^ 53)) with 54.
    replace (Z.max 0 (Z.max (54 + E - 53) (3 - 1024 - 53) - E)) with 1 by lia.
    reflexivity.
Qed.

(** [binary_round_aux] rounds [m * 2 ^ e] to the nearest multiple of
    [2 ^ E], ties to even, [E] being the exponent of the format at [m * 2 ^ e]. *)
Lemma binary_round_aux_nearest s m e :
  0 < m ->
  let E := fexp prec emax (Zdigits2 m + e) in
  e <= E ->
  exists r,
    nearest_even m (2 ^ (E - e)) r
    /\ 0 <= r <= 2 ^ 53
    /\ (-1074 < E -> 2 ^ 52 <= r)
    /\ binary_round_aux prec emax s m e loc_Exact = finish s r E.
Proof.
  intros Hm E HE.
  destruct (Zdigits2_bounds m Hm) as [[Dl Du] Dp].
  assert (Emin : -1074 <= E) by (subst E; unfold fexp, SpecFloat.emin, emax, prec; lia).
  assert (E53 : Zdigits2 m - 53 <= E - e)
    by (subst E; unfold fexp, SpecFloat.emin, emax, prec; lia).
  assert (Q : m / 2 ^ (E - e) < 2 ^ 53).
  { apply Z.div_lt_upper_bound; [apply pow2_pos; lia|].
    rewrite <- Z.pow_add_r by lia.
    apply Z.lt_le_trans with (1 := Du). apply Z.pow_le_mono_r; lia. }
  assert (Q0 : 0 <= m / 2 ^ (E - e)) by (apply Z.div_pos; [lia|apply pow2_pos; lia]).
  assert (Q52 : -1074 < E -> 2 ^ 52 <= m / 2 ^ (E - e)).
  { intros L.
    assert (N : E - e = Zdigits2 m - 53)
      by (subst E; unfold fexp, SpecFloat.emin, emax, prec in *; lia).
    rewrite N.
    pose proof (div_pow2_lower m (Zdigits2 m - 1) (Zdigits2 m - 53) ltac:(lia) Dl) as D.
    replace (Zdigits2 m - 1 - (Zdigits2 m - 53)) with 52 in D by lia. exact D. }
  unfold binary_round_aux, shr_fexp at 1, shr. fold E.
  destruct (E - e) as [|p|p] eqn:N; try lia.
  - exists m. cbn [shr_record_of_loc shr_m loc_of_shr_record round_nearest_even].
    change (2 ^ 0) with 1 in *. rewrite Z.div_1_r in *.
    replace e with E by lia.
    split; [unfold nearest_even; lia|].
    split; [lia|]. split; [lia|]. apply finish_spec; lia.
  - pose proof (shr_round_nearest_even m p ltac:(lia)) as [R B].
    cbn [shr_record_of_loc].
    set (r := round_nearest_even _ _) in *.
    exists r. replace (e + Zpos p) with E by lia.
    split; [exact R|]. split; [lia|]. split; [lia|]. apply finish_spec; lia.
Qed.

Lemma finish_cases r E :
  0 <= r <= 2 ^ 53 ->
  (r = 0 /\ finish false r E = S754_zero false)
  \/ (exists p e, 0 < r /\ (Zpos p = r /\ e = E /\ r < 2 ^ 53
                          \/ Zpos p = 2 ^ 52 /\ e = E + 1 /\ r = 2 ^ 53)
                  /\ finish false r E
                     = if e <=? 971 then S754_finite false p e
                       else S754_infinity false).
Proof.
  intros H. unfold finish.
  destruct (Z.ltb_spec r (2 ^ 53)) as [L|L].
  - destruct r as [|p|p]; try lia.
    + left. split; reflexivity.
    + right. exists p, E. split; [lia|]. split; [left; auto|reflexivity].
  - right. replace r with (2 ^ 53) by lia.
    exists 4503599627370496%positive, (E + 1). split; [reflexivity|].
    split; [right; auto|reflexivity].
Qed.

Lemma SFleb_finish r1 E1 r2 E2 :
  0 <= r1 <= 2 ^ 53 -> 0 <= r2 <= 2 ^ 53 ->
  (E1 < E2 /\ 2 ^ 52 <= r2) \/ (E1 = E2 /\ r1 <= r2) ->
  SFleb (finish false r1 E1) (finish false r2 E2) = true.
Proof.
  intros H1 H2 H.
  destruct (finish_cases r1 E1 H1) as [[Z1 ->]|(p1 & x1 & P1 & C1 & ->)];
    destruct (finish_cases r2 E2 H2) as [[Z2 ->]|(p2 & x2 & P2 & C2 & ->)].
  - reflexivity.
  - destruct (x2 <=? 971); reflexivity.
  - exfalso. change (2 ^ 52) with 4503599627370496 in *. lia.
  - change (2 ^ 52) with 4503599627370496 in *.
    change (2 ^ 53) with 9007199254740992 in *.
    destruct (Z.leb_spec x1 971) as [X1|X1], (Z.leb_spec x2 971) as [X2|X2];
      try reflexivity.
    + unfold SFleb, SFcompare.
      change (Pos.compare_cont Eq p1 p2) with (Pos.compare p1 p2).
      destruct (Z.compare_spec x1 x2) as [X|X|X]; try reflexivity; try lia.
      destruct (Pos.compare_spec p1 p2) as [Q|Q|Q]; try reflexivity. lia.
    + exfalso. lia.
Qed.

(** Rounding is monotone: of two positive values [m1 * 2 ^ e1 <= m2 * 2 ^ e2]
    the first does not round above the second. *)
Lemma binary_round_aux_monotone m1 e1 m2 e2 e0 :
  0 < m1 -> 0 < m2 ->
  e1 <= fexp prec emax (Zdigits2 m1 + e1) ->
  e2 <= fexp prec emax (Zdigits2 m2 + e2) ->
  e0 <= e1 -> e0 <= e2 ->
  m1 * 2 ^ (e1 - e0) <= m2 * 2 ^ (e2 - e0) ->
  SFleb (binary_round_aux prec emax false m1 e1 loc_Exact)
        (binary_round_aux prec emax false m2 e2 loc_Exact) = true.
Proof.
  intros Hm1 Hm2 He1 He2 H01 H02 Hle.
  destruct (binary_round_aux_nearest false m1 e1 Hm1 He1) as (r1 & N1 & B1 & L1 & ->).
  destruct (binary_round_aux_nearest false m2 e2 Hm2 He2) as (r2 & N2 & B2 & L2 & ->).
  destruct (Zdigits2_bounds m1 Hm1) as [[Dl1 Du1] Dp1].
  destruct (Zdigits2_bounds m2 Hm2) as [[Dl2 Du2] Dp2].
  set (E1 := fexp prec emax (Zdigits2 m1 + e1)) in *.
  set (E2 := fexp prec emax (Zdigits2 m2 + e2)) in *.
  assert (M1 : -1074 <= E1 /\ Zdigits2 m1 + e1 - 53 <= E1
               /\ (-1074 < E1 -> E1 = Zdigits2 m1 + e1 - 53))
    by (subst E1; unfold fexp, SpecFloat.emin, emax, prec; lia).
  assert (M2 : -1074 <= E2 /\ Zdigits2 m2 + e2 - 53 <= E2
               /\ (-1074 < E2 -> E2 = Zdigits2 m2 + e2 - 53))
    by (subst E2; unfold fexp, SpecFloat.emin, emax, prec; lia).
  clearbody E1 E2.
  pose proof (pow2_pos (e1 - e0) ltac:(lia)) as A1.
  pose proof (pow2_pos (e2 - e0) ltac:(lia)) as A2.
  apply SFleb_finish; try assumption.
  destruct (Z.lt_trichotomy E1 E2) as [L|[L|L]].
  - left. split; [exact L|]. apply L2. lia.
  - right. split; [exact L|]. subst E2.
    destruct N1 as ((N1l & _) & N1e & _), N2 as ((_ & N2u) & _ & N2e).
    pose proof (pow2_pos (E1 - e1) ltac:(lia)) as P1.
    pose proof (pow2_pos (E1 - e2) ltac:(lia)) as P2.
    assert (G1 : 2 ^ (E1 - e1) * 2 ^ (e1 - e0) = 2 ^ (E1 - e0))
      by (rewrite <- Z.pow_add_r by lia; f_equal; lia).
    assert (G2 : 2 ^ (E1 - e2) * 2 ^ (e2 - e0) = 2 ^ (E1 - e0))
      by (rewrite <- Z.pow_add_r by lia; f_equal; lia).
    pose proof (pow2_pos (E1 - e0) ltac:(lia)) as G.
    set (a1 := 2 ^ (e1 - e0)) in *. set (a2 := 2 ^ (e2 - e0)) in *.
    set (p1 := 2 ^ (E1 - e1)) in *. set (p2 := 2 ^ (E1 - e2)) in *.
    set (g := 2 ^ (E1 - e0)) in *.
    destruct (Z.le_gt_cases r1 r2) as [R|R]; [exact R|exfalso].
    assert (S1 : (2 * r1 - 1) * g <= 2 * (m1 * a1)).
    { rewrite <- G1.
      replace ((2 * r1 - 1) * (p1 * a1)) with ((2 * r1 - 1) * p1 * a1) by ring.
      replace (2 * (m1 * a1)) with (2 * m1 * a1) by ring.
      apply Z.mul_le_mono_nonneg_r; lia. }
    assert (S2 : 2 * (m2 * a2) <= (2 * r2 + 1) * g).
    { rewrite <- G2.
      replace ((2 * r2 + 1) * (p2 * a2)) with ((2 * r2 + 1) * p2 * a2) by ring.
      replace (2 * (m2 * a2)) with (2 * m2 * a2) by ring.
      apply Z.mul_le_mono_nonneg_r; lia. }
    assert (S3 : (2 * r2 + 1) * g <= (2 * r1 - 1) * g)
      by (apply Z.mul_le_mono_nonneg_r; lia).
    assert (R1 : r1 = r2 + 1).
    { assert ((2 * r1 - 1) * g <= (2 * r2 + 1) * g) by lia.
      assert (2 * r1 - 1 <= 2 * r2 + 1) by (apply (Z.mul_le_mono_pos_r _ _ g); lia).
      lia. }
    assert (T1 : 2 * m1 = (2 * r1 - 1) * p1).
    { apply (Z.mul_cancel_r _ _ a1); [lia|].
      replace ((2 * r1 - 1) * p1 * a1) with ((2 * r1 - 1) * (p1 * a1)) by ring.
      rewrite G1. lia. }
    assert (T2 : 2 * m2 = (2 * r2 + 1) * p2).
    { apply (Z.mul_cancel_r _ _ a2); [lia|].
      replace ((2 * r2 + 1) * p2 * a2) with ((2 * r2 + 1) * (p2 * a2)) by ring.
      rewrite G2. lia. }
    specialize (N1e T1). specialize (N2e T2).
    rewrite R1, Z.even_add, N2e in N1e. discriminate N1e.
  - exfalso.
    destruct M1 as (_ & _ & M1), M2 as (M2a & M2 & _). specialize (M1 ltac:(lia)).
    assert (U : m2 * 2 ^ (e2 - e0) < 2 ^ (Zdigits2 m2 + (e2 - e0))).
    { rewrite Z.pow_add_r by lia. apply Z.mul_lt_mono_pos_r; lia. }
    assert (V : 2 ^ (Zdigits2 m1 - 1 + (e1 - e0)) <= m1 * 2 ^ (e1 - e0)).
    { rewrite Z.pow_add_r by lia. apply Z.mul_le_mono_nonneg_r; lia. }
    assert (W : 2 ^ (Zdigits2 m2 + (e2 - e0)) <= 2 ^ (Zdigits2 m1 - 1 + (e1 - e0)))
      by (apply Z.pow_le_mono_r; lia).
    lia.
Qed.

Lemma product_exponent m e :
  2 ^ 52 <= m -> e <= fexp prec emax (Zdigits2 m + e).
Proof.
  intros H. pose proof (pow2_pos 52 ltac:(lia)) as P.
  destruct (Zdigits2_bounds m ltac:(lia)) as [[_ Du] Dp].
  assert (52 < Zdigits2 m) by (apply (Z.pow_lt_mono_r_iff 2); lia).
  unfold fexp, SpecFloat.emin, emax, prec. lia.
Qed.

(** A valid finite float is what its mantissa and exponent round to. *)
Lemma binary_round_aux_valid m e :
  bounded prec emax m e = true ->
  binary_round_aux prec emax false (Zpos m) e loc_Exact = S754_finite false m e.
Proof.
  intros V. pose proof (bounded_digits m e V) as (D53 & Emin & _).
  unfold bounded, canonical_mantissa in V. apply andb_prop in V as [C B].
  apply Z.eqb_eq in C. apply Z.leb_le in B.
  assert (HE : e <= fexp prec emax (Zdigits2 (Zpos m) + e))
    by (cbn [Zdigits2]; lia).
  destruct (binary_round_aux_nearest false (Zpos m) e ltac:(lia) HE)
    as (r & N & _ & _ & ->).
  cbn [Zdigits2] in N. rewrite C, Z.sub_diag in N.
  change (2 ^ 0) with 1 in N. destruct N as (N & _).
  assert (R : r = Zpos m) by lia. subst r.
  pose proof (digits2_lt m) as L.
  assert (L53 : Zpos m < 2 ^ 53).
  { apply Z.lt_le_trans with (1 := L). apply Z.pow_le_mono_r; lia. }
  unfold finish. cbn [Zdigits2]. rewrite C.
  destruct (Z.ltb_spec (Zpos m) (2 ^ 53)); [|lia].
  destruct (Z.leb_spec e (emax - prec)); [reflexivity|lia].
Qed.

(** Multiplying a float [D >= 0] by a larger normal constant does not give a
    smaller product. *)
Lemma SFmul_monotone m1 e1 m2 e2 e0 D :
  2 ^ 52 <= Zpos m1 -> 2 ^ 52 <= Zpos m2 ->
  e0 <= e1 -> e0 <= e2 ->
  Zpos m1 * 2 ^ (e1 - e0) <= Zpos m2 * 2 ^ (e2 - e0) ->
  SFleb (S754_zero false) D = true ->
  SFleb (SFmul prec emax (S754_finite false m1 e1) D)
        (SFmul prec emax (S754_finite false m2 e2) D) = true.
Proof.
  intros H1 H2 L1 L2 Hle HD.
  destruct D as [s|s| |s m e]; cbn [SFmul xorb].
  - destruct s; reflexivity.
  - destruct s; [discriminate HD|reflexivity].
  - discriminate HD.
  - destruct s; [discriminate HD|].
    rewrite !Pos2Z.inj_mul.
    apply (binary_round_aux_monotone _ _ _ _ (e0 + e)); try lia.
    + apply product_exponent. nia.
    + apply product_exponent. nia.
    + replace (e1 + e - (e0 + e)) with (e1 - e0) by lia.
      replace (e2 + e - (e0 + e)) with (e2 - e0) by lia.
      pose proof (pow2_pos (e1 - e0) ltac:(lia)).
      pose proof (pow2_pos (e2 - e0) ltac:(lia)).
      nia.
Qed.

(** A product with a normal constant of at most one is not above [D >= 0]. *)
Lemma SFmul_below m1 e1 e0 D :
  2 ^ 52 <= Zpos m1 -> e0 <= e1 -> e0 <= 0 ->
  Zpos m1 * 2 ^ (e1 - e0) <= 2 ^ (- e0) ->
  valid_binary D = true ->
  SFleb (S754_zero false) D = true ->
  SFleb (SFmul prec emax (S754_finite false m1 e1) D) D = true.
Proof.
  intros H1 L1 L0 Hle V HD.
  destruct D as [s|s| |s m e]; cbn [SFmul xorb].
  - destruct s; reflexivity.
  - destruct s; [discriminate HD|reflexivity].
  - discriminate HD.
  - destruct s; [discriminate HD|]. change (bounded prec emax m e = true) in V.
    rewrite <- (binary_round_aux_valid m e V).
    rewrite !Pos2Z.inj_mul.
    pose proof (bounded_digits m e V) as (_ & Emin & _).
    unfold bounded, canonical_mantissa in V. apply andb_prop in V as [C _].
    apply Z.eqb_eq in C.
    apply (binary_round_aux_monotone _ _ _ _ (e0 + e)); try lia.
    + apply product_exponent. nia.
    + cbn [Zdigits2]. lia.
    + replace (e1 + e - (e0 + e)) with (e1 - e0) by lia.
      replace (e - (e0 + e)) with (- e0) by lia.
      pose proof (pow2_pos (e1 - e0) ltac:(lia)).
      pose proof (pow2_pos (- e0) ltac:(lia)).
      nia.
Qed.

(** A product with a normal constant of at least one is not below [D >= 0]. *)
Lemma SFmul_above m1 e1 e0 D :
  2 ^ 52 <= Zpos m1 -> e0 <= e1 -> e0 <= 0 ->
  2 ^ (- e0) <= Zpos m1 * 2 ^ (e1 - e0) ->
  valid_binary D = true ->
  SFleb (S754_zero false) D = true ->
  SFleb D (SFmul prec emax (S754_finite false m1 e1) D) = true.
Proof.
  intros H1 L1 L0 Hle V HD.
  destruct D as [s|s| |s m e]; cbn [SFmul xorb].
  - destruct s; reflexivity.
  - destruct s; [discriminate HD|reflexivity].
  - discriminate HD.
  - destruct s; [discriminate HD|]. change (bounded prec emax m e = true) in V.
    rewrite <- (binary_round_aux_valid m e V).
    rewrite !Pos2Z.inj_mul.
    pose proof (bounded_digits m e V) as (_ & Emin & _).
    unfold bounded, canonical_mantissa in V. apply andb_prop in V as [C _].
    apply Z.eqb_eq in C.
    apply (binary_round_aux_monotone _ _ _ _ (e0 + e)); try lia.
    + cbn [Zdigits2]. lia.
    + apply product_exponent. nia.
    + replace (e1 + e - (e0 + e)) with (e1 - e0) by lia.
      replace (e - (e0 + e)) with (- e0) by lia.
      pose proof (pow2_pos (e1 - e0) ltac:(lia)).
      pose proof (pow2_pos (- e0) ltac:(lia)).
      nia.
Qed.
End Nearest.

(** *** The order of binary64 values *)

Lemma SFleb_trans x y z :
  SFleb x y = true -> SFleb y z = true -> SFleb x z = true.
Proof.
  unfold SFleb.
  destruct x as [sx|sx| |sx mx ex], y as [sy|sy| |sy my ey],
           z as [sz|sz| |sz mz ez]; cbn;
    try discriminate; try reflexivity;
    try (destruct sx; discriminate || reflexivity);
    try (destruct sy; discriminate || reflexivity);
    try (destruct sz; discriminate || reflexivity);
    try (destruct sx, sy; discriminate || reflexivity);
    try (destruct sx, sz; discriminate || reflexivity);
    try (destruct sy, sz; discriminate || reflexivity);
    try (destruct sx, sy, sz; discriminate || reflexivity).
  change (Pos.compare_cont Eq mx my) with (Pos.compare mx my).
  change (Pos.compare_cont Eq my mz) with (Pos.compare my mz).
  change (Pos.compare_cont Eq mx mz) with (Pos.compare mx mz).
  destruct sx, sy, sz; try discriminate; try reflexivity;
    destruct (Z.compare_spec ex ey), (Z.compare_spec ey ez),
             (Z.compare_spec ex ez);
    try discriminate; try reflexivity; try lia; subst;
    destruct (Pos.compare_spec mx my), (Pos.compare_spec my mz),
             (Pos.compare_spec mx mz);
    cbn; try discriminate; try reflexivity; try lia.
Qed.

Lemma leb_trans x y z :
  (x <=? y)%float = true -> (y <=? z)%float = true -> (x <=? z)%float = true.
Proof. rewrite !leb_spec. apply SFleb_trans. Qed.

Lemma leb_nan_l x y : is_nan x = true -> (x <=? y)%float = false.
Proof.
  intros H. apply is_nan_spec in H. rewrite leb_spec, H. reflexivity.
Qed.

Lemma leb_nan_r x y : is_nan y = true -> (x <=? y)%float = false.
Proof.
  intros H. apply is_nan_spec in H. rewrite leb_spec, H. unfold SFleb.
  destruct (Prim2SF x); reflexivity.
Qed.

Lemma mul_nan_r x y : is_nan y = true -> is_nan (x * y) = true.
Proof.
  intros H. apply is_nan_spec in H. apply is_nan_spec.
  rewrite mul_spec, H. destruct (Prim2SF x); reflexivity.
Qed.

Lemma SFmul_zero_le m e y :
  SFleb (S754_zero false) y = true ->
  SFleb (S754_zero false) (SFmul prec emax (S754_finite false m e) y) = true.
Proof.
  destruct y as [s'|s'| |s' m' e']; cbn; try discriminate;
    try (destruct s'; discriminate || reflexivity).
  destruct s'; try discriminate. intros _.
  pose proof (binary_round_aux_signed false (Z.pos m * Z.pos m') (e + e')
                loc_Exact ltac:(lia)) as S.
  cbn [xorb].
  change (Z.pos (m * m')) with (Z.pos m * Z.pos m')%Z.
  destruct (binary_round_aux _ _ _ _ _ _) as [?|?| |? ? ?]; cbn in S |- *;
    try reflexivity; try contradiction; subst; reflexivity.
Qed.

Lemma scaled_not_negative k D :
  match Prim2SF k with S754_finite false _ _ => True | _ => False end ->
  (0 <=? D)%float = true -> (0 <=? k * D)%float = true.
Proof.
  rewrite !leb_spec, mul_spec. change (Prim2SF 0) with (S754_zero false).
  destruct (Prim2SF k) as [?|?| |[] m e]; try contradiction.
  intros _. apply SFmul_zero_le.
Qed.

Section Order.
Local Open Scope float_scope.

Lemma SFcompare_none x y :
  SFcompare x y = None -> x = S754_nan \/ y = S754_nan.
Proof.
  destruct x as [s|s| |s m e], y as [s'|s'| |s' m' e']; cbn; auto;
    try discriminate;
    try (destruct s; discriminate); try (destruct s'; discriminate);
    try (destruct s, s'; discriminate);
    try (destruct s, s'; try discriminate; destruct (e ?= e')%Z; discriminate).
Qed.

Lemma is_nan_false x : is_nan x = false <-> Prim2SF x <> S754_nan.
Proof.
  rewrite <- is_nan_spec. destruct (is_nan x); split; congruence.
Qed.

Lemma leb_not_nan x y :
  (x <=? y) = true -> is_nan x = false /\ is_nan y = false.
Proof.
  intros H. split.
  - destruct (is_nan x) eqn:N; [|reflexivity].
    rewrite (leb_nan_l x y N) in H. discriminate H.
  - destruct (is_nan y) eqn:N; [|reflexivity].
    rewrite (leb_nan_r x y N) in H. discriminate H.
Qed.

(** Above a threshold that is a number: not at most it, and a number. *)
Lemma ltb_iff t a :
  is_nan t = false ->
  (t <? a) = true <-> (a <=? t) = false /\ is_nan a = false.
Proof.
  intros Nt. apply is_nan_false in Nt.
  rewrite ltb_spec, leb_spec, is_nan_false. unfold SFltb, SFleb.
  rewrite (SFcompare_antisym (Prim2SF t) (Prim2SF a)).
  destruct (SFcompare (Prim2SF t) (Prim2SF a)) as [[| |]|] eqn:C; cbn;
    try (split; [discriminate|intros [H _]; discriminate H]).
  - split; [intros _|reflexivity]. split; [reflexivity|].
    intros N. rewrite N in C. destruct (Prim2SF t); discriminate C.
  - split; [discriminate|]. intros [_ N].
    apply SFcompare_none in C as [C|C]; contradiction.
Qed.

(** The thresholds of the overlap table, as the code computes them, are in
    the order of the table for every diameter [D >= 0]. *)
Lemma thresholds_ordered D :
  (0 <=? D) = true ->
  (0.3 * D <=? 0.5 * D) = true
  /\ (0.5 * D <=? 0.7 * D) = true
  /\ (0.7 * D <=? D) = true
  /\ (D <=? 2 * D) = true.
Proof.
  rewrite !leb_spec, !mul_spec. unfold SF64mul.
  pose proof (Prim2SF_valid D) as V.
  change (Prim2SF 0) with (S754_zero false).
  change (Prim2SF 0.3) with (S754_finite false 5404319552844595 (-54)).
  change (Prim2SF 0.5) with (S754_finite false 4503599627370496 (-53)).
  change (Prim2SF 0.7) with (S754_finite false 6305039478318694 (-53)).
  change (Prim2SF 2) with (S754_finite false 4503599627370496 (-51)).
  intros HD. repeat split.
  - apply (SFmul_monotone _ _ _ _ (-54)%Z); try exact HD; vm_compute; congruence.
  - apply (SFmul_monotone _ _ _ _ (-53)%Z); try exact HD; vm_compute; congruence.
  - apply (SFmul_below _ _ (-53)%Z); try exact HD; try exact V; vm_compute; congruence.
  - apply (SFmul_above _ _ (-51)%Z); try exact HD; try exact V; vm_compute; congruence.
Qed.
End Order.

(** ** The rules of [wp] *)

Lemma wp_run {A} (m : M A) Q c r c' : wp m Q c -> m c = (r, c') -> Q r c'.
Proof. unfold wp. intros H E. now rewrite E in H. Qed.

Lemma wp_ret {A} (a : A) Q c : Q (Ret a) c -> wp (ret a) Q c.
Proof. exact (fun H => H). Qed.

Lemma wp_raise {A} e (Q : result A -> chat -> Prop) c :
  Q (Raise e) c -> wp (raise e) Q c.
Proof. exact (fun H => H). Qed.

Lemma wp_lift {A} (r : result A) Q c : Q r c -> wp (lift r) Q c.
Proof. exact (fun H => H). Qed.

Lemma wp_bind {A C} (m : M A) (k : A -> M C) Q c :
  wp m (fun r c' =>
          match r with
          | Ret a => wp (k a) Q c'
          | Raise e => Q (Raise e) c'
          end) c ->
  wp (bind m k) Q c.
Proof.
  unfold wp, bind. destruct (m c) as [[a|e] c']; cbn; auto.
Qed.

Lemma wp_try {A} (body handler : M A) e Q c :
  wp body (fun r c' =>
             match r with
             | Ret a => Q (Ret a) c'
             | Raise e' =>
                 if exn_eqb e' e then wp handler Q c' else Q (Raise e') c'
             end) c ->
  wp (try_except body e handler) Q c.
Proof.
  unfold wp, try_except. destruct (body c) as [[a|e'] c']; cbn; auto.
  destruct (exn_eqb e' e); auto.
Qed.

Lemma wp_reply text markup (Q : result unit -> chat -> Prop) c :
  Q (Ret tt) (mk_chat (data c) (sent c ++ [mk_reply text markup])) ->
  wp (reply_text text markup) Q c.
Proof. exact (fun H => H). Qed.

Lemma wp_update f (Q : result unit -> chat -> Prop) c :
  Q (Ret tt) (mk_chat (f (data c)) (sent c)) -> wp (ud_update f) Q c.
Proof. exact (fun H => H). Qed.

Lemma wp_get {A} (key : user_data -> option A) Q c :
  Q (Ret (key (data c))) c -> wp (ud_get key) Q c.
Proof. exact (fun H => H). Qed.

Lemma wp_getitem {A} (key : user_data -> option A) Q c :
  match key (data c) with
  | Some v => Q (Ret v) c
  | None => Q (Raise KeyError) c
  end ->
  wp (ud_getitem key) Q c.
Proof. unfold wp, ud_getitem. destruct (key (data c)); auto. Qed.

Section Calls.
Context {B : Builtins}.

Lemma wp_gcp Q c :
(forall r, (forall l, r = Some l -> listed l) -> Q (Ret r) c) ->
wp get_cutting_parameters Q c.
Proof.
intros H. unfold wp. destruct (gcp_run c) as (r & -> & Hl). cbn. auto.
Qed.

Lemma wp_format speed feed depth n fpm w o Q c :
(forall s, Q (Ret s) c) -> wp (format_result speed feed depth n fpm w o) Q c.
Proof.
intros H. unfold wp. unfold format_result.
cbv beta iota zeta delta [bind ud_get ret]. cbn [fst snd]. apply H.
Qed.

End Calls.

(** ** The state invariant *)

Lemma path1_ext u u' :
  ud_material u' = ud_material u -> path1 u -> path1 u'.
Proof. intros E (m & ops & H1 & H2). exists m, ops. rewrite E. auto. Qed.

Lemma path2_ext u u' :
  ud_material u' = ud_material u -> ud_operation u' = ud_operation u ->
  path2 u -> path2 u'.
Proof.
  intros E1 E2 (m & ops & o & tts & H1 & H2 & H3 & H4).
  exists m, ops, o, tts. rewrite E1, E2. auto.
Qed.

Lemma path3_ext u u' :
  ud_material u' = ud_material u -> ud_operation u' = ud_operation u ->
  ud_tool_type u' = ud_tool_type u -> path3 u -> path3 u'.
Proof.
  intros E1 E2 E3 (m & ops & o & tts & t & ts & H1 & H2 & H3 & H4 & H5 & H6).
  exists m, ops, o, tts, t, ts. rewrite E1, E2, E3. auto 10.
Qed.

Ltac wp_step :=
  lazymatch goal with
  | |- wp (bind _ _) _ _ => apply wp_bind
  | |- wp (ret _) _ _ => apply wp_ret
  | |- wp (raise _) _ _ => apply wp_raise
  | |- wp (lift ?r) _ _ =>
      apply wp_lift;
      lazymatch r with
      | Ret _ => idtac
      | Raise _ => idtac
      | _ => destruct r eqn:?
      end
  | |- wp (try_except _ _ _) _ _ => apply wp_try
  | |- wp (reply_text _ _) _ _ => apply wp_reply
  | |- wp (ud_update _) _ _ => apply wp_update
  | |- wp ud_clear _ _ => apply wp_update
  | |- wp (ud_get _) _ _ => apply wp_get
  | |- wp (ud_getitem ?f) _ ?c =>
      apply wp_getitem; destruct (f (data c)) eqn:?
  | |- wp get_cutting_parameters _ _ => apply wp_gcp; intros ? ?
  | |- wp (format_result _ _ _ _ _ _ _) _ _ => apply wp_format; intros ?
  | |- wp (if ?b then _ else _) _ _ => destruct b eqn:?
  | |- wp (match ?x with Some _ => _ | None => _ end) _ _ => destruct x eqn:?
  | |- wp (match ?x with Ret _ => _ | Raise _ => _ end) _ _ => destruct x eqn:?
  end; cbn beta iota delta [exn_eqb].


Ltac proj := cbn [data sent current chat_of update_state
                  ud_material ud_operation ud_tool_type ud_tool_subtype
                  ud_diameter ud_number_of_teeth ud_depth_of_cut ud_radius
                  ud_groove_width] in *.

Ltac wp_go :=
  repeat (first
    [ wp_step
    | lazymatch goal with
      | |- if exn_eqb ?e _ then _ else _ => destruct e; cbn [exn_eqb]
      end ]; proj).

Ltac str_eq :=
  repeat match goal with
  | H : (_ =? _) = true |- _ => apply String.eqb_eq in H
  | H : (_ =? _) = false |- _ => apply String.eqb_neq in H
  end.

Ltac paths :=
  first [ eapply path3_ext; [| | |eassumption]; reflexivity
        | eapply path2_ext; [| |eassumption]; reflexivity
        | eapply path1_ext; [|eassumption]; reflexivity ].


Ltac fin :=
  unfold conv_inv; proj; cbn [state_inv] in *; str_eq; subst;
  repeat match goal with H : _ /\ _ |- _ => destruct H end;
  try solve
    [ trivial
    | repeat split; proj;
      first [ discriminate | paths | congruence | intuition congruence ] ].

Ltac monad :=
  cbv beta iota zeta delta
    [bind ret lift raise ud_get ud_getitem ud_update ud_clear reply_text
     try_except set_material set_operation set_tool_type set_tool_subtype
     set_diameter set_number_of_teeth set_depth_of_cut set_radius
     set_groove_width exn_eqb];
  cbn [data sent].

Ltac known :=
  repeat match goal with
  | H : ?x = Some _, H' : ?x = Some _ |- _ => rewrite H in H'
  | H : ?x = Some _, H' : ?x = None |- _ => rewrite H in H'
  | H : Some _ = Some _ |- _ => injection H as <-
  | H : Some _ = None |- _ => discriminate H
  | H : dict_getitem _ _ _ = Ret _ |- _ => apply dict_getitem_Ret in H
  | H : dict_getitem _ _ _ = Raise _ |- _ =>
      apply dict_getitem_Raise in H as [-> H]
  end.

Ltac absurd_hyp :=
  match goal with
  | H : _ = _ |- _ => solve [vm_compute in H; discriminate H]
  end.

Ltac looked_up :=
  repeat match goal with
  | H : dict_get _ _ _ = Some ?a |- _ =>
      is_var a; vm_compute in H; injection H as <-
  | H : dict_get _ _ _ = None |- _ => solve [vm_compute in H; discriminate H]
  end.

Section Machine.
Context {B : Builtins}.

Lemma start_preserves S : preserves S start.
Proof. intros c _. unfold start. wp_go. fin. Qed.

Lemma cancel_preserves S : preserves S cancel.
Proof. intros c _. unfold cancel. wp_go. fin. Qed.

Lemma diameter_preserves text : preserves DIAMETER (diameter text).
Proof.
intros c Hinv. unfold diameter, py_float, set_diameter.
wp_go; fin.
Qed.

Lemma number_of_teeth_preserves text :
preserves NUMBER_OF_TEETH (number_of_teeth text).
Proof.
intros c Hinv. unfold number_of_teeth, py_int, set_number_of_teeth.
wp_go; fin.
Qed.

Lemma depth_of_cut_preserves text : preserves DEPTH_OF_CUT (depth_of_cut text).
Proof.
intros c Hinv. unfold depth_of_cut, py_float, set_depth_of_cut.
wp_go; fin.
Qed.

Lemma radius_preserves text : preserves RADIUS (radius text).
Proof.
intros c Hinv. unfold radius, py_float, set_radius.
wp_go; fin.
Qed.

Lemma groove_width_preserves text : preserves GROOVE_WIDTH (groove_width text).
Proof.
intros c Hinv. unfold groove_width, py_float, set_groove_width.
wp_go; fin.
Qed.

Lemma tool_subtype_preserves text : preserves TOOL_SUBTYPE (tool_subtype text).
Proof.
intros c Hinv. unfold tool_subtype, set_tool_subtype.
destruct (str_lower text =? "/start"); [now apply start_preserves|].
wp_go; fin.
Qed.

Lemma contains_getitem {V} (d : dict string V) k :
dict_contains String.eqb d k = true ->
exists v, dict_get String.eqb d k = Some v.
Proof.
unfold dict_contains. destruct (dict_get String.eqb d k); [eauto|discriminate].
Qed.

Lemma material_preserves text : preserves MATERIAL (material text).
Proof.
intros c Hinv. unfold material, set_material.
destruct (str_lower text =? "/start"); [now apply start_preserves|].
wp_go; fin.
all: match goal with
     | H : dict_getitem _ _ _ = Ret _ |- _ => apply dict_getitem_Ret in H
     end.
all: split; [discriminate|]; do 2 eexists; proj; eauto.
Qed.

Lemma operation_preserves text : preserves OPERATION (operation text).
Proof.
intros c Hinv. unfold operation, set_operation.
destruct (str_lower text =? "/start"); [now apply start_preserves|].
wp_go; fin.
all: repeat match goal with
     | H : dict_getitem _ _ _ = Ret _ |- _ => apply dict_getitem_Ret in H
     end.
all: split; [discriminate|]; do 4 eexists; proj; eauto 10.
Qed.

Lemma string_list_eqb_eq a b : string_list_eqb a b = true -> a = b.
Proof.
unfold string_list_eqb. revert b.
induction a as [|x a IH]; intros [|y b]; cbn; try discriminate; auto.
intros H. apply andb_prop in H as [Hl H]. apply andb_prop in H as [Hx H].
apply String.eqb_eq in Hx. subst y. f_equal. apply IH.
now rewrite Hl, H.
Qed.

Lemma catalog_keys : catalog_keys_ok = true.
Proof. vm_compute. reflexivity. Qed.

Lemma tool_type_listed m ops o tts t ts :
dict_get String.eqb cutting_parameters m = Some ops ->
dict_get String.eqb ops o = Some tts ->
dict_get String.eqb tts t = Some ts ->
mem t (tool_types_of o) = true.
Proof.
intros H1 H2 H3. apply dict_get_str_In in H1, H2, H3.
pose proof catalog_keys as K. unfold catalog_keys_ok in K.
rewrite forallb_forall in K. specialize (K _ H1). cbn [fst snd] in K.
apply andb_prop in K as [_ K].
rewrite forallb_forall in K. specialize (K _ H2). cbn [fst snd] in K.
apply string_list_eqb_eq in K. rewrite <- K.
unfold mem. apply existsb_exists. exists t. split; [|apply String.eqb_refl].
apply (in_map fst _ _ H3).
Qed.

Lemma tool_type_preserves text : preserves TOOL_TYPE (tool_type text).
Proof.
intros c Hinv. unfold tool_type, set_tool_type.
destruct (str_lower text =? "/start"); [now apply start_preserves|].
wp_go; fin.
all: repeat match goal with
     | H : dict_getitem _ _ _ = Ret _ |- _ => apply dict_getitem_Ret in H
     | H : dict_contains _ _ _ = true |- _ =>
         apply contains_getitem in H as (? & H)
     end.
all: try (split; [discriminate|]).
all: try (split; [do 6 eexists; proj; eauto 12|]).
all: proj; auto.
1-2: split; congruence.
- right. split; congruence.
- right. split; [assumption|]. left. f_equal.
  match goal with
  | H1 : dict_get _ cutting_parameters _ = Some _,
    H2 : dict_get _ _ "сверление" = Some _,
    H3 : dict_get _ _ (str_lower text) = Some _ |- _ =>
      pose proof (tool_type_listed _ _ _ _ _ _ H1 H2 H3) as L
  end.
  cbn in L. apply String.eqb_neq in Heqb3. rewrite Heqb3 in L.
  rewrite orb_false_r in L. now apply String.eqb_eq in L.
Qed.

Lemma states_preserve s h text :
states s = Some h -> preserves s (h text).
Proof.
destruct s; cbn; intros [= <-].
- apply material_preserves.
- apply operation_preserves.
- apply tool_type_preserves.
- apply tool_subtype_preserves.
- apply diameter_preserves.
- apply number_of_teeth_preserves.
- apply depth_of_cut_preserves.
- apply radius_preserves.
- apply groove_width_preserves.
Qed.

Lemma conv_handler_preserves cv msg :
conv_inv cv -> conv_inv (fst (conv_handler cv msg)).
Proof.
intros Hinv. unfold conv_handler, select.
destruct cv as [[s|] c]; proj.
- destruct Hinv as [Hs Hinv]. proj.
  destruct (command msg) as [cmd|].
  + unfold fallbacks.
    destruct (cmd =? "cancel").
    { pose proof (cancel_preserves s c Hinv) as P. unfold wp in P.
      destruct (cancel c) as [[r|e] c']; cbn [fst snd] in *; [exact P|].
      split; assumption. }
    destruct (cmd =? "start"); [|split; assumption].
    pose proof (start_preserves s c Hinv) as P. unfold wp in P.
    destruct (start c) as [[r|e] c']; cbn [fst snd] in *; [exact P|].
    split; assumption.
  + destruct (states s) as [h|] eqn:Hh; [|split; assumption].
    pose proof (states_preserve s h (text msg) Hh c Hinv) as P. unfold wp in P.
    destruct (h (text msg) c) as [[r|e] c']; cbn [fst snd] in *; [exact P|].
    split; assumption.
- destruct (command msg) as [cmd|]; [|exact I].
  unfold entry_points. destruct (cmd =? "start"); [|exact I].
  pose proof (start_preserves MATERIAL c I) as P. unfold wp in P.
  destruct (start c) as [[r|e] c'] eqn:E; cbn [fst snd] in *.
  + unfold start in E. cbv in E. injection E as <- <-. cbn. split; [discriminate|exact I].
  + exact I.
Qed.

Theorem reachable_inv cv : reachable cv -> conv_inv cv.
Proof.
induction 1 as [|cv msg _ IH]; [exact I|].
now apply conv_handler_preserves.
Qed.

(** ** Restart, retry and the enum-valued prompts *)

Lemma start_run c :
start c = (Ret (Some MATERIAL), mk_chat no_data (sent c ++ [greeting])).
Proof. reflexivity. Qed.

Lemma restart_command cv t :
conv_handler cv (mk_message t (Some "start")) = (restarted cv, None).
Proof.
unfold conv_handler, select. cbn [command text].
destruct (current cv); reflexivity.
Qed.

Lemma restart_text cv s t :
current cv = Some s -> enum_state s = true ->
str_lower t = "/start" ->
conv_handler cv (mk_message t None) = (restarted cv, None).
Proof.
intros Hc Hs Ht. unfold conv_handler, select. cbn [command text]. rewrite Hc.
destruct s; try discriminate; cbn [states];
  unfold material, operation, tool_type, tool_subtype; rewrite Ht;
  reflexivity.
Qed.

Lemma numeric_retry cv s t :
current cv = Some s -> numeric_state s = true ->
float_of_str (replace_comma t) = None ->
conv_handler cv (mk_message t None)
= (mk_conversation (Some s)
     (after (chat_of cv) (fun u => u) [mk_reply (retry s) None]), None).
Proof.
intros Hc Hs Ht. unfold conv_handler, select. cbn [command text]. rewrite Hc.
destruct s; try discriminate; cbn [states];
  unfold diameter, depth_of_cut, radius, groove_width, py_float; rewrite Ht;
  reflexivity.
Qed.

Lemma same_lower cv s t1 t2 :
current cv = Some s -> enum_state s = true ->
str_lower t1 = str_lower t2 ->
conv_handler cv (mk_message t1 None) = conv_handler cv (mk_message t2 None).
Proof.
intros Hc Hs Ht. unfold conv_handler, select. cbn [command text]. rewrite Hc.
destruct s; try discriminate; cbn [states];
  unfold material, operation, tool_type, tool_subtype; rewrite Ht;
  reflexivity.
Qed.

Lemma contains_mem {V} (d : dict string V) k :
dict_contains String.eqb d k = mem k (dict_keys d).
Proof.
unfold dict_contains, mem, dict_keys.
induction d as [|[k' v] d IH]; cbn; [reflexivity|].
destruct (k =? k'); [reflexivity|exact IH].
Qed.

Lemma options_defined cv s :
conv_inv cv -> current cv = Some s -> asks s = true ->
exists keys, options_at s (data (chat_of cv)) = Some keys.
Proof.
unfold conv_inv. intros Hinv Hc Hs. rewrite Hc in Hinv. destruct Hinv as [_ Hinv].
destruct s; try discriminate; cbn [options_at state_inv] in *.
- eauto.
- destruct Hinv as (m & ops & -> & ->). cbn. eauto.
- destruct Hinv as (m & ops & o & tts & -> & -> & -> & ->). cbn. eauto.
Qed.

Lemma wp_eq {A} (m : M A) c r c' :
wp m (fun r0 c0 => r0 = r /\ c0 = c') c -> m c = (r, c').
Proof. unfold wp. destruct (m c) as [r0 c0]. cbn. now intros [-> ->]. Qed.

Lemma unknown_handler s h t c keys :
states s = Some h -> asks s = true ->
state_inv s (data c) ->
str_lower t <> "/start" ->
options_at s (data c) = Some keys ->
mem (str_lower t) keys = false ->
h t c = (Ret (Some END),
         after c (with_answer s (str_lower t)) [mk_reply (not_found s) None]).
Proof.
intros Hh Hs Hinv Ht Hk Hm. apply wp_eq.
apply String.eqb_neq in Ht.
destruct s; try discriminate; cbn [options_at state_inv states] in *;
  injection Hh as <-.
- assert (Hc : dict_contains String.eqb cutting_parameters (str_lower t) = false).
  { rewrite contains_mem. injection Hk as <-. exact Hm. }
  unfold material, set_material. rewrite Ht, Hc. wp_go.
  split; reflexivity.
- destruct Hinv as (m & ops & Em & Eo). rewrite Em, Eo in Hk.
  cbn [option_map] in Hk. injection Hk as <-.
  unfold operation, set_operation. rewrite Ht.
  wp_go; known; rewrite ?contains_mem in *; try congruence.
  split; reflexivity.
- destruct Hinv as (m & ops & o & tts & Em & Eo & Et & Ett).
  rewrite Em, Et, Eo, Ett in Hk.
  cbn [option_map] in Hk. injection Hk as <-.
  unfold tool_type, set_tool_type. rewrite Ht.
  wp_go; known; rewrite ?contains_mem in *; try congruence.
  split; reflexivity.
Qed.

Lemma operation_listed m ops o tts :
dict_get String.eqb cutting_parameters m = Some ops ->
dict_get String.eqb ops o = Some tts ->
mem o ["фрезерование"; "точение"; "сверление"] = true.
Proof.
intros H1 H2. apply dict_get_str_In in H1, H2.
pose proof catalog_keys as K. unfold catalog_keys_ok in K.
rewrite forallb_forall in K. specialize (K _ H1). cbn [fst snd] in K.
apply andb_prop in K as [K _].
apply string_list_eqb_eq in K. rewrite <- K.
unfold mem. apply existsb_exists. exists o. split; [|apply String.eqb_refl].
apply (in_map fst _ _ H2).
Qed.

Lemma material_cases m ops :
dict_get String.eqb cutting_parameters m = Some ops ->
m = "сталь" \/ m = "цветной_металл".
Proof.
unfold cutting_parameters. cbn [dict_get].
destruct (String.eqb_spec m "сталь"); [auto|].
destruct (String.eqb_spec m "цветной_металл"); [auto|discriminate].
Qed.

Lemma mem_cases k keys : mem k keys = true -> In k keys.
Proof.
unfold mem. intros H. apply existsb_exists in H as (x & Hx & E).
apply String.eqb_eq in E. now subst.
Qed.

Lemma operation_cases m ops o tts :
dict_get String.eqb cutting_parameters m = Some ops ->
dict_get String.eqb ops o = Some tts ->
o = "фрезерование" \/ o = "точение" \/ o = "сверление".
Proof.
intros H1 H2. pose proof (operation_listed _ _ _ _ H1 H2) as L.
apply mem_cases in L. cbn in L. intuition.
Qed.

Lemma wp_ex {A} (m : M A) (P : A -> Prop) c :
wp m (fun r _ => exists a, r = Ret a /\ P a) c ->
exists a c', m c = (Ret a, c') /\ P a.
Proof.
unfold wp. destruct (m c) as [r c']. cbn. intros (a & -> & H). eauto.
Qed.

Lemma known_handler s h t c keys :
states s = Some h -> asks s = true ->
state_inv s (data c) ->
str_lower t <> "/start" ->
options_at s (data c) = Some keys ->
mem (str_lower t) keys = true ->
exists r c', h t c = (Ret r, c') /\ exists s', r = Some s' /\ moves s s' = true.
Proof.
intros Hh Hs Hinv Ht Hk Hm. apply wp_ex.
apply String.eqb_neq in Ht.
destruct s; try discriminate; cbn [options_at state_inv states] in *;
  injection Hh as <-.
- assert (Hc : dict_contains String.eqb cutting_parameters (str_lower t) = true).
  { rewrite contains_mem. injection Hk as <-. exact Hm. }
  unfold material, set_material. rewrite Ht, Hc.
  wp_go; known; [eauto|].
  apply contains_getitem in Hc as (? & ?). congruence.
- destruct Hinv as (m & ops & Em & Eo). rewrite Em, Eo in Hk.
  cbn [option_map] in Hk. injection Hk as <-.
  rewrite <- contains_mem in Hm.
  unfold operation, set_operation. rewrite Ht.
  wp_go; known; try congruence; [eauto|].
  apply contains_getitem in Hm as (? & ?). congruence.
- destruct Hinv as (m & ops & o & tts & Em & Eo & Et & Ett).
  rewrite Em, Et, Eo, Ett in Hk.
  cbn [option_map] in Hk. injection Hk as <-.
  rewrite <- contains_mem in Hm.
  destruct (contains_getitem _ _ Hm) as (ts & Hts).
  pose proof (tool_type_listed _ _ _ _ _ _ Eo Ett Hts) as L.
  apply mem_cases in L.
  unfold tool_type, set_tool_type. rewrite Ht.
  destruct (material_cases _ _ Eo) as [-> | ->];
    destruct (operation_cases _ _ _ _ Eo Ett) as [-> | [-> | ->]];
    cbn in L; destruct L as [L | [L | []]]; rewrite <- L in *;
    clear Hts Hm;
    clear Eo Ett;
    wp_go; known; looked_up; try congruence; try absurd_hyp; eauto.
Qed.

(** ** The dimension prompts, milling and drilling *)

Lemma dict_get_is_key (d : dict float entry) x :
is_key x (dict_keys d) = false -> dict_get PrimFloat.eqb d x = None.
Proof.
unfold is_key, dict_keys. induction d as [|[k v] d IH]; cbn; [reflexivity|].
destruct (x =? k)%float; [discriminate|exact IH].
Qed.

Lemma dict_get_not_key (d : dict float entry) x :
is_key x (dict_keys d) = true -> exists e, dict_get PrimFloat.eqb d x = Some e.
Proof.
unfold is_key, dict_keys. induction d as [|[k v] d IH]; cbn; [discriminate|].
destruct (x =? k)%float; [eauto|exact IH].
Qed.

Lemma zero_not_key x keys :
(x =? 0)%float = true ->
forallb (fun k => match Prim2SF k with S754_finite _ _ _ => true | _ => false end)
        keys = true ->
is_key x keys = false.
Proof.
intros H0 Hk. unfold is_key.
apply not_true_is_false. intros H. apply existsb_exists in H as (k & Hin & E).
rewrite forallb_forall in Hk. specialize (Hk k Hin).
rewrite eqb_spec in H0, E. unfold SFeqb in *.
change (Prim2SF 0) with (S754_zero false) in H0.
destruct (Prim2SF k) as [?|?| |[] ? ?]; try discriminate;
  destruct (Prim2SF x) as [[]|[]| |[] ? ?]; discriminate.
Qed.

(** The lookup on the two turning paths: the dimension dict of the path,
  read at the value stored. *)
Lemma turning_lookup c m ops t :
ud_material (data c) = Some m ->
dict_get String.eqb cutting_parameters m = Some ops ->
ud_operation (data c) = Some "точение" ->
ud_tool_type (data c) = Some t ->
t = "проходной" \/ t = "канавочный" ->
exists d,
  subscript4 m "точение" t
    (if t =? "проходной" then "радиус_пластины" else "ширина_пластины")
  = Ret (ByDimension d)
  /\ dict_keys d = (if t =? "проходной" then radii else widths)
  /\ get_cutting_parameters c
     = (Ret match (if t =? "проходной" then ud_radius (data c)
                   else ud_groove_width (data c)) with
            | Some x => option_map Entry (dict_get PrimFloat.eqb d x)
            | None => None
            end, c).
Proof.
intros Em Hm Eo Et Ht.
unfold get_cutting_parameters. monad. rewrite Em, Eo, Et.
destruct (material_cases _ _ Hm) as [-> | ->]; destruct Ht as [-> | ->];
  (eexists; split; [vm_compute; reflexivity|]; split; [reflexivity|]).
all: cbn [orb andb String.eqb Ascii.eqb Bool.eqb]; cbv iota.
all: match goal with
     | |- context [opt_float_truthy ?v] => destruct v as [x|]; [|reflexivity]
     end.
all: cbn [opt_float_truthy]; destruct (float_truthy x) eqn:T; [reflexivity|].
all: unfold float_truthy in T; apply negb_false_iff in T.
all: rewrite dict_get_is_key; [reflexivity|].
all: apply zero_not_key; [exact T|reflexivity].
Qed.

Lemma wp_gcp_eq r c (Q : result (option leaf) -> chat -> Prop) :
get_cutting_parameters c = (Ret r, c) -> Q (Ret r) c ->
wp get_cutting_parameters Q c.
Proof. unfold wp. now intros ->. Qed.

Ltac wp_to_lookup :=
repeat (lazymatch goal with
        | |- wp get_cutting_parameters _ _ => fail
        | _ => wp_step
        end; proj).

Lemma path3_material u :
path3 u -> exists m ops, ud_material u = Some m
                         /\ dict_get String.eqb cutting_parameters m = Some ops.
Proof. intros (m & ops & o & tts & t & ts & H1 & H2 & _). eauto. Qed.

Lemma dimension_not_found cv s t x :
conv_inv cv -> current cv = Some s -> dimension_state s = true ->
float_of_str (replace_comma t) = Some x ->
is_key x (dimension_keys_of s) = false ->
conv_handler cv (mk_message t None)
= (mk_conversation None
     (after (chat_of cv) (with_dimension s x) [mk_reply no_parameters None]),
   None).
Proof.
unfold conv_inv. intros Hinv Hc Hs Hx Hk. rewrite Hc in Hinv.
destruct Hinv as [_ Hinv].
unfold conv_handler, select. cbn [command text]. rewrite Hc.
destruct s; try discriminate; cbn [states state_inv] in *;
  destruct Hinv as (P & Ho & Et);
  destruct (path3_material _ P) as (m & ops & Em & Hm).
- assert (E : radius t (chat_of cv)
              = (Ret (Some END),
                 after (chat_of cv) (with_radius x)
                       [mk_reply no_parameters None])).
  { apply wp_eq. unfold radius, py_float, set_radius. rewrite Hx.
    wp_to_lookup.
    match goal with |- wp _ _ ?c1 =>
      destruct (turning_lookup c1 m ops "проходной" Em Hm Ho Et
                               (or_introl eq_refl)) as (d & _ & Hd & L)
    end.
    cbn [String.eqb Ascii.eqb Bool.eqb] in L, Hd. cbv iota in L, Hd. proj.
    rewrite dict_get_is_key in L by (rewrite Hd; exact Hk).
    cbn [option_map] in L.
    eapply wp_gcp_eq; [exact L|]. cbn beta iota. wp_go. split; reflexivity. }
  rewrite E. reflexivity.
- assert (E : groove_width t (chat_of cv)
              = (Ret (Some END),
                 after (chat_of cv) (with_groove_width x)
                       [mk_reply no_parameters None])).
  { apply wp_eq. unfold groove_width, py_float, set_groove_width. rewrite Hx.
    wp_to_lookup.
    match goal with |- wp _ _ ?c1 =>
      destruct (turning_lookup c1 m ops "канавочный" Em Hm Ho Et
                               (or_intror eq_refl)) as (d & _ & Hd & L)
    end.
    cbn [String.eqb Ascii.eqb Bool.eqb] in L, Hd. cbv iota in L, Hd. proj.
    rewrite dict_get_is_key in L by (rewrite Hd; exact Hk).
    cbn [option_map] in L.
    eapply wp_gcp_eq; [exact L|]. cbn beta iota. wp_go. split; reflexivity. }
  rewrite E. reflexivity.
Qed.

Lemma catalog_means : forallb means_ok catalog_entries = true.
Proof. vm_compute. reflexivity. Qed.

Lemma listed_means l :
listed l ->
exists e,
  l = Entry e
  /\ (exists v, mean_int (speed e) = Ret v)
  /\ (exists v, mean_float (feed e) = Ret v)
  /\ (forall r, depth e = Some r -> exists v, mean_int r = Ret v).
Proof.
intros (e & -> & Hin). exists e. split; [reflexivity|].
pose proof catalog_means as M. rewrite forallb_forall in M.
specialize (M e Hin). unfold means_ok in M. apply andb_prop in M as [Ms Md].
unfold mean_int, mean_float. split; [|split].
- destruct (int_truediv (fst (speed e) + snd (speed e)) 2); [eauto|discriminate].
- eexists. reflexivity.
- intros r Hr. rewrite Hr in Md.
  destruct (int_truediv (fst r + snd r) 2); [eauto|discriminate].
Qed.

(** After the lookup returned a listed entry, the means are taken. *)
Ltac use_entry :=
match goal with
| Hl : forall l, Some ?p = Some l -> listed l |- _ =>
    let e := fresh "e" in
    let Hs := fresh "Hs" in
    let Hf := fresh "Hf" in
    let Hd := fresh "Hd" in
    destruct (listed_means p (Hl p eq_refl))
      as (e & -> & (? & Hs) & (? & Hf) & Hd);
    cbn [params_truthy negb params_speed params_feed params_depth]
end.

Lemma dimension_no_crash cv s t :
conv_inv cv -> current cv = Some s -> dimension_state s = true ->
snd (conv_handler cv (mk_message t None)) = None
/\ (float_of_str (replace_comma t) <> None ->
    current (fst (conv_handler cv (mk_message t None))) = None).
Proof.
unfold conv_inv. intros Hinv Hc Hs. rewrite Hc in Hinv.
destruct Hinv as [_ Hinv].
unfold conv_handler, select. cbn [command text]. rewrite Hc.
destruct s; try discriminate; cbn [states state_inv] in *;
  destruct Hinv as (P & Ho & Et);
  destruct (path3_material _ P) as (m & ops & Em & Hm).
- assert (W : wp (radius t)
                (fun r _ => (r = Ret (Some END)
                             \/ (r = Ret (Some RADIUS)
                                 /\ float_of_str (replace_comma t) = None)))
                (chat_of cv)).
  { unfold radius, py_float, set_radius.
    destruct (float_of_str (replace_comma t)) as [x|].
    - wp_to_lookup. apply wp_gcp. intros [p|] Hl; cbn beta iota.
      + use_entry. wp_go; known; try congruence; auto.
        all: destruct (Hd _ eq_refl) as (? & ?); congruence.
      + wp_go. auto.
    - wp_go. auto. }
  unfold wp in W. destruct (radius t (chat_of cv)) as [r c'].
  cbn [fst snd] in W.
  destruct W as [-> | [-> E]]; cbn; split; auto; congruence.
- assert (W : wp (groove_width t)
                (fun r _ => (r = Ret (Some END)
                             \/ (r = Ret (Some GROOVE_WIDTH)
                                 /\ float_of_str (replace_comma t) = None)))
                (chat_of cv)).
  { unfold groove_width, py_float, set_groove_width.
    destruct (float_of_str (replace_comma t)) as [x|].
    - wp_to_lookup. apply wp_gcp. intros [p|] Hl; cbn beta iota.
      + use_entry. wp_go; known; try congruence; auto.
      + wp_go. auto.
    - wp_go. auto. }
  unfold wp in W. destruct (groove_width t (chat_of cv)) as [r c'].
  cbn [fst snd] in W.
  destruct W as [-> | [-> E]]; cbn; split; auto; congruence.
Qed.

(** *** Milling with a ball-nose cutter *)

Lemma ball_lookup c m ops :
ud_material (data c) = Some m ->
dict_get String.eqb cutting_parameters m = Some ops ->
ud_operation (data c) = Some "фрезерование" ->
ud_tool_type (data c) = Some "монолитная" ->
ud_tool_subtype (data c) = Some "сферическая" ->
exists e, get_cutting_parameters c = (Ret (Some (Entry e)), c).
Proof.
intros Em Hm Eo Et Es.
unfold get_cutting_parameters. monad. rewrite Em, Eo, Et, Es.
destruct (material_cases _ _ Hm) as [-> | ->]; eexists; reflexivity.
Qed.

Lemma ball_nose_out_of_domain cv t a D :
conv_inv cv -> current cv = Some DEPTH_OF_CUT ->
ud_tool_type (data (chat_of cv)) = Some "монолитная" ->
ud_tool_subtype (data (chat_of cv)) = Some "сферическая" ->
ud_diameter (data (chat_of cv)) = Some D ->
float_truthy D = true ->
float_of_str (replace_comma t) = Some a ->
(a * (D - a) <? 0)%float = true ->
conv_handler cv (mk_message t None)
= (mk_conversation (Some DEPTH_OF_CUT)
     (after (chat_of cv) (with_depth_of_cut a)
            [mk_reply depth_of_cut_retry None]), None).
Proof.
unfold conv_inv. intros Hinv Hc Et Es Ed HD Ha Hr. rewrite Hc in Hinv.
destruct Hinv as [_ (P & Eo & _)].
destruct (path3_material _ P) as (m & ops & Em & Hm).
unfold conv_handler, select. cbn [command text]. rewrite Hc. cbn [states].
assert (E : depth_of_cut t (chat_of cv)
            = (Ret (Some DEPTH_OF_CUT),
               after (chat_of cv) (with_depth_of_cut a)
                     [mk_reply depth_of_cut_retry None])).
{ apply wp_eq. unfold depth_of_cut, py_float, set_depth_of_cut. rewrite Ha.
  wp_to_lookup.
  match goal with |- wp _ _ ?c1 =>
    destruct (ball_lookup c1 m ops Em Hm Eo Et Es) as (e & L)
  end.
  eapply wp_gcp_eq; [exact L|]. cbn beta iota.
  cbn [params_truthy negb].
  apply wp_bind, wp_get. proj. cbn beta iota.
  apply wp_bind, wp_get. proj. cbn beta iota.
  apply wp_bind. rewrite Ed, Es, HD. cbn [andb negb String.eqb Ascii.eqb Bool.eqb].
  cbv iota. apply wp_lift.
  unfold calculate_cutting_width.
  cbn [String.eqb Ascii.eqb Bool.eqb]. cbv iota.
  rewrite (math_sqrt_negative _ Hr). cbn [exn_eqb].
  wp_go. unfold after, with_depth_of_cut. rewrite ?Ed, ?Es.
  split; reflexivity. }
rewrite E. reflexivity.
Qed.

(** *** Drilling *)

Lemma wp_known {A} (m : M A) r c c' (Q : result A -> chat -> Prop) :
m c = (r, c') -> Q r c' -> wp m Q c.
Proof. unfold wp. now intros ->. Qed.

Lemma format_result_run speed feed depth n fpm w o c :
exists s, format_result speed feed depth n fpm w o c = (Ret s, c).
Proof.
unfold format_result. cbv beta iota zeta delta [bind ud_get ret]. eauto.
Qed.

Lemma drilling_terminal cv t d :
conv_inv cv -> current cv = Some DIAMETER ->
ud_operation (data (chat_of cv)) = Some "сверление" ->
float_of_str (replace_comma t) = Some d ->
(d =? 0)%float = false ->
let c1 := mk_chat (with_diameter d (data (chat_of cv))) (sent (chat_of cv)) in
exists rep,
  conv_handler cv (mk_message t None)
  = (mk_conversation None (after (chat_of cv) (with_diameter d) [rep]), None)
  /\ ((get_cutting_parameters c1 = (Ret None, c1)
       /\ rep = mk_reply no_parameters None)
      \/ exists e sp fd body,
           get_cutting_parameters c1 = (Ret (Some (Entry e)), c1)
           /\ mean_int (speed e) = Ret sp
           /\ mean_float (feed e) = Ret fd
           /\ format_result sp fd None
                (Some (1000 * sp / (math_pi * d))%float)
                (Some (fd * (1000 * sp / (math_pi * d)))%float)
                None None c1 = (Ret body, c1)
           /\ rep = mk_reply body (Some start_keyboard)).
Proof.
intros Hinv Hc Eo Hd Hd0 c1. unfold conv_inv in Hinv. rewrite Hc in Hinv.
pose proof (pi_mul_not_zero d Hd0) as Hpi.
unfold conv_handler, select. cbn [command text]. rewrite Hc. cbn [states].
enough (W : wp (diameter t)
              (fun r c' =>
                 r = Ret (Some END)
                 /\ exists rep,
                      c' = after (chat_of cv) (with_diameter d) [rep]
                      /\ ((get_cutting_parameters c1 = (Ret None, c1)
       /\ rep = mk_reply no_parameters None)
      \/ exists e sp fd body,
           get_cutting_parameters c1 = (Ret (Some (Entry e)), c1)
           /\ mean_int (speed e) = Ret sp
           /\ mean_float (feed e) = Ret fd
           /\ format_result sp fd None
                (Some (1000 * sp / (math_pi * d))%float)
                (Some (fd * (1000 * sp / (math_pi * d)))%float)
                None None c1 = (Ret body, c1)
           /\ rep = mk_reply body (Some start_keyboard)))
              (chat_of cv)).
{ unfold wp in W. destruct (diameter t (chat_of cv)) as [r c'].
  cbn [fst snd] in W. destruct W as (-> & rep & -> & H).
  exists rep. split; [reflexivity|exact H]. }
unfold diameter, py_float, set_diameter. rewrite Hd.
apply wp_try, wp_bind, wp_lift. cbn beta iota.
apply wp_bind, wp_update. cbn beta iota.
change (mk_chat _ _) with c1.
assert (Eo1 : ud_operation (data c1) = Some "сверление") by exact Eo.
apply wp_bind, wp_getitem. rewrite Eo1. cbn beta iota.
cbn [String.eqb Ascii.eqb Bool.eqb]. cbv iota.
apply wp_bind.
destruct (gcp_run c1) as ([p|] & L & Hl).
- destruct (listed_means p (Hl p eq_refl))
    as (e & -> & (sp & Hs) & (fd & Hf) & _).
  eapply wp_known; [exact L|]. cbn beta iota. cbn [params_truthy negb].
  apply wp_bind, wp_lift. cbn [params_speed]. cbn beta iota.
  apply wp_bind, wp_lift. rewrite Hs. cbn beta iota.
  apply wp_bind, wp_lift. cbn [params_feed]. cbn beta iota.
  apply wp_bind, wp_lift. rewrite Hf. cbn beta iota.
  apply wp_bind, wp_lift. unfold float_truediv. rewrite Hpi. cbn beta iota.
  apply wp_bind.
  destruct (format_result_run sp fd None
              (Some (1000 * sp / (math_pi * d))%float)
              (Some (fd * (1000 * sp / (math_pi * d)))%float)
              None None c1) as (body & F).
  eapply wp_known; [exact F|]. cbn beta iota.
  wp_go. split; [reflexivity|].
  eexists. split; [reflexivity|]. right. exists e, sp, fd, body. auto 10.
- eapply wp_known; [exact L|]. cbn beta iota.
  wp_go. split; [reflexivity|].
  eexists. split; [reflexivity|]. left. auto.
Qed.

Lemma reachable_run cv msgs :
reachable cv -> reachable (run cv msgs).
Proof.
revert cv. induction msgs as [|msg msgs IH]; intros cv H; cbn; [exact H|].
apply IH. now constructor.
Qed.


End Machine.

(** * The claims *)

(** C1, the claim as stated fails: the depth is not compared with the
    numbers 0.3 D, 0.5 D and 0.7 D but with the binary64 products, which are
    rounded.  For the diameter 3 the products [0.3 * 3] and [0.7 * 3] are
    0.8999999999999999 and 2.0999999999999996, below what the texts 0.9 and
    2.1 read as: the depth 0.9 gets the overlap 70 and not 100, the depth 2.1
    gets 30 and not 50, and a conversation about a cylindrical cutter of
    diameter 3 answers the depth 0.9 with the cutting width 2.1 mm
    (70 percent of the diameter) and not 3.0 mm. *)
Lemma overlap_thresholds_are_rounded :
  let cv := run idle (cylindrical_answers ++ [say "0.9"]) in
  float_of_str "0.9" = Some 0.9%float
  /\ float_of_str "2.1" = Some 2.1%float
  /\ str_of_float (0.3 * 3)%float = "0.8999999999999999"
  /\ str_of_float (0.7 * 3)%float = "2.0999999999999996"
  /\ (0.9 <=? 0.3 * 3)%float = false
  /\ (2.1 <=? 0.7 * 3)%float = false
  /\ calculate_overlap 3 0.9 = Some 70%Z
  /\ calculate_overlap 3 2.1 = Some 30%Z
  /\ ud_diameter (data (chat_of cv)) = Some 3%float
  /\ ud_depth_of_cut (data (chat_of cv)) = Some 0.9%float
  /\ occurs "Ширина резания: 2.1 мм" (last_body cv) = true
  /\ occurs "Ширина резания: 3.0 мм" (last_body cv) = false.
Proof. vm_compute. repeat split; reflexivity. Qed.

(** C1, amended.  For every diameter [D >= 0] the thresholds the code
    computes, the binary64 products [0.3 * D], [0.5 * D], [0.7 * D], [D] and
    [2 * D], are in this order, and the overlap percent is the band of the
    depth [a] between them, every threshold included on the upper side: it is
    100 exactly when [a <= 0.3 * D], 70 exactly when
    [0.3 * D < a <= 0.5 * D], 50 exactly when [0.5 * D < a <= 0.7 * D], 30
    exactly when [0.7 * D < a <= D], 10 exactly when [D < a <= 2 * D], and
    [None] exactly when [a > 2 * D] or [a] is a NaN.  For [D = 10] the
    depths 3, 5, 7, 10, 20, 21 give 100, 70, 50, 30, 10, [None]. *)
Theorem calculate_overlap_bands :
  (forall D a : float,
      (0 <=? D)%float = true ->
      ((0.3 * D <=? 0.5 * D)%float = true
       /\ (0.5 * D <=? 0.7 * D)%float = true
       /\ (0.7 * D <=? D)%float = true
       /\ (D <=? 2 * D)%float = true)
      /\ (calculate_overlap D a = Some 100%Z
          <-> (a <=? 0.3 * D)%float = true)
      /\ (calculate_overlap D a = Some 70%Z
          <-> (0.3 * D <? a)%float = true /\ (a <=? 0.5 * D)%float = true)
      /\ (calculate_overlap D a = Some 50%Z
          <-> (0.5 * D <? a)%float = true /\ (a <=? 0.7 * D)%float = true)
      /\ (calculate_overlap D a = Some 30%Z
          <-> (0.7 * D <? a)%float = true /\ (a <=? D)%float = true)
      /\ (calculate_overlap D a = Some 10%Z
          <-> (D <? a)%float = true /\ (a <=? 2 * D)%float = true)
      /\ (calculate_overlap D a = None
          <-> (2 * D <? a)%float = true \/ is_nan a = true))
  /\ map (calculate_overlap 10) [3; 5; 7; 10; 20; 21]%float
     = [Some 100; Some 70; Some 50; Some 30; Some 10; None]%Z.
Proof.
  split; [|vm_compute; reflexivity].
  intros D a HD.
  pose proof (thresholds_ordered D HD) as (O1 & O2 & O3 & O4).
  split; [auto|].
  destruct (leb_not_nan _ _ O1) as [N1 N2].
  destruct (leb_not_nan _ _ O3) as [N3 N4].
  destruct (leb_not_nan _ _ O4) as [_ N5].
  rewrite (ltb_iff _ a N1), (ltb_iff _ a N2), (ltb_iff _ a N3),
    (ltb_iff _ a N4), (ltb_iff _ a N5).
  pose proof (fun H => leb_trans a _ _ H O1) as T1.
  pose proof (fun H => leb_trans a _ _ H O2) as T2.
  pose proof (fun H => leb_trans a _ _ H O3) as T3.
  pose proof (fun H => leb_trans a _ _ H O4) as T4.
  pose proof (fun H => proj1 (leb_not_nan a (2 * D) H)) as Na.
  unfold calculate_overlap.
  destruct (a <=? 0.3 * D)%float, (a <=? 0.5 * D)%float,
    (a <=? 0.7 * D)%float, (a <=? D)%float, (a <=? 2 * D)%float, (is_nan a);
    try (discriminate (T1 eq_refl)); try (discriminate (T2 eq_refl));
    try (discriminate (T3 eq_refl)); try (discriminate (T4 eq_refl));
    try (discriminate (Na eq_refl));
    clear; intuition congruence.
Qed.

Lemma calculate_overlap_bands_witness :
  calculate_overlap 10 4 = Some 70%Z /\ calculate_overlap 3 7 = None.
Proof.
  split.
  - apply (proj1 calculate_overlap_bands 10%float 4%float); [reflexivity|].
    split; reflexivity.
  - apply (proj1 calculate_overlap_bands 3%float 7%float); [reflexivity|].
    left. reflexivity.
Defined.

(** C2. For [0 <= a <= D] the ball-nose cutting width is
    [2 * sqrt (a * (D - a))]: the square root is taken and does not raise;
    [D = 10, a = 2] gives 8.0 and [D = 10, a = 10] gives 0.0.  For the
    cylindrical subtype the width is [0.5 * D], and for every other subtype
    the result is [None]. *)
Theorem calculate_cutting_width_cases :
  (forall D a : float,
      (0 <=? a)%float = true -> (a <=? D)%float = true ->
      calculate_cutting_width D a "сферическая"
      = Ret (Some (2 * sqrt (a * (D - a)))%float))
  /\ calculate_cutting_width 10 2 "сферическая" = Ret (Some 8%float)
  /\ calculate_cutting_width 10 10 "сферическая" = Ret (Some 0%float)
  /\ (forall D a : float,
        calculate_cutting_width D a "цилиндрическая" = Ret (Some (0.5 * D)%float))
  /\ (forall (D a : float) (subtype : string),
        subtype <> "цилиндрическая" -> subtype <> "сферическая" ->
        calculate_cutting_width D a subtype = Ret None).
Proof.
  split; [|split; [|split; [|split]]].
  - intros D a H0 Hle. unfold calculate_cutting_width.
    cbn [String.eqb Ascii.eqb Bool.eqb]. cbv iota.
    now rewrite math_sqrt_in_domain.
  - vm_compute. reflexivity.
  - vm_compute. reflexivity.
  - reflexivity.
  - intros D a subtype H1 H2. unfold calculate_cutting_width.
    apply String.eqb_neq in H1, H2. now rewrite H1, H2.
Qed.

Lemma calculate_cutting_width_cases_witness :
  calculate_cutting_width 10 2.5 "сферическая"
  = Ret (Some (2 * sqrt (2.5 * (10 - 2.5)))%float)
  /\ calculate_cutting_width 10 2 "торцевая" = Ret None.
Proof.
  split.
  - apply (proj1 calculate_cutting_width_cases 10 2.5)%float;
      vm_compute; reflexivity.
  - apply (proj2 (proj2 (proj2 (proj2 calculate_cutting_width_cases))));
      intros H; vm_compute in H; discriminate H.
Defined.

(** C7. In every state of the conversation, and when none is running, the
    [/start] command clears [user_data] to the empty dict and makes
    [MATERIAL] the current state; the text [/start] does the same at the four
    prompts that read it themselves. *)
Theorem restart_resets_session :
  (forall (B : Builtins) (cv : conversation) (t : string),
      conv_handler cv (mk_message t (Some "start")) = (restarted cv, None))
  /\ (forall (B : Builtins) (cv : conversation) (s : state) (t : string),
        current cv = Some s -> enum_state s = true ->
        str_lower t = "/start" ->
        conv_handler cv (mk_message t None) = (restarted cv, None))
  /\ (forall cv : conversation,
        current (restarted cv) = Some MATERIAL
        /\ data (chat_of (restarted cv)) = no_data).
Proof.
  split; [|split].
  - intros B cv t. apply restart_command.
  - intros B cv s t. apply restart_text.
  - intros cv. split; reflexivity.
Qed.

Lemma restart_resets_session_witness :
  let cv := run idle (ball_nose_answers ++ [say "2,5"]) in
  let cv' := run idle [start_command; say "сталь"; say "/Start"] in
  fst (conv_handler cv start_command) = restarted cv
  /\ current cv' = Some MATERIAL /\ data (chat_of cv') = no_data.
Proof.
  split; [|split].
  - exact (f_equal fst (proj1 restart_resets_session reference_builtins _ "/start")).
  - vm_compute. reflexivity.
  - vm_compute. reflexivity.
Defined.

(** C6. At the four numeric prompts a text that [float] rejects, after its
    commas are replaced by points, is answered with the prompt's retry message;
    the state is unchanged and so is everything stored.  A comma and a point
    are read alike: ["1,5"] and ["1.5"] both give 1.5, at each of the four
    prompts. *)
Theorem numeric_prompts_retry :
  (forall (B : Builtins) (cv : conversation) (s : state) (t : string),
      current cv = Some s -> numeric_state s = true ->
      float_of_str (replace_comma t) = None ->
      conv_handler cv (mk_message t None)
      = (mk_conversation (Some s)
           (after (chat_of cv) (fun u => u) [mk_reply (retry s) None]), None))
  /\ (forall B : Builtins, py_float (replace_comma "1,5") = py_float "1.5")
  /\ py_float (replace_comma "1,5") = Ret 1.5%float
  /\ py_float (replace_comma "1.5") = Ret 1.5%float
  /\ (let milling := [start_command; say "сталь"; say "фрезерование";
                      say "монолитная"; say "цилиндрическая"] in
      ud_diameter (data (chat_of (run idle (milling ++ [say "1,5"]))))
      = Some 1.5%float
      /\ ud_depth_of_cut
           (data (chat_of (run idle (milling ++ [say "10"; say "4"; say "1,5"]))))
         = Some 1.5%float
      /\ ud_radius (data (chat_of (run idle (profiling_answers ++ [say "1,5"]))))
         = Some 1.5%float
      /\ ud_groove_width
           (data (chat_of (run idle (grooving_answers ++ [say "1,5"]))))
         = Some 1.5%float).
Proof.
  split; [|split; [|split; [|split]]].
  - intros B cv s t. apply numeric_retry.
  - reflexivity.
  - vm_compute. reflexivity.
  - vm_compute. reflexivity.
  - vm_compute. repeat split; reflexivity.
Qed.

Lemma numeric_prompts_retry_witness :
  let cv := run idle ball_nose_answers in
  conv_handler cv (say "two")
  = (mk_conversation (Some DEPTH_OF_CUT)
       (after (chat_of cv) (fun u => u) [mk_reply depth_of_cut_retry None]),
     None).
Proof.
  apply (proj1 numeric_prompts_retry reference_builtins _ DEPTH_OF_CUT "two");
    vm_compute; reflexivity.
Defined.

(** C4. At the material, operation and tool-type prompts of a reachable
    conversation the answer is lower-cased and looked up among the keys of
    the catalog at the path stored so far.  If it is not one of them, the
    answer is stored, the prompt's "not found" message is sent and the
    conversation ends; if it is, the conversation moves to the next prompt.
    Two answers with the same lower case have the same effect. *)
Theorem unknown_enum_value_ends_conversation :
  (forall (B : Builtins) (cv : conversation) (s : state) (t : string),
      reachable cv -> current cv = Some s -> asks s = true ->
      str_lower t <> "/start" ->
      exists keys,
        options_at s (data (chat_of cv)) = Some keys
        /\ (mem (str_lower t) keys = false ->
            conv_handler cv (mk_message t None)
            = (mk_conversation None
                 (after (chat_of cv) (with_answer s (str_lower t))
                        [mk_reply (not_found s) None]), None))
        /\ (mem (str_lower t) keys = true ->
            exists s',
              current (fst (conv_handler cv (mk_message t None))) = Some s'
              /\ moves s s' = true
              /\ snd (conv_handler cv (mk_message t None)) = None))
  /\ (forall (B : Builtins) (cv : conversation) (s : state) (t1 t2 : string),
        current cv = Some s -> enum_state s = true ->
        str_lower t1 = str_lower t2 ->
        conv_handler cv (mk_message t1 None)
        = conv_handler cv (mk_message t2 None))
  /\ (current (run idle [start_command; say "wood"]) = None
      /\ last_body (run idle [start_command; say "wood"]) = not_found MATERIAL
      /\ run idle [start_command; say "СТАЛЬ"]
         = run idle [start_command; say "сталь"]
      /\ current (run idle [start_command; say "СТАЛЬ"]) = Some OPERATION).
Proof.
  split; [|split].
  - intros B cv s t Hr Hc Hs Ht.
    pose proof (reachable_inv cv Hr) as Hinv.
    destruct (options_defined cv s Hinv Hc Hs) as (keys & Hk).
    exists keys. split; [exact Hk|]. split.
    + intros Hm. unfold conv_handler, select. cbn [command text]. rewrite Hc.
      unfold conv_inv in Hinv. rewrite Hc in Hinv. destruct Hinv as [_ Hinv].
      destruct (states s) as [h|] eqn:Hh; [|destruct s; discriminate].
      rewrite (unknown_handler s h t (chat_of cv) keys Hh Hs Hinv Ht Hk Hm).
      reflexivity.
    + intros Hm. unfold conv_handler, select. cbn [command text]. rewrite Hc.
      unfold conv_inv in Hinv. rewrite Hc in Hinv. destruct Hinv as [_ Hinv].
      destruct (states s) as [h|] eqn:Hh; [|destruct s; discriminate].
      destruct (known_handler s h t (chat_of cv) keys Hh Hs Hinv Ht Hk Hm)
        as (r & c' & E & s' & -> & Hmv).
      rewrite E. exists s'. cbn [fst snd current].
      destruct s, s'; try discriminate; auto.
  - intros B cv s t1 t2. apply same_lower.
  - vm_compute. repeat split; reflexivity.
Qed.

Lemma unknown_enum_value_ends_conversation_witness :
  let cv := run idle [start_command; say "Сталь"] in
  conv_handler cv (say "Шлифование")
  = (mk_conversation None
       (after (chat_of cv) (with_answer OPERATION "шлифование")
              [mk_reply (not_found OPERATION) None]), None).
Proof.
  intros cv.
  destruct (proj1 unknown_enum_value_ends_conversation reference_builtins cv
              OPERATION "Шлифование") as (keys & Hk & Hu & _).
  - apply reachable_run. constructor.
  - vm_compute. reflexivity.
  - reflexivity.
  - intros H. vm_compute in H. discriminate H.
  - apply Hu. vm_compute in Hk. injection Hk as <-. vm_compute. reflexivity.
Defined.

(** C8. On the two turning paths the lookup reads the dimension dict of the
    path at the stored radius (profiling) or width (grooving), by equality of
    floats with one of its keys, 0.4, 0.8, 1.2 or 2.0, 3.0, 4.0.  At the
    radius and width prompts of a reachable conversation a value that equals
    no key ends the conversation with the "no parameters" message, and no
    input makes the handler raise. *)
Theorem turning_lookup_is_exact :
  (forall (B : Builtins) (c : chat) (m : string) (ops : operations) (t : string),
      ud_material (data c) = Some m ->
      dict_get String.eqb cutting_parameters m = Some ops ->
      ud_operation (data c) = Some "точение" ->
      ud_tool_type (data c) = Some t ->
      t = "проходной" \/ t = "канавочный" ->
      exists d,
        subscript4 m "точение" t
          (if t =? "проходной" then "радиус_пластины" else "ширина_пластины")
        = Ret (ByDimension d)
        /\ dict_keys d = (if t =? "проходной" then radii else widths)
        /\ get_cutting_parameters c
           = (Ret match (if t =? "проходной" then ud_radius (data c)
                         else ud_groove_width (data c)) with
                  | Some x => option_map Entry (dict_get PrimFloat.eqb d x)
                  | None => None
                  end, c))
  /\ (forall (d : dict float entry) (x : float),
        (is_key x (dict_keys d) = false -> dict_get PrimFloat.eqb d x = None)
        /\ (is_key x (dict_keys d) = true ->
            exists e, dict_get PrimFloat.eqb d x = Some e))
  /\ (forall (B : Builtins) (cv : conversation) (s : state) (t : string) (x : float),
        reachable cv -> current cv = Some s -> dimension_state s = true ->
        float_of_str (replace_comma t) = Some x ->
        is_key x (dimension_keys_of s) = false ->
        conv_handler cv (mk_message t None)
        = (mk_conversation None
             (after (chat_of cv) (with_dimension s x)
                    [mk_reply no_parameters None]), None))
  /\ (forall (B : Builtins) (cv : conversation) (s : state) (t : string),
        reachable cv -> current cv = Some s -> dimension_state s = true ->
        snd (conv_handler cv (mk_message t None)) = None
        /\ (float_of_str (replace_comma t) <> None ->
            current (fst (conv_handler cv (mk_message t None))) = None)).
Proof.
  split; [|split; [|split]].
  - intros B c m ops t. apply turning_lookup.
  - intros d x. split; [apply dict_get_is_key|apply dict_get_not_key].
  - intros B cv s t x Hr. apply dimension_not_found, reachable_inv, Hr.
  - intros B cv s t Hr. apply dimension_no_crash, reachable_inv, Hr.
Qed.

Lemma turning_lookup_is_exact_witness :
  let cv := run idle profiling_answers in
  conv_handler cv (say "0,9")
  = (mk_conversation None
       (after (chat_of cv) (with_radius 0.9)
              [mk_reply no_parameters None]), None).
Proof.
  intros cv.
  apply (proj1 (proj2 (proj2 turning_lookup_is_exact)) reference_builtins cv
           RADIUS "0,9" 0.9%float).
  - apply reachable_run. constructor.
  - vm_compute. reflexivity.
  - reflexivity.
  - vm_compute. reflexivity.
  - vm_compute. reflexivity.
Defined.

(** C5, the claim as stated fails: for steel, a solid carbide drill and the
    diameter 10 the message shows the feed rate 405.8, the product of the
    feed 0.15 and the spindle speed before it is rounded to 2706, and not
    405.9. *)
Lemma drilling_feed_rate_shown :
  let cv := run idle (drilling_answers ++ [say "10"]) in
  occurs "Минутная подача: 405.8 мм/мин" (last_body cv) = true
  /\ occurs "405.9" (last_body cv) = false
  /\ format_f 1 (0.15000000000000002 * (1000 * 85 / (math_pi * 10)))%float
     = "405.8".
Proof. vm_compute. repeat split; reflexivity. Qed.

(** C5, amended.  At the diameter prompt of a reachable conversation about
    drilling, a diameter [d] that is not zero ends the conversation with one
    reply and no depth-of-cut prompt: the "no
    parameters" message when the lookup finds nothing, and otherwise the
    result formatted from the means of the entry's speed and feed ranges, the
    spindle speed [1000 * speed / (math.pi * d)] and the feed rate
    [feed * n], with no depth passed.  For steel, a solid carbide drill and
    the diameter 10 the message shows the speed 85.0, the feed 0.15, 2706 rpm
    and the feed rate 405.8, and no depth of cut. *)
Theorem drilling_diameter_is_terminal :
  (forall (B : Builtins) (cv : conversation) (t : string) (d : float),
      reachable cv -> current cv = Some DIAMETER ->
      ud_operation (data (chat_of cv)) = Some "сверление" ->
      float_of_str (replace_comma t) = Some d ->
      (d =? 0)%float = false ->
      let c1 := mk_chat (with_diameter d (data (chat_of cv))) (sent (chat_of cv)) in
      exists rep,
        conv_handler cv (mk_message t None)
        = (mk_conversation None (after (chat_of cv) (with_diameter d) [rep]), None)
        /\ ((get_cutting_parameters c1 = (Ret None, c1)
             /\ rep = mk_reply no_parameters None)
            \/ exists e sp fd body,
                 get_cutting_parameters c1 = (Ret (Some (Entry e)), c1)
                 /\ mean_int (speed e) = Ret sp
                 /\ mean_float (feed e) = Ret fd
                 /\ format_result sp fd None
                      (Some (1000 * sp / (math_pi * d))%float)
                      (Some (fd * (1000 * sp / (math_pi * d)))%float)
                      None None c1 = (Ret body, c1)
                 /\ rep = mk_reply body (Some start_keyboard)))
  /\ (let cv := run idle (drilling_answers ++ [say "10"]) in
      current (run idle drilling_answers) = Some DIAMETER
      /\ current cv = None
      /\ last_body cv = drilling_message
      /\ occurs "Глубина резания" (last_body cv) = false
      /\ mean_int (70, 100)%Z = Ret 85%float
      /\ mean_float (0.1, 0.2)%float = Ret 0.15000000000000002%float
      /\ format_f 2 0.15000000000000002 = "0.15"
      /\ format_f 0 (1000 * 85 / (math_pi * 10))%float = "2706").
Proof.
  split.
  - intros B cv t d Hr. apply drilling_terminal, reachable_inv, Hr.
  - vm_compute. repeat split; reflexivity.
Qed.

Lemma drilling_diameter_is_terminal_witness :
  let cv := run idle drilling_answers in
  exists rep,
    conv_handler cv (say "12,5")
    = (mk_conversation None (after (chat_of cv) (with_diameter 12.5) [rep]), None).
Proof.
  intros cv.
  destruct (proj1 drilling_diameter_is_terminal reference_builtins cv "12,5"
              12.5%float) as (rep & E & _).
  - apply reachable_run. constructor.
  - vm_compute. reflexivity.
  - vm_compute. reflexivity.
  - vm_compute. reflexivity.
  - vm_compute. reflexivity.
  - exists rep. exact E.
Defined.

(** The diameter 0 is read as a number and stored; the division by
    [math.pi * 0] then raises [ZeroDivisionError], which no [except] clause of
    the handler catches: nothing is sent and the state stays [DIAMETER]. *)
Lemma drilling_zero_diameter_raises :
  let cv := run idle drilling_answers in
  conv_handler cv (say "0")
  = (mk_conversation (Some DIAMETER) (after (chat_of cv) (with_diameter 0) []),
     Some ZeroDivisionError).
Proof. vm_compute. reflexivity. Qed.

(** C3, the claim as stated fails: for the diameter 10 and the depth 12 of a
    ball-nose cutter nothing is checked before the square root.  The cutting
    width is computed, the square root of -24 raises [ValueError], and the
    handler answers as it does to a text that is not a number: same reply,
    same state. *)
Lemma depth_beyond_diameter_reaches_sqrt :
  let cv := run idle ball_nose_answers in
  (12 * (10 - 12) <? 0)%float = true
  /\ math_sqrt (12 * (10 - 12)) = Raise ValueError
  /\ calculate_cutting_width 10 12 "сферическая" = Raise ValueError
  /\ conv_handler cv (say "12")
     = (mk_conversation (Some DEPTH_OF_CUT)
          (after (chat_of cv) (with_depth_of_cut 12)
                 [mk_reply depth_of_cut_retry None]), None)
  /\ sent (chat_of (fst (conv_handler cv (say "12"))))
     = sent (chat_of (fst (conv_handler cv (say "abc"))))
  /\ current (fst (conv_handler cv (say "12")))
     = current (fst (conv_handler cv (say "abc"))).
Proof. vm_compute. repeat split; reflexivity. Qed.

(** C3, amended.  At the depth prompt of a reachable conversation about a
    solid ball-nose cutter of non-zero diameter [D], a depth [a] whose
    product [a * (D - a)] is negative (as for [D = 10], [a = 12]) is stored,
    the square root raises [ValueError], the handler's own [except] clause
    catches it, the retry message of the prompt is sent and the state stays
    [DEPTH_OF_CUT]: no result is sent and no exception leaves the handler. *)
Theorem depth_beyond_diameter_reprompts :
  (forall (B : Builtins) (cv : conversation) (t : string) (a D : float),
      reachable cv -> current cv = Some DEPTH_OF_CUT ->
      ud_tool_type (data (chat_of cv)) = Some "монолитная" ->
      ud_tool_subtype (data (chat_of cv)) = Some "сферическая" ->
      ud_diameter (data (chat_of cv)) = Some D ->
      float_truthy D = true ->
      float_of_str (replace_comma t) = Some a ->
      (a * (D - a) <? 0)%float = true ->
      conv_handler cv (mk_message t None)
      = (mk_conversation (Some DEPTH_OF_CUT)
           (after (chat_of cv) (with_depth_of_cut a)
                  [mk_reply depth_of_cut_retry None]), None))
  /\ (forall x : float, (x <? 0)%float = true -> math_sqrt x = Raise ValueError)
  /\ (let cv := run idle ball_nose_answers in
      ud_diameter (data (chat_of cv)) = Some 10%float
      /\ conv_handler cv (say "12")
         = (mk_conversation (Some DEPTH_OF_CUT)
              (after (chat_of cv) (with_depth_of_cut 12)
                     [mk_reply depth_of_cut_retry None]), None)).
Proof.
  split; [|split].
  - intros B cv t a D Hr. apply ball_nose_out_of_domain, reachable_inv, Hr.
  - apply math_sqrt_negative.
  - vm_compute. split; reflexivity.
Qed.

Lemma depth_beyond_diameter_reprompts_witness :
  let cv := run idle ball_nose_answers in
  conv_handler cv (say "10,5")
  = (mk_conversation (Some DEPTH_OF_CUT)
       (after (chat_of cv) (with_depth_of_cut 10.5)
              [mk_reply depth_of_cut_retry None]), None).
Proof.
  intros cv.
  apply (proj1 depth_beyond_diameter_reprompts reference_builtins cv "10,5"
           10.5%float 10%float).
  - apply reachable_run. constructor.
  - vm_compute. reflexivity.
  - vm_compute. reflexivity.
  - vm_compute. reflexivity.
  - vm_compute. reflexivity.
  - vm_compute. reflexivity.
  - vm_compute. reflexivity.
  - vm_compute. reflexivity.
Defined.

(** C10. [get_cutting_parameters] returns for every content of [user_data]:
    it never raises and leaves the chat as it was, and what it returns is
    [None] or an entry of the catalog.  It returns [None] when the material,
    the operation or the tool type is missing, and when the tool type is not
    one of those its branch for the operation tests (none, for an operation
    it does not know). *)
Theorem get_cutting_parameters_total :
  forall (B : Builtins) (c : chat),
    (exists r,
       get_cutting_parameters c = (Ret r, c)
       /\ (r = None \/ exists e, r = Some (Entry e) /\ In e catalog_entries))
    /\ (ud_material (data c) = None \/ ud_operation (data c) = None
        \/ ud_tool_type (data c) = None ->
        get_cutting_parameters c = (Ret None, c))
    /\ (forall o t,
          ud_operation (data c) = Some o ->
          ud_tool_type (data c) = Some t ->
          mem t (tool_types_of o) = false ->
          get_cutting_parameters c = (Ret None, c)).
Proof.
  intros B c. split; [|split].
  - destruct (gcp_run c) as (r & Hr & Hl). exists r. split; [exact Hr|].
    destruct r as [l|]; [right|now left].
    destruct (Hl l eq_refl) as (e & -> & He). eauto.
  - apply gcp_missing.
  - apply gcp_no_branch.
Qed.

Lemma get_cutting_parameters_total_witness :
  let c := mk_chat (mk_user_data (Some "сталь") (Some "шлифование")
                      (Some "круг") None None None None None None) [] in
  get_cutting_parameters c = (Ret None, c).
Proof.
  intros c.
  apply (proj2 (proj2 (get_cutting_parameters_total reference_builtins c))
           "шлифование" "круг"); reflexivity.
Defined.

(** C9. Every entry at the end of a complete path of the catalog (material,
    operation, tool type, then a subtype, or a dimension dict and one of its
    keys) has [min <= max] in its speed range, in its feed range and, when it
    has one, in its depth range; so has every entry the lookup returns. *)
Theorem catalog_ranges_ordered :
  (forall m ops o tts t ts k l e,
      dict_get String.eqb cutting_parameters m = Some ops ->
      dict_get String.eqb ops o = Some tts ->
      dict_get String.eqb tts t = Some ts ->
      dict_get String.eqb ts k = Some l ->
      In e (leaf_entries l) ->
      ordered e)
  /\ (forall (B : Builtins) (c c' : chat) (e : entry),
        get_cutting_parameters c = (Ret (Some (Entry e)), c') -> ordered e)
  /\ List.length catalog_entries = 28.
Proof.
  pose proof catalog_ranges as R. rewrite forallb_forall in R.
  split; [|split].
  - intros. apply range_ok_ordered, R. eapply catalog_entries_intro; eauto.
  - intros B c c' e H. destruct (gcp_run c) as (r & Hr & Hl).
    rewrite Hr in H. injection H as -> _.
    destruct (Hl _ eq_refl) as (e' & [= ->] & He). now apply range_ok_ordered, R.
  - reflexivity.
Qed.

Lemma catalog_ranges_ordered_witness :
  ordered (full 90 120 0.2 0.4 1 5) /\ ordered (no_depth 40 60 0.05 0.15).
Proof.
  split.
  - apply (proj1 catalog_ranges_ordered "сталь" _ "точение" _ "проходной" _
             "радиус_пластины" _ _ eq_refl eq_refl eq_refl eq_refl).
    vm_compute. auto.
  - apply (proj1 catalog_ranges_ordered "сталь" _ "точение" _ "канавочный" _
             "ширина_пластины" _ _ eq_refl eq_refl eq_refl eq_refl).
    vm_compute. auto.
Defined.

(** * Further properties *)

(** ** What every handler leaves behind *)

Section Outcome.
Context {B : Builtins}.

Lemma calculate_cutting_width_raises D a t e :
  calculate_cutting_width D a t = Raise e -> e = ValueError.
Proof.
  unfold calculate_cutting_width, math_sqrt.
  destruct (t =? "цилиндрическая"); [discriminate|].
  destruct (t =? "сферическая"); [|discriminate].
  destruct (_ && _); [|discriminate]. now intros [= <-].
Qed.

Lemma truthy_pi d v :
  float_truthy d = true ->
  exists n, float_truediv v (math_pi * d) = Ret n.
Proof.
  unfold float_truthy, float_truediv. intros H. apply negb_true_iff in H.
  rewrite (pi_mul_not_zero d H). eauto.
Qed.

Ltac keyboard :=
  let HS := fresh "HS" in
  let HE := fresh "HE" in
  intros HS HE;
  first
    [ discriminate HS
    | congruence
    | eexists; split; [reflexivity|];
      cbn [reply_markup choices options_at option_map data
           ud_material ud_operation ud_tool_type];
      repeat match goal with
             | H : ?x = Some _ |- context [?x] => rewrite H
             | H : ?x = Ret _ |- context [?x] => rewrite H
             end;
      reflexivity ].

Ltac replied :=
  cbn [outcome]; proj;
  do 2 eexists; split; [reflexivity|];
  split; [try reflexivity; match goal with S : state |- _ => destruct S end;
          reflexivity|];
  split; [rewrite <- ?app_assoc; reflexivity|];
  split; [cbn; discriminate|keyboard].

Ltac entry_means :=
  match goal with
  | Hl : forall l, Some ?p = Some l -> listed l |- _ =>
      let e := fresh "e" in
      let Hs := fresh "Hs" in
      let Hf := fresh "Hf" in
      let Hd := fresh "Hd" in
      destruct (listed_means p (Hl p eq_refl))
        as (e & -> & (? & Hs) & (? & Hf) & Hd);
      cbn [params_truthy negb params_speed params_feed params_depth]
  end.

Ltac parse_absurd :=
  match goal with
  | H : match ?x with Some _ => Ret _ | None => Raise ValueError end = Raise _
    |- _ => destruct x; discriminate H
  end.

Lemma start_outcome S t c : wp start (outcome S t c) c.
Proof. unfold start. wp_go. replied. Qed.

Lemma material_outcome t c : wp (material t) (outcome MATERIAL t c) c.
Proof.
  unfold material, set_material.
  destruct (str_lower t =? "/start"); [apply start_outcome|].
  wp_go; known; try replied.
  apply contains_getitem in Heqb as (? & ?). congruence.
Qed.

Lemma cancel_outcome S t c : wp cancel (outcome S t c) c.
Proof. unfold cancel. wp_go. replied. Qed.

Lemma operation_outcome t c :
  state_inv OPERATION (data c) -> wp (operation t) (outcome OPERATION t c) c.
Proof.
  intros (m & ops & Em & Eo).
  unfold operation, set_operation.
  destruct (str_lower t =? "/start"); [apply start_outcome|].
  wp_go; known; try replied; try congruence.
  apply contains_getitem in Heqb as (? & ?). congruence.
Qed.

Lemma tool_subtype_outcome t c :
  state_inv TOOL_SUBTYPE (data c) ->
  wp (tool_subtype t) (outcome TOOL_SUBTYPE t c) c.
Proof.
  intros (P & Ho).
  unfold tool_subtype, set_tool_subtype.
  destruct (str_lower t =? "/start"); [apply start_outcome|].
  wp_go; known; try replied.
  destruct Ho as [Ho|[Ho _]]; congruence.
Qed.

Lemma number_of_teeth_outcome t c :
  wp (number_of_teeth t) (outcome NUMBER_OF_TEETH t c) c.
Proof.
  unfold number_of_teeth, py_int, set_number_of_teeth.
  wp_go; try replied; parse_absurd.
Qed.

Lemma radius_outcome t c :
  state_inv RADIUS (data c) -> wp (radius t) (outcome RADIUS t c) c.
Proof.
  intros (P & Ho & Et). destruct (path3_material _ P) as (m & ops & Em & Hm).
  unfold radius, py_float, set_radius.
  destruct (float_of_str (replace_comma t)) as [x|]; [|wp_go; replied].
  apply wp_try, wp_bind, wp_lift. cbn beta iota.
  apply wp_bind, wp_update. cbn beta iota.
  apply wp_bind, wp_gcp. intros [p|] Hl; cbn beta iota.
  - entry_means. wp_go; known; try congruence; try replied.
    all: destruct (Hd _ eq_refl) as (? & ?); congruence.
  - wp_go. replied.
Qed.

Lemma groove_width_outcome t c :
  state_inv GROOVE_WIDTH (data c) ->
  wp (groove_width t) (outcome GROOVE_WIDTH t c) c.
Proof.
  intros (P & Ho & Et). destruct (path3_material _ P) as (m & ops & Em & Hm).
  unfold groove_width, py_float, set_groove_width.
  destruct (float_of_str (replace_comma t)) as [x|]; [|wp_go; replied].
  apply wp_try, wp_bind, wp_lift. cbn beta iota.
  apply wp_bind, wp_update. cbn beta iota.
  apply wp_bind, wp_gcp. intros [p|] Hl; cbn beta iota.
  - entry_means. wp_go; known; try congruence; try replied.
  - wp_go. replied.
Qed.

Lemma tool_type_outcome t c :
  state_inv TOOL_TYPE (data c) -> wp (tool_type t) (outcome TOOL_TYPE t c) c.
Proof.
  intros (m & ops & o & tts & Em & Eo & Et & Ett).
  unfold tool_type, set_tool_type.
  destruct (str_lower t =? "/start"); [apply start_outcome|].
  destruct (dict_contains String.eqb tts (str_lower t)) eqn:Hm.
  - destruct (contains_getitem _ _ Hm) as (ts & Hts).
    pose proof (tool_type_listed _ _ _ _ _ _ Eo Ett Hts) as L.
    apply mem_cases in L.
    destruct (material_cases _ _ Eo) as [-> | ->];
      destruct (operation_cases _ _ _ _ Eo Ett) as [-> | [-> | ->]];
      cbn in L; destruct L as [L | [L | []]]; rewrite <- L in *;
      clear Hts Hm; clear Eo Ett;
      wp_go; known; looked_up; try congruence; try absurd_hyp; replied.
  - wp_go; known; try congruence; replied.
Qed.

Lemma diameter_outcome t c :
  state_inv DIAMETER (data c) -> wp (diameter t) (outcome DIAMETER t c) c.
Proof.
  intros (P & Ho).
  unfold diameter, py_float, set_diameter.
  destruct (float_of_str (replace_comma t)) as [d|] eqn:Hd; [|wp_go; replied].
  apply wp_try, wp_bind, wp_lift. cbn beta iota.
  apply wp_bind, wp_update. cbn beta iota.
  apply wp_bind, wp_getitem. proj.
  destruct (ud_operation (data c)) as [o|] eqn:Eo;
    [|destruct Ho as [[Ho _]|[Ho _]]; discriminate].
  cbn beta iota.
  destruct (String.eqb_spec o "фрезерование") as [->|N1]; [wp_go; replied|].
  destruct (String.eqb_spec o "сверление") as [->|N2];
    [|exfalso; destruct Ho as [[Ho _]|[Ho _]]; congruence].
  apply wp_bind, wp_gcp. intros [p|] Hl; cbn beta iota; [|wp_go; replied].
  entry_means. wp_go; known; try congruence; try replied.
  all: match goal with
       | H : float_truediv _ _ = Raise _ |- _ =>
           unfold float_truediv in H;
           destruct (math_pi * d =? 0)%float eqn:Z0; try discriminate H
       end.
  cbn [outcome]. proj. split; [reflexivity|]. split; [|reflexivity].
  split; [reflexivity|]. split; [exact Eo|]. exists d. split; [exact Hd|].
  destruct (d =? 0)%float eqn:Z; [reflexivity|].
  rewrite (pi_mul_not_zero d Z) in Z0. discriminate.
Qed.

Ltac no_raise :=
  match goal with
  | H : calculate_cutting_width _ _ _ = Raise _ |- _ =>
      apply calculate_cutting_width_raises in H; discriminate H
  | H : float_truediv ?v (math_pi * ?d) = Raise _,
    T : float_truthy ?d = true |- _ =>
      let n := fresh "n" in
      let Hn := fresh "Hn" in
      destruct (truthy_pi d v T) as (n & Hn); rewrite Hn in H; discriminate H
  | Hd : forall r, ?x = Some r -> exists v, mean_int r = Ret v,
    H : mean_int ?r = Raise _ |- _ =>
      let v := fresh "v" in
      let Hv := fresh "Hv" in
      destruct (Hd r eq_refl) as (v & Hv); rewrite Hv in H; discriminate H
  end.

Lemma depth_of_cut_outcome t c :
  wp (depth_of_cut t) (outcome DEPTH_OF_CUT t c) c.
Proof.
  unfold depth_of_cut, py_float, set_depth_of_cut.
  destruct (float_of_str (replace_comma t)) as [a|]; [|wp_go; replied].
  apply wp_try, wp_bind, wp_lift. cbn beta iota.
  apply wp_bind, wp_update. cbn beta iota.
  apply wp_bind, wp_gcp. intros [p|] Hl; cbn beta iota; [|wp_go; replied].
  entry_means. wp_go; known; try congruence; try replied; no_raise.
Qed.

Lemma handler_outcome s h t c :
  states s = Some h -> state_inv s (data c) -> wp (h t) (outcome s t c) c.
Proof.
  destruct s; cbn [states]; intros [= <-] Hinv.
  - apply material_outcome.
  - now apply operation_outcome.
  - now apply tool_type_outcome.
  - now apply tool_subtype_outcome.
  - now apply diameter_outcome.
  - apply number_of_teeth_outcome.
  - apply depth_of_cut_outcome.
  - now apply radius_outcome.
  - now apply groove_width_outcome.
Qed.

End Outcome.

Section Dispatch.
Context {B : Builtins}.

(** What [conv_handler] does with a message of a conversation that keeps the
    invariant: the outcome of the handler it selects. *)
Lemma selected_outcome cv msg h :
  conv_inv cv -> select (current cv) msg = Some h ->
  (exists s, current cv = Some s /\ command msg = None
             /\ wp h (outcome s (text msg) (chat_of cv)) (chat_of cv))
  \/ (command msg <> None
      /\ wp h (outcome END "" (chat_of cv)) (chat_of cv)).
Proof.
  unfold conv_inv, select. intros Hinv Hs.
  destruct (current cv) as [s|] eqn:Hc.
  - destruct Hinv as [_ Hinv].
    destruct (command msg) as [cmd|] eqn:Hm.
    + right. split; [discriminate|]. unfold fallbacks in Hs.
      destruct (cmd =? "cancel"); [injection Hs as <-; apply cancel_outcome|].
      destruct (cmd =? "start"); [injection Hs as <-; apply start_outcome|].
      discriminate.
    + left. exists s. split; [reflexivity|]. split; [reflexivity|].
      destruct (states s) as [h'|] eqn:Hh; [|discriminate].
      injection Hs as <-. now apply handler_outcome.
  - destruct (command msg) as [cmd|] eqn:Hm; [|discriminate].
    right. split; [discriminate|]. unfold entry_points in Hs.
    destruct (cmd =? "start"); [injection Hs as <-; apply start_outcome|].
    discriminate.
Qed.

End Dispatch.

(** X1. In a reachable conversation an exception leaves a handler in one
    situation only: the state is [DIAMETER], the operation stored is
    drilling, the message is a text (not a command) and it reads as a float
    equal to zero.  The exception is [ZeroDivisionError], the state stays
    [DIAMETER] and nothing is sent.  No [KeyError], [ValueError] or
    [OverflowError] ever leaves a handler. *)
Theorem only_a_zero_drill_diameter_raises :
  forall (B : Builtins) (cv : conversation) (msg : message) (e : exn),
    reachable cv ->
    snd (conv_handler cv msg) = Some e ->
    e = ZeroDivisionError
    /\ current cv = Some DIAMETER
    /\ ud_operation (data (chat_of cv)) = Some "сверление"
    /\ command msg = None
    /\ (exists d, float_of_str (replace_comma (text msg)) = Some d
                  /\ (d =? 0)%float = true)
    /\ current (fst (conv_handler cv msg)) = Some DIAMETER
    /\ sent (chat_of (fst (conv_handler cv msg))) = sent (chat_of cv).
Proof.
  intros B cv msg e Hr. pose proof (reachable_inv cv Hr) as Hinv.
  unfold conv_handler.
  destruct (select (current cv) msg) as [h|] eqn:Hs; [|discriminate].
  destruct (selected_outcome cv msg h Hinv Hs)
    as [(s & Hc & Hm & W)|(_ & W)];
    unfold wp in W; destruct (h (chat_of cv)) as [[r|e'] c']; cbn [fst snd] in *;
    try discriminate; intros [= <-]; destruct W as (-> & (Hz & Ho & Hd) & Hsent);
    try discriminate.
  subst s. rewrite Hc. auto 10.
Qed.

Lemma only_a_zero_drill_diameter_raises_witness :
  let cv := run idle drilling_answers in
  current cv = Some DIAMETER
  /\ exists d, float_of_str (replace_comma "0") = Some d /\ (d =? 0)%float = true.
Proof.
  intros cv.
  destruct (only_a_zero_drill_diameter_raises reference_builtins cv (say "0")
              ZeroDivisionError) as (_ & Hc & _ & _ & Hd & _).
  - apply reachable_run. constructor.
  - vm_compute. reflexivity.
  - split; [exact Hc|exact Hd].
Defined.

(** X2. In a running reachable conversation every text message and every
    [/start] or [/cancel] command that a handler takes without raising is
    answered: the replies sent before are kept and at least one reply is
    added. *)
Theorem every_answer_gets_a_reply :
  forall (B : Builtins) (cv : conversation) (msg : message) (s : state),
    reachable cv ->
    current cv = Some s ->
    command msg = None \/ command msg = Some "start"
    \/ command msg = Some "cancel" ->
    snd (conv_handler cv msg) = None ->
    exists rs,
      rs <> []
      /\ sent (chat_of (fst (conv_handler cv msg)))
         = (sent (chat_of cv) ++ rs)%list.
Proof.
  intros B cv msg s Hr Hc Hm. pose proof (reachable_inv cv Hr) as Hinv.
  assert (Hs : exists h, select (current cv) msg = Some h).
  { unfold select. rewrite Hc.
    destruct Hm as [-> | [-> | ->]]; [|eexists; reflexivity..].
    unfold conv_inv in Hinv. rewrite Hc in Hinv. destruct Hinv as [Hn _].
    destruct s; cbn [states]; try (eexists; reflexivity). congruence. }
  destruct Hs as (h & Hs). unfold conv_handler. rewrite Hs.
  destruct (selected_outcome cv msg h Hinv Hs)
    as [(s0 & _ & _ & W)|(_ & W)];
    unfold wp in W; destruct (h (chat_of cv)) as [[r|e'] c']; cbn [fst snd] in *;
    try discriminate; intros _;
    destruct W as (s1 & rs & _ & _ & E & N & _); exists rs; auto.
Qed.

Lemma every_answer_gets_a_reply_witness :
  let cv := run idle ball_nose_answers in
  exists rs,
    rs <> []
    /\ sent (chat_of (fst (conv_handler cv (say "2,5"))))
       = (sent (chat_of cv) ++ rs)%list.
Proof.
  intros cv.
  apply (every_answer_gets_a_reply reference_builtins cv (say "2,5") DEPTH_OF_CUT).
  - apply reachable_run. constructor.
  - vm_compute. reflexivity.
  - left. reflexivity.
  - vm_compute. reflexivity.
Defined.

(** X3. When a text answered at the material, operation, tool-type or
    subtype prompt of a reachable conversation leads to a next prompt, exactly
    one reply is sent, and its keyboard lists the keys of the catalog at the
    path now stored (for a radius, written with [str]), in the order of the
    catalog, followed by [/start]; the prompts for a width and a diameter
    have no keyboard.  The materials that [start] lists by hand are the keys
    of the catalog.  With the reference built-ins the radius keyboard reads
    0.4, 0.8, 1.2. *)
Theorem keyboards_offer_the_catalog_keys :
  (forall (B : Builtins) (cv : conversation) (msg : message) (s s' : state),
      reachable cv -> current cv = Some s -> enum_state s = true ->
      command msg = None ->
      current (fst (conv_handler cv msg)) = Some s' ->
      exists rep,
        sent (chat_of (fst (conv_handler cv msg)))
        = (sent (chat_of cv) ++ [rep])%list
        /\ reply_markup rep
           = option_map keyboard_of
               (choices s' (data (chat_of (fst (conv_handler cv msg))))))
  /\ (forall (B : Builtins) (cv : conversation),
        reply_markup greeting
        = option_map keyboard_of
            (choices MATERIAL (data (chat_of (restarted cv)))))
  /\ choices RADIUS (data (chat_of (run idle profiling_answers)))
     = Some ["0.4"; "0.8"; "1.2"].
Proof.
  split; [|split].
  - intros B cv msg s s' Hr Hc Hs Hm.
    pose proof (reachable_inv cv Hr) as Hinv.
    unfold conv_inv in Hinv. rewrite Hc in Hinv. destruct Hinv as [_ Hinv].
    unfold conv_handler, select. rewrite Hc, Hm.
    destruct (states s) as [h|] eqn:Hh; [|destruct s; discriminate].
    pose proof (handler_outcome s h (text msg) (chat_of cv) Hh Hinv) as W.
    unfold wp in W.
    destruct (h (text msg) (chat_of cv)) as [[r|e] c']; cbn [fst snd] in *.
    + destruct W as (s1 & rs & -> & _ & E & _ & K). cbn [current chat_of].
      intros Hs'. assert (s1 = s' /\ s1 <> END) as [-> Hne].
      { destruct s1; cbn in Hs'; try discriminate;
          (split; [congruence|discriminate]). }
      destruct (K Hs Hne) as (rep & -> & Hk). exists rep. auto.
    + destruct W as (_ & (-> & _) & _). discriminate.
  - reflexivity.
  - vm_compute. reflexivity.
Qed.

Lemma keyboards_offer_the_catalog_keys_witness :
  let cv := run idle [start_command; say "сталь"; say "точение"] in
  exists rep,
    sent (chat_of (fst (conv_handler cv (say "Проходной"))))
    = (sent (chat_of cv) ++ [rep])%list
    /\ reply_markup rep
       = option_map keyboard_of
           (choices RADIUS
              (data (chat_of (fst (conv_handler cv (say "Проходной")))))).
Proof.
  intros cv.
  apply (proj1 keyboards_offer_the_catalog_keys reference_builtins cv
           (say "Проходной") TOOL_TYPE RADIUS).
  - apply reachable_run. constructor.
  - vm_compute. reflexivity.
  - reflexivity.
  - reflexivity.
  - vm_compute. reflexivity.
Defined.

(** X4. A message leaves a running reachable conversation in its state or
    makes one of the moves of [transition]: to the material prompt (restart),
    to the same numeric prompt (retry), or one step further along the path
    material, operation, tool type, then subtype, radius, width or diameter,
    then number of teeth, then depth of cut.  In particular the diameter
    prompt never leads to the depth prompt directly, and no prompt leads back
    other than to the first. *)
Theorem conversation_only_moves_forward :
  (forall (B : Builtins) (cv : conversation) (msg : message) (s s' : state),
      reachable cv -> current cv = Some s ->
      current (fst (conv_handler cv msg)) = Some s' ->
      s' = s \/ transition s s' = true)
  /\ (forall s s' : state,
        transition s s' = true ->
        s' = s \/ s' = MATERIAL \/ (rank s < rank s')%nat).
Proof.
  split.
  - intros B cv msg s s' Hr Hc. pose proof (reachable_inv cv Hr) as Hinv.
    unfold conv_handler.
    destruct (select (current cv) msg) as [h|] eqn:Hs;
      [|cbn [fst]; rewrite Hc; intros [= <-]; now left].
    destruct (selected_outcome cv msg h Hinv Hs)
      as [(s0 & Hc0 & Hm & W)|(_ & W)];
      unfold wp in W; destruct (h (chat_of cv)) as [[r|e'] c'];
      cbn [fst snd current] in *;
      try (rewrite Hc; intros [= <-]; now left).
    + destruct W as (s1 & rs & -> & T & _). rewrite Hc in *.
      injection Hc0 as <-. intros Hs'. right.
      destruct s1; cbn in Hs'; try discriminate; injection Hs' as <-; exact T.
    + destruct W as (s1 & rs & -> & T & _). rewrite Hc in *.
      intros Hs'. right.
      destruct s1; cbn in Hs'; try discriminate; injection Hs' as <-;
        try discriminate; destruct s; reflexivity.
  - intros s s'. destruct s, s'; cbn; intros H; try discriminate; auto;
      right; right; lia.
Qed.

Lemma conversation_only_moves_forward_witness :
  let cv := run idle [start_command; say "сталь"; say "сверление"] in
  current (fst (conv_handler cv (say "со_сменными_пластинами"))) = Some DIAMETER
  /\ (DIAMETER = TOOL_TYPE \/ transition TOOL_TYPE DIAMETER = true).
Proof.
  intros cv. split; [vm_compute; reflexivity|].
  apply (proj1 conversation_only_moves_forward reference_builtins cv
           (say "со_сменными_пластинами")).
  - apply reachable_run. constructor.
  - vm_compute. reflexivity.
  - vm_compute. reflexivity.
Defined.

(** ** A drill of diameter zero *)

Lemma pi_mul_zero d :
  (d =? 0)%float = true -> (math_pi * d =? 0)%float = true.
Proof.
  rewrite !eqb_spec, mul_spec.
  change (Prim2SF 0) with (S754_zero false).
  change (Prim2SF math_pi) with (S754_finite false 7074237752028440 (-51)).
  destruct (Prim2SF d) as [s|s| |s m e]; cbn; try discriminate;
    try (destruct s; discriminate || reflexivity).
Qed.

Section Drilling.
Context {B : Builtins}.

Lemma indexable_drill_lookup c m ops :
  ud_material (data c) = Some m ->
  dict_get String.eqb cutting_parameters m = Some ops ->
  ud_operation (data c) = Some "сверление" ->
  ud_tool_type (data c) = Some "со_сменными_пластинами" ->
  exists e, get_cutting_parameters c = (Ret (Some (Entry e)), c).
Proof.
  intros Em Hm Eo Et.
  unfold get_cutting_parameters. monad. rewrite Em, Eo, Et.
  destruct (material_cases _ _ Hm) as [-> | ->]; eexists; reflexivity.
Qed.

Lemma zero_diameter_drilling cv t d :
  conv_inv cv -> current cv = Some DIAMETER ->
  ud_operation (data (chat_of cv)) = Some "сверление" ->
  float_of_str (replace_comma t) = Some d ->
  (d =? 0)%float = true ->
  let c1 := mk_chat (with_diameter d (data (chat_of cv))) (sent (chat_of cv)) in
  (forall p, get_cutting_parameters c1 = (Ret (Some p), c1) ->
     conv_handler cv (mk_message t None)
     = (mk_conversation (Some DIAMETER) c1, Some ZeroDivisionError))
  /\ (get_cutting_parameters c1 = (Ret None, c1) ->
      conv_handler cv (mk_message t None)
      = (mk_conversation None
           (after (chat_of cv) (with_diameter d) [mk_reply no_parameters None]),
         None))
  /\ (ud_tool_type (data (chat_of cv)) = Some "со_сменными_пластинами" ->
      exists e, get_cutting_parameters c1 = (Ret (Some (Entry e)), c1)).
Proof.
  intros Hinv Hc Eo Hd Hd0 c1. unfold conv_inv in Hinv. rewrite Hc in Hinv.
  destruct Hinv as [_ [P _]].
  pose proof (pi_mul_zero d Hd0) as Hpi.
  assert (Eo1 : ud_operation (data c1) = Some "сверление") by exact Eo.
  assert (Start :
    forall Q,
      wp (params <- get_cutting_parameters ;;
          match params with
          | Some p =>
              if negb (params_truthy params) then
                reply_text no_parameters None ;; ret (Some END)
              else
                s <- lift (params_speed p) ;;
                recommended_speed <- lift (mean_int s) ;;
                f <- lift (params_feed p) ;;
                recommended_feed <- lift (mean_float f) ;;
                n <- lift (float_truediv (1000 * recommended_speed)
                                         (math_pi * d)) ;;
                let feed_per_minute := (recommended_feed * n)%float in
                result_message <-
                  format_result recommended_speed recommended_feed None
                                (Some n) (Some feed_per_minute) None None ;;
                reply_text result_message (Some start_keyboard) ;;
                ret (Some END)
          | None => reply_text no_parameters None ;; ret (Some END)
          end)
         (fun r c' =>
            match r with
            | Ret a => Q (Ret a) c'
            | Raise e' =>
                if exn_eqb e' ValueError
                then wp (reply_text (retry DIAMETER) None ;; ret (Some DIAMETER))
                        Q c'
                else Q (Raise e') c'
            end) c1 ->
      wp (diameter t) Q (chat_of cv)).
  { intros Q W. unfold diameter, py_float, set_diameter. rewrite Hd.
    apply wp_try, wp_bind, wp_lift. cbn beta iota.
    apply wp_bind, wp_update. cbn beta iota.
    change (mk_chat _ _) with c1.
    apply wp_bind, wp_getitem. rewrite Eo1. cbn beta iota.
    cbn [String.eqb Ascii.eqb Bool.eqb]. cbv iota. exact W. }
  unfold conv_handler, select. cbn [command text]. rewrite Hc. cbn [states].
  split; [|split].
  - intros p L.
    assert (E : diameter t (chat_of cv) = (Raise ZeroDivisionError, c1)).
    { apply wp_eq, Start. apply wp_bind.
      destruct (gcp_run c1) as (r & L' & Hl). rewrite L in L'.
      injection L' as <-.
      destruct (listed_means p (Hl p eq_refl))
        as (e & -> & (sp & Hs) & (fd & Hf) & _).
      eapply wp_known; [exact L|]. cbn beta iota. cbn [params_truthy negb].
      apply wp_bind, wp_lift. cbn [params_speed]. cbn beta iota.
      apply wp_bind, wp_lift. rewrite Hs. cbn beta iota.
      apply wp_bind, wp_lift. cbn [params_feed]. cbn beta iota.
      apply wp_bind, wp_lift. rewrite Hf. cbn beta iota.
      apply wp_bind, wp_lift. unfold float_truediv. rewrite Hpi.
      cbn [exn_eqb]. split; reflexivity. }
    rewrite E. reflexivity.
  - intros L.
    assert (E : diameter t (chat_of cv)
                = (Ret (Some END),
                   after (chat_of cv) (with_diameter d)
                         [mk_reply no_parameters None])).
    { apply wp_eq, Start. apply wp_bind.
      eapply wp_known; [exact L|]. cbn beta iota. wp_go. split; reflexivity. }
    rewrite E. reflexivity.
  - intros Et. destruct (path3_material _ P) as (m & ops & Em & Hm).
    exact (indexable_drill_lookup c1 m ops Em Hm Eo Et).
Qed.

End Drilling.

(** X5. At the diameter prompt of a reachable conversation about drilling, a
    text that reads as zero (0, 0.0, -0) is stored as the diameter; if the
    lookup then finds an entry, the division by [math.pi * 0] raises
    [ZeroDivisionError] out of the handler, nothing is sent and the state
    stays [DIAMETER]; if the lookup finds nothing, the "no parameters"
    message ends the conversation before any division.  For a drill with
    indexable inserts the lookup always finds an entry. *)
Theorem zero_drill_diameter_raises :
  forall (B : Builtins) (cv : conversation) (t : string) (d : float),
    reachable cv -> current cv = Some DIAMETER ->
    ud_operation (data (chat_of cv)) = Some "сверление" ->
    float_of_str (replace_comma t) = Some d ->
    (d =? 0)%float = true ->
    let c1 := mk_chat (with_diameter d (data (chat_of cv))) (sent (chat_of cv)) in
    (forall p, get_cutting_parameters c1 = (Ret (Some p), c1) ->
       conv_handler cv (mk_message t None)
       = (mk_conversation (Some DIAMETER) c1, Some ZeroDivisionError))
    /\ (get_cutting_parameters c1 = (Ret None, c1) ->
        conv_handler cv (mk_message t None)
        = (mk_conversation None
             (after (chat_of cv) (with_diameter d)
                    [mk_reply no_parameters None]),
           None))
    /\ (ud_tool_type (data (chat_of cv)) = Some "со_сменными_пластинами" ->
        exists e, get_cutting_parameters c1 = (Ret (Some (Entry e)), c1)).
Proof.
  intros B cv t d Hr. apply zero_diameter_drilling, reachable_inv, Hr.
Qed.

Lemma zero_drill_diameter_raises_witness :
  let cv := run idle [start_command; say "сталь"; say "сверление";
                      say "со_сменными_пластинами"] in
  conv_handler cv (say "-0,0")
  = (mk_conversation (Some DIAMETER)
       (mk_chat (with_diameter (-0) (data (chat_of cv))) (sent (chat_of cv))),
     Some ZeroDivisionError).
Proof.
  intros cv.
  destruct (zero_drill_diameter_raises reference_builtins cv "-0,0" (-0)%float)
    as (H & _ & _).
  - apply reachable_run. constructor.
  - vm_compute. reflexivity.
  - vm_compute. reflexivity.
  - vm_compute. reflexivity.
  - vm_compute. reflexivity.
  - eapply H. vm_compute. reflexivity.
Defined.

(** ** The subtype prompt *)

Section Subtype.
Context {B : Builtins}.

Lemma subtype_lookup c m o t ts k :
  ud_material (data c) = Some m ->
  ud_operation (data c) = Some o ->
  ud_tool_type (data c) = Some t ->
  ud_tool_subtype (data c) = Some k ->
  subscript m o t = Ret ts ->
  reads_subtype o t = true ->
  dict_get String.eqb ts k = None ->
  get_cutting_parameters c = (Ret None, c).
Proof.
  intros Em Eo Et Ek Hs Hr Hk.
  unfold get_cutting_parameters. monad. rewrite Em, Eo, Et, Ek.
  destruct ((m =? "") || (o =? "") || (t =? "")); [reflexivity|].
  unfold reads_subtype in Hr.
  destruct (o =? "фрезерование") eqn:O1.
  - clear Hr.
    destruct (((t =? "монолитная") || (t =? "с_пластинами"))
              && opt_str_truthy (Some k)); [|reflexivity].
    rewrite Hs, Hk. reflexivity.
  - cbn [orb] in Hr. apply andb_prop in Hr as [O3 T].
    apply String.eqb_eq in O3. subst o. cbn [String.eqb Ascii.eqb Bool.eqb].
    cbv iota. rewrite T. cbn [andb].
    destruct (opt_str_truthy (Some k)).
    + rewrite Hs, Hk. reflexivity.
    + apply String.eqb_eq in T. subst t. reflexivity.
Qed.

Lemma subtype_accepted cv t :
  conv_inv cv -> current cv = Some TOOL_SUBTYPE ->
  str_lower t <> "/start" ->
  exists o,
    ud_operation (data (chat_of cv)) = Some o
    /\ conv_handler cv (mk_message t None)
       = (mk_conversation (Some DIAMETER)
            (after (chat_of cv) (with_tool_subtype (str_lower t))
                   [mk_reply (diameter_prompt o) None]), None).
Proof.
  unfold conv_inv. intros Hinv Hc Ht. rewrite Hc in Hinv.
  destruct Hinv as [_ [P Ho]]. apply String.eqb_neq in Ht.
  unfold conv_handler, select. cbn [command text]. rewrite Hc. cbn [states].
  assert (E : forall o,
             ud_operation (data (chat_of cv)) = Some o ->
             o = "фрезерование" \/ o = "сверление" ->
             tool_subtype t (chat_of cv)
             = (Ret (Some DIAMETER),
                after (chat_of cv) (with_tool_subtype (str_lower t))
                      [mk_reply (diameter_prompt o) None])).
  { intros o Eo Hcase. apply wp_eq. unfold tool_subtype, set_tool_subtype.
    rewrite Ht. wp_go; known; try congruence; str_eq; subst.
    - split; reflexivity.
    - split; reflexivity.
    - destruct Hcase; contradiction. }
  destruct Ho as [Ho|[Ho _]]; eexists; (split; [exact Ho|]);
    rewrite (E _ Ho) by auto; reflexivity.
Qed.

Lemma diameter_no_entry cv t d :
  current cv = Some DIAMETER ->
  ud_operation (data (chat_of cv)) = Some "сверление" ->
  float_of_str (replace_comma t) = Some d ->
  let c1 := mk_chat (with_diameter d (data (chat_of cv))) (sent (chat_of cv)) in
  get_cutting_parameters c1 = (Ret None, c1) ->
  conv_handler cv (mk_message t None)
  = (mk_conversation None
       (after (chat_of cv) (with_diameter d) [mk_reply no_parameters None]),
     None).
Proof.
  intros Hc Eo Hd c1 L.
  unfold conv_handler, select. cbn [command text]. rewrite Hc. cbn [states].
  assert (E : diameter t (chat_of cv)
              = (Ret (Some END),
                 after (chat_of cv) (with_diameter d)
                       [mk_reply no_parameters None])).
  { apply wp_eq. unfold diameter, py_float, set_diameter. rewrite Hd.
    apply wp_try, wp_bind, wp_lift. cbn beta iota.
    apply wp_bind, wp_update. cbn beta iota.
    change (mk_chat _ _) with c1.
    assert (Eo1 : ud_operation (data c1) = Some "сверление") by exact Eo.
    apply wp_bind, wp_getitem. rewrite Eo1. cbn beta iota.
    cbn [String.eqb Ascii.eqb Bool.eqb]. cbv iota.
    apply wp_bind. eapply wp_known; [exact L|]. cbn beta iota.
    wp_go. split; reflexivity. }
  rewrite E. reflexivity.
Qed.

Lemma depth_no_entry cv t a :
  current cv = Some DEPTH_OF_CUT ->
  float_of_str (replace_comma t) = Some a ->
  let c1 := mk_chat (with_depth_of_cut a (data (chat_of cv)))
                    (sent (chat_of cv)) in
  get_cutting_parameters c1 = (Ret None, c1) ->
  conv_handler cv (mk_message t None)
  = (mk_conversation None
       (after (chat_of cv) (with_depth_of_cut a) [mk_reply no_parameters None]),
     None).
Proof.
  intros Hc Hd c1 L.
  unfold conv_handler, select. cbn [command text]. rewrite Hc. cbn [states].
  assert (E : depth_of_cut t (chat_of cv)
              = (Ret (Some END),
                 after (chat_of cv) (with_depth_of_cut a)
                       [mk_reply no_parameters None])).
  { apply wp_eq. unfold depth_of_cut, py_float, set_depth_of_cut. rewrite Hd.
    apply wp_try, wp_bind, wp_lift. cbn beta iota.
    apply wp_bind, wp_update. cbn beta iota.
    change (mk_chat _ _) with c1.
    apply wp_bind. eapply wp_known; [exact L|]. cbn beta iota.
    wp_go. split; reflexivity. }
  rewrite E. reflexivity.
Qed.

End Subtype.

(** X6. The subtype prompt checks nothing: in a reachable conversation every
    text but [/start] is stored, lower-cased, as the subtype and the
    conversation moves on to the diameter prompt.  A subtype that is no key
    of the catalog shows only when the parameters are looked up: for a solid
    drill after the diameter, for a cutter after the depth of cut; either
    handler then sends the "no parameters" message and ends the
    conversation. *)
Theorem subtype_is_checked_by_the_lookup_only :
  (forall (B : Builtins) (cv : conversation) (t : string),
      reachable cv -> current cv = Some TOOL_SUBTYPE ->
      str_lower t <> "/start" ->
      exists o,
        ud_operation (data (chat_of cv)) = Some o
        /\ conv_handler cv (mk_message t None)
           = (mk_conversation (Some DIAMETER)
                (after (chat_of cv) (with_tool_subtype (str_lower t))
                       [mk_reply (diameter_prompt o) None]), None))
  /\ (forall (B : Builtins) (cv : conversation) (t : string) (d : float)
             (m tt k : string) (ts : tools),
        current cv = Some DIAMETER ->
        ud_material (data (chat_of cv)) = Some m ->
        ud_operation (data (chat_of cv)) = Some "сверление" ->
        ud_tool_type (data (chat_of cv)) = Some tt ->
        ud_tool_subtype (data (chat_of cv)) = Some k ->
        subscript m "сверление" tt = Ret ts ->
        tt = "монолитное" ->
        dict_get String.eqb ts k = None ->
        float_of_str (replace_comma t) = Some d ->
        conv_handler cv (mk_message t None)
        = (mk_conversation None
             (after (chat_of cv) (with_diameter d)
                    [mk_reply no_parameters None]), None))
  /\ (forall (B : Builtins) (cv : conversation) (t : string) (a : float)
             (m tt k : string) (ts : tools),
        current cv = Some DEPTH_OF_CUT ->
        ud_material (data (chat_of cv)) = Some m ->
        ud_operation (data (chat_of cv)) = Some "фрезерование" ->
        ud_tool_type (data (chat_of cv)) = Some tt ->
        ud_tool_subtype (data (chat_of cv)) = Some k ->
        subscript m "фрезерование" tt = Ret ts ->
        dict_get String.eqb ts k = None ->
        float_of_str (replace_comma t) = Some a ->
        conv_handler cv (mk_message t None)
        = (mk_conversation None
             (after (chat_of cv) (with_depth_of_cut a)
                    [mk_reply no_parameters None]), None)).
Proof.
  split; [|split].
  - intros B cv t Hr. apply subtype_accepted, reachable_inv, Hr.
  - intros B cv t d m tt k ts Hc Em Eo Et Ek Hs -> Hk Hd.
    apply diameter_no_entry; auto.
    eapply subtype_lookup; [exact Em|exact Eo|exact Et|exact Ek|exact Hs| |exact Hk].
    reflexivity.
  - intros B cv t a m tt k ts Hc Em Eo Et Ek Hs Hk Hd.
    apply depth_no_entry; auto.
    eapply subtype_lookup; [exact Em|exact Eo|exact Et|exact Ek|exact Hs| |exact Hk].
    reflexivity.
Qed.

Lemma subtype_is_checked_by_the_lookup_only_witness :
  let cv := run idle [start_command; say "сталь"; say "сверление";
                      say "монолитное"] in
  (exists o,
     ud_operation (data (chat_of cv)) = Some o
     /\ conv_handler cv (say "Алмаз")
        = (mk_conversation (Some DIAMETER)
             (after (chat_of cv) (with_tool_subtype (str_lower "Алмаз"))
                    [mk_reply (diameter_prompt o) None]), None))
  /\ (let cv' := fst (conv_handler cv (say "Алмаз")) in
      conv_handler cv' (say "0")
      = (mk_conversation None
           (after (chat_of cv') (with_diameter 0)
                  [mk_reply no_parameters None]), None)).
Proof.
  intros cv. split.
  - apply (proj1 subtype_is_checked_by_the_lookup_only reference_builtins cv
             "Алмаз").
    + apply reachable_run. constructor.
    + vm_compute. reflexivity.
    + intros H. vm_compute in H. discriminate H.
  - intros cv'.
    eapply (proj1 (proj2 subtype_is_checked_by_the_lookup_only)
              reference_builtins cv' "0" 0%float "сталь" "монолитное" "алмаз").
    + vm_compute. reflexivity.
    + vm_compute. reflexivity.
    + vm_compute. reflexivity.
    + vm_compute. reflexivity.
    + vm_compute. reflexivity.
    + vm_compute. reflexivity.
    + reflexivity.
    + vm_compute. reflexivity.
    + vm_compute. reflexivity.
Defined.

(** ** The buttons of the keyboards *)

Section Buttons.
Context {B : Builtins}.

Lemma in_mem k keys : In k keys -> mem k keys = true.
Proof.
  intros H. unfold mem. apply existsb_exists. exists k.
  split; [exact H|apply String.eqb_refl].
Qed.

Lemma start_is_no_key s u keys :
  state_inv s u -> enum_state s = true ->
  choices s u = Some keys -> mem "/start" keys = false.
Proof.
  intros Hinv Hs Hk.
  destruct s; try discriminate; cbn [state_inv choices options_at] in *.
  - injection Hk as <-. reflexivity.
  - destruct Hinv as (m & ops & Em & Eo). rewrite Em, Eo in Hk.
    injection Hk as <-.
    destruct (material_cases _ _ Eo) as [-> | ->]; looked_up; reflexivity.
  - destruct Hinv as (m & ops & o & tts & Em & Eo & Et & Ett).
    rewrite Em, Et, Eo, Ett in Hk. injection Hk as <-.
    destruct (material_cases _ _ Eo) as [-> | ->];
      destruct (operation_cases _ _ _ _ Eo Ett) as [-> | [-> | ->]];
      looked_up; reflexivity.
  - destruct Hinv as ((m & ops & o & tts & t & ts & Em & Eo & Et & Ett & Ety & Ets) & _).
    rewrite Em, Et, Ety in Hk.
    pose proof (tool_type_listed _ _ _ _ _ _ Eo Ett Ets) as L.
    apply mem_cases in L.
    destruct (material_cases _ _ Eo) as [-> | ->];
      destruct (operation_cases _ _ _ _ Eo Ett) as [-> | [-> | ->]];
      cbn in L; destruct L as [<- | [<- | []]];
      vm_compute in Hk; injection Hk as <-; reflexivity.
Qed.

Lemma button_accepted cv s keys k :
  conv_inv cv -> current cv = Some s -> enum_state s = true ->
  choices s (data (chat_of cv)) = Some keys -> In k keys ->
  str_lower k = k ->
  exists s',
    current (fst (conv_handler cv (mk_message k None))) = Some s'
    /\ (rank s < rank s')%nat
    /\ snd (conv_handler cv (mk_message k None)) = None.
Proof.
  intros Hinv Hc Hs Hk Hin Hl.
  pose proof Hinv as Hinv'. unfold conv_inv in Hinv'. rewrite Hc in Hinv'.
  destruct Hinv' as [_ Hi].
  pose proof (start_is_no_key s _ keys Hi Hs Hk) as Hn.
  assert (Ht : str_lower k <> "/start").
  { rewrite Hl. intros ->. apply in_mem in Hin. congruence. }
  destruct (asks s) eqn:Ha.
  - assert (Hk' : options_at s (data (chat_of cv)) = Some keys)
      by (destruct s; try discriminate; exact Hk).
    assert (Hm : mem (str_lower k) keys = true) by (rewrite Hl; now apply in_mem).
    unfold conv_handler, select. cbn [command text]. rewrite Hc.
    destruct (states s) as [h|] eqn:Hh; [|destruct s; discriminate].
    destruct (known_handler s h k (chat_of cv) keys Hh Ha Hi Ht Hk' Hm)
      as (r & c' & E & s' & -> & Hmv).
    rewrite E. exists s'. cbn [fst snd current].
    destruct s, s'; try discriminate; cbn; repeat split; lia.
  - assert (s = TOOL_SUBTYPE) as -> by (destruct s; discriminate || reflexivity).
    destruct (subtype_accepted cv k Hinv Hc Ht) as (o & _ & E).
    rewrite E. exists DIAMETER. cbn. repeat split; lia.
Qed.

End Buttons.

(** X7. Every button a keyboard offers is accepted: at the material,
    operation, tool-type and subtype prompts of a reachable conversation, a
    text that is one of the keys the prompt offers, and that [str.lower]
    leaves as it is, moves the conversation to a later prompt; the "not
    found" message is never the answer to a button. *)
Theorem every_button_is_accepted :
  forall (B : Builtins) (cv : conversation) (s : state) (keys : list string)
         (k : string),
    reachable cv -> current cv = Some s -> enum_state s = true ->
    choices s (data (chat_of cv)) = Some keys -> In k keys ->
    str_lower k = k ->
    exists s',
      current (fst (conv_handler cv (mk_message k None))) = Some s'
      /\ (rank s < rank s')%nat
      /\ snd (conv_handler cv (mk_message k None)) = None.
Proof.
  intros B cv s keys k Hr. apply button_accepted, reachable_inv, Hr.
Qed.

Lemma every_button_is_accepted_witness :
  let cv := run idle [start_command; say "цветной_металл"; say "сверление"] in
  exists s',
    current (fst (conv_handler cv (say "со_сменными_пластинами"))) = Some s'
    /\ (rank TOOL_TYPE < rank s')%nat
    /\ snd (conv_handler cv (say "со_сменными_пластинами")) = None.
Proof.
  intros cv.
  apply (every_button_is_accepted reference_builtins cv TOOL_TYPE
           ["монолитное"; "со_сменными_пластинами"]).
  - apply reachable_run. constructor.
  - vm_compute. reflexivity.
  - reflexivity.
  - vm_compute. reflexivity.
  - right. left. reflexivity.
  - vm_compute. reflexivity.
Defined.

(** ** The subtypes the keyboards offer *)

Section Offered.
Context {B : Builtins}.

Lemma offered_subtype_lookup c m o t ts k :
  ud_material (data c) = Some m ->
  ud_operation (data c) = Some o ->
  ud_tool_type (data c) = Some t ->
  ud_tool_subtype (data c) = Some k ->
  subscript m o t = Ret ts ->
  reads_subtype o t = true ->
  In k (dict_keys ts) ->
  exists e, dict_get String.eqb ts k = Some (Entry e)
            /\ get_cutting_parameters c = (Ret (Some (Entry e)), c).
Proof.
  intros Em Eo Et Ek Hs Hr Hk.
  apply subscript_Ret in Hs as (ops & tts & H1 & H2 & H3).
  pose proof (tool_type_listed _ _ _ _ _ _ H1 H2 H3) as L.
  apply mem_cases in L.
  unfold get_cutting_parameters. monad. rewrite Em, Eo, Et, Ek.
  unfold reads_subtype in Hr.
  destruct (material_cases _ _ H1) as [-> | ->];
    destruct (operation_cases _ _ _ _ H1 H2) as [-> | [-> | ->]];
    try discriminate Hr;
    cbn in L; destruct L as [<- | [<- | []]]; try discriminate Hr;
    looked_up; cbn in Hk;
    repeat match goal with
           | H : _ \/ _ |- _ => destruct H as [<- | H]
           | H : False |- _ => destruct H
           end;
    eexists; split; reflexivity.
Qed.

End Offered.

(** X8. On the paths that read the subtype (milling, and drilling with a
    solid drill), [get_cutting_parameters] finds an entry for every subtype
    that is a key of the catalog at the stored material, operation and tool
    type: the entry stored under that key. *)
Theorem lookup_finds_every_offered_subtype :
  forall (B : Builtins) (c : chat) (m o t k : string) (ts : tools),
    ud_material (data c) = Some m ->
    ud_operation (data c) = Some o ->
    ud_tool_type (data c) = Some t ->
    ud_tool_subtype (data c) = Some k ->
    subscript m o t = Ret ts ->
    reads_subtype o t = true ->
    In k (dict_keys ts) ->
    exists e, dict_get String.eqb ts k = Some (Entry e)
              /\ get_cutting_parameters c = (Ret (Some (Entry e)), c).
Proof. intros B c m o t k ts. apply offered_subtype_lookup. Qed.

Lemma lookup_finds_every_offered_subtype_witness :
  let c := chat_of (run idle ball_nose_answers) in
  exists e,
    dict_get String.eqb
      [("цилиндрическая", Entry (full 80 120 0.1 0.3 1 4));
       ("сферическая", Entry (full 70 110 0.08 0.25 1 3))] "сферическая"
    = Some (Entry e)
    /\ get_cutting_parameters c = (Ret (Some (Entry e)), c).
Proof.
  intros c.
  apply (lookup_finds_every_offered_subtype reference_builtins c "сталь"
           "фрезерование" "монолитная" "сферическая").
  - vm_compute. reflexivity.
  - vm_compute. reflexivity.
  - vm_compute. reflexivity.
  - vm_compute. reflexivity.
  - reflexivity.
  - reflexivity.
  - right. left. reflexivity.
Defined.

(** ** What the handlers cannot tell apart *)

Section Alike.
Variable teeth_too : bool.
Variables p p' : list reply.

Lemma blind_ret {A} (a : A) : blind teeth_too p p' (ret a).
Proof. intros c c' H. split; [reflexivity|exact H]. Qed.

Lemma blind_lift {A} (r : result A) : blind teeth_too p p' (lift r).
Proof. intros c c' H. split; [reflexivity|exact H]. Qed.

Lemma blind_bind {A C} (m : M A) (k : A -> M C) :
  blind teeth_too p p' m -> (forall a, blind teeth_too p p' (k a)) ->
  blind teeth_too p p' (bind m k).
Proof.
  intros Hm Hk c c' H. unfold bind. destruct (Hm c c' H) as [E1 E2].
  destruct (m c) as [[a|e] c1], (m c') as [[a'|e'] c1']; cbn [fst snd] in *;
    try discriminate.
  - injection E1 as <-. now apply Hk.
  - injection E1 as <-. auto.
Qed.

Lemma blind_try {A} (body handler : M A) e :
  blind teeth_too p p' body -> blind teeth_too p p' handler ->
  blind teeth_too p p' (try_except body e handler).
Proof.
  intros Hb Hh c c' H. unfold try_except. destruct (Hb c c' H) as [E1 E2].
  destruct (body c) as [[a|e1] c1], (body c') as [[a'|e1'] c1'];
    cbn [fst snd] in *; try discriminate.
  - injection E1 as <-. auto.
  - injection E1 as <-. destruct (exn_eqb e1 e); [now apply Hh|auto].
Qed.

Lemma blind_reply text markup : blind teeth_too p p' (reply_text text markup).
Proof.
  intros c c' [Hd (k & Hs & Hs')]. split; [reflexivity|]. split; [exact Hd|].
  exists (k ++ [mk_reply text markup])%list. cbn [snd reply_text sent].
  rewrite Hs, Hs', <- !app_assoc. split; reflexivity.
Qed.

Lemma blind_get {A} (key : user_data -> option A) :
  (forall u u', same_data teeth_too u u' -> key u = key u') ->
  blind teeth_too p p' (ud_get key).
Proof.
  intros Hk c c' H. split; [|exact H]. cbn. f_equal. apply Hk, H.
Qed.

Lemma blind_getitem {A} (key : user_data -> option A) :
  (forall u u', same_data teeth_too u u' -> key u = key u') ->
  blind teeth_too p p' (ud_getitem key).
Proof.
  intros Hk c c' H. unfold ud_getitem. rewrite (Hk _ _ (proj1 H)).
  destruct (key (data c')); (split; [reflexivity|exact H]).
Qed.

Lemma blind_update f :
  (forall u u', same_data teeth_too u u' -> same_data teeth_too (f u) (f u')) ->
  blind teeth_too p p' (ud_update f).
Proof.
  intros Hf c c' [Hd Hs]. split; [reflexivity|]. split; [|exact Hs].
  cbn. now apply Hf.
Qed.

End Alike.

Ltac same_fields :=
  let u := fresh "u" in
  let u' := fresh "u'" in
  let H := fresh "H" in
  intros u u' H; unfold same_data, same_but_teeth in *;
  cbn [ud_material ud_operation ud_tool_type ud_tool_subtype ud_diameter
       ud_number_of_teeth ud_depth_of_cut ud_radius ud_groove_width];
  intuition.

Ltac blind_step :=
  lazymatch goal with
  | |- blind _ _ _ (bind _ _) => apply blind_bind; [|intros ?]
  | |- blind _ _ _ (ret _) => apply blind_ret
  | |- blind _ _ _ (lift _) => apply blind_lift
  | |- blind _ _ _ (try_except _ _ _) => apply blind_try
  | |- blind _ _ _ (reply_text _ _) => apply blind_reply
  | |- blind _ _ _ (ud_get _) => apply blind_get; same_fields
  | |- blind _ _ _ (ud_getitem _) => apply blind_getitem; same_fields
  | |- blind _ _ _ (ud_update _) => apply blind_update; same_fields
  | |- blind ?b ?p ?q (let x := ?a in @?f x) =>
      change (blind b p q (f a)); generalize a; intro; cbv beta
  | |- blind _ _ _ (if ?b then _ else _) => destruct b
  | |- blind _ _ _ (match ?x with Some _ => _ | None => _ end) => destruct x
  | |- blind _ _ _ (match ?x with Ret _ => _ | Raise _ => _ end) => destruct x
  | |- blind _ _ _ (match ?x with (_, _) => _ end) => destruct x
  end.

Ltac blind_go := repeat blind_step.

Section Blind.
Context {B : Builtins}.
Variable teeth_too : bool.
Variables p p' : list reply.

Lemma blind_start : blind teeth_too p p' start.
Proof. unfold start, ud_clear. blind_go. Qed.

Lemma blind_cancel : blind teeth_too p p' cancel.
Proof. unfold cancel. blind_go. Qed.

Lemma blind_get_cutting_parameters : blind teeth_too p p' get_cutting_parameters.
Proof. unfold get_cutting_parameters. blind_go. Qed.

Lemma blind_format_result speed feed depth n fpm w o :
  blind teeth_too p p' (format_result speed feed depth n fpm w o).
Proof. cbv beta delta [format_result]. blind_go. Qed.

Ltac blind_handler :=
  repeat first
    [ apply blind_get_cutting_parameters
    | apply blind_format_result
    | apply blind_start
    | blind_step ].

Lemma blind_states s h t : states s = Some h -> blind teeth_too p p' (h t).
Proof.
  destruct s; cbn [states]; intros [= <-];
    unfold material, operation, tool_type, tool_subtype, diameter,
           number_of_teeth, depth_of_cut, radius, groove_width,
           set_material, set_operation, set_tool_type, set_tool_subtype,
           set_diameter, set_number_of_teeth, set_depth_of_cut, set_radius,
           set_groove_width;
    blind_handler.
Qed.

Lemma blind_select cur msg h :
  select cur msg = Some h -> blind teeth_too p p' h.
Proof.
  unfold select, entry_points, fallbacks.
  destruct cur as [s|], (command msg) as [cmd|]; try discriminate.
  - destruct (cmd =? "cancel"); [intros [= <-]; apply blind_cancel|].
    destruct (cmd =? "start"); [intros [= <-]; apply blind_start|discriminate].
  - destruct (states s) as [h'|] eqn:Hh; [|discriminate].
    intros [= <-]. now apply blind_states with (s := s).
  - destruct (cmd =? "start"); [intros [= <-]; apply blind_start|discriminate].
Qed.

Lemma conv_handler_alike cv cv' msg :
  alike_conv teeth_too p p' cv cv' ->
  snd (conv_handler cv msg) = snd (conv_handler cv' msg)
  /\ alike_conv teeth_too p p'
       (fst (conv_handler cv msg)) (fst (conv_handler cv' msg)).
Proof.
  intros [Hc Ha]. unfold conv_handler. rewrite <- Hc.
  destruct (select (current cv) msg) as [h|] eqn:Hs.
  - destruct (blind_select _ _ _ Hs _ _ Ha) as [E1 E2].
    destruct (h (chat_of cv)) as [[r|e] c1], (h (chat_of cv')) as [[r'|e'] c1'];
      cbn [fst snd] in *; try discriminate.
    + injection E1 as <-. split; [reflexivity|]. split; [reflexivity|exact E2].
    + injection E1 as <-. split; [reflexivity|]. split; [reflexivity|exact E2].
  - split; [reflexivity|]. split; [exact Hc|exact Ha].
Qed.

Lemma run_alike cv cv' msgs :
  alike_conv teeth_too p p' cv cv' ->
  alike_conv teeth_too p p' (run cv msgs) (run cv' msgs).
Proof.
  revert cv cv'. induction msgs as [|msg msgs IH]; intros cv cv' H; [exact H|].
  cbn [run]. apply IH, conv_handler_alike, H.
Qed.

End Blind.

Lemma same_data_eq u u' : same_data true u u' -> u = u'.
Proof.
  intros [(H1 & H2 & H3 & H4 & H5 & H6 & H7 & H8) H9].
  specialize (H9 eq_refl). destruct u, u'. cbn in *. congruence.
Qed.

Lemma same_data_refl b u : same_data b u u.
Proof. unfold same_data, same_but_teeth. auto 10. Qed.

(** X9. The number of teeth is stored and never read: after two different
    integers answered at the teeth prompt, the same further messages lead to
    the same state and the same replies, and the two dicts differ at most
    under ['number_of_teeth']. *)
Theorem number_of_teeth_is_never_read :
  forall (B : Builtins) (cv : conversation) (t1 t2 : string) (n1 n2 : Z)
         (msgs : list message),
    current cv = Some NUMBER_OF_TEETH ->
    int_of_str t1 = Some n1 -> int_of_str t2 = Some n2 ->
    let cv1 := run cv (mk_message t1 None :: msgs) in
    let cv2 := run cv (mk_message t2 None :: msgs) in
    ud_number_of_teeth (data (chat_of (fst (conv_handler cv (mk_message t1 None)))))
    = Some n1
    /\ current cv1 = current cv2
    /\ sent (chat_of cv1) = sent (chat_of cv2)
    /\ same_but_teeth (data (chat_of cv1)) (data (chat_of cv2)).
Proof.
  intros B cv t1 t2 n1 n2 msgs Hc H1 H2 cv1 cv2.
  assert (E : forall t n, int_of_str t = Some n ->
            conv_handler cv (mk_message t None)
            = (mk_conversation (Some DEPTH_OF_CUT)
                 (mk_chat
                    (mk_user_data (ud_material (data (chat_of cv)))
                       (ud_operation (data (chat_of cv)))
                       (ud_tool_type (data (chat_of cv)))
                       (ud_tool_subtype (data (chat_of cv)))
                       (ud_diameter (data (chat_of cv))) (Some n)
                       (ud_depth_of_cut (data (chat_of cv)))
                       (ud_radius (data (chat_of cv)))
                       (ud_groove_width (data (chat_of cv))))
                    (sent (chat_of cv) ++ [mk_reply ask_depth_of_cut None])),
               None)).
  { intros t n Ht. unfold conv_handler, select. cbn [command text].
    rewrite Hc. cbn [states]. unfold number_of_teeth, py_int. rewrite Ht.
    reflexivity. }
  split; [rewrite (E t1 n1 H1); reflexivity|].
  assert (A : alike_conv false [] [] cv1 cv2).
  { subst cv1 cv2. cbn [run]. apply run_alike.
    rewrite (E t1 n1 H1), (E t2 n2 H2). cbn [fst].
    split; [reflexivity|]. split.
    - unfold same_data, same_but_teeth. cbn. split; [auto 10|discriminate].
    - eexists. cbn. split; reflexivity. }
  destruct A as (A1 & (A2 & _) & (k & A3 & A4)).
  split; [exact A1|]. split; [|exact A2]. rewrite A3, A4. reflexivity.
Qed.

Lemma number_of_teeth_is_never_read_witness :
  let cv := run idle [start_command; say "сталь"; say "фрезерование";
                      say "монолитная"; say "цилиндрическая"; say "10"] in
  sent (chat_of (run cv [say "2"; say "3"]))
  = sent (chat_of (run cv [say "12"; say "3"])).
Proof.
  intros cv.
  apply (number_of_teeth_is_never_read reference_builtins cv "2" "12" 2 12
           [say "3"]); vm_compute; reflexivity.
Defined.

(** X10. After [/start] the history does not matter: two conversations
    with any states, answers and replies behave alike from the command on.
    For every further sequence of messages they reach the same state, store
    the same dict and send the same replies after the greeting. *)
Theorem start_forgets_the_history :
  forall (B : Builtins) (cv cv' : conversation) (msgs : list message),
    let a := run cv (start_command :: msgs) in
    let b := run cv' (start_command :: msgs) in
    current a = current b
    /\ data (chat_of a) = data (chat_of b)
    /\ exists k,
         sent (chat_of a) = (sent (chat_of cv) ++ greeting :: k)%list
         /\ sent (chat_of b) = (sent (chat_of cv') ++ greeting :: k)%list.
Proof.
  intros B cv cv' msgs a b.
  assert (A : alike_conv true (sent (chat_of cv) ++ [greeting])
                (sent (chat_of cv') ++ [greeting]) a b).
  { subst a b. cbn [run]. apply run_alike.
    unfold start_command. rewrite !restart_command. cbn [fst]. unfold restarted.
    split; [reflexivity|]. split; [apply same_data_refl|].
    exists []. cbn [sent]. rewrite !app_nil_r. split; reflexivity. }
  destruct A as (A1 & A2 & (k & A3 & A4)).
  split; [exact A1|]. split; [apply same_data_eq, A2|].
  exists k. rewrite A3, A4, <- !app_assoc. split; reflexivity.
Qed.

Lemma start_forgets_the_history_witness :
  current (run (run idle ball_nose_answers) [start_command; say "Сталь"])
  = current (run idle [start_command; say "Сталь"]).
Proof.
  exact (proj1 (start_forgets_the_history reference_builtins
                  (run idle ball_nose_answers) idle [say "Сталь"])).
Defined.

(** ** The recommended values *)

Lemma catalog_means_within : forallb means_within catalog_entries = true.
Proof. vm_compute. reflexivity. Qed.

(** X11. For every entry [get_cutting_parameters] can return, the means the
    handlers recommend are defined and lie within the entry's ranges:
    [min <= mean <= max] for the speed, the feed and, when present, the
    depth, whose mean is not zero (so that the radius handler shows it). *)
Theorem recommended_values_lie_within_the_ranges :
  forall (B : Builtins) (c c' : chat) (e : entry),
    get_cutting_parameters c = (Ret (Some (Entry e)), c') ->
    (exists v, mean_int (speed e) = Ret v
               /\ (float_of_int (fst (speed e)) <=? v)%float = true
               /\ (v <=? float_of_int (snd (speed e)))%float = true)
    /\ (exists v, mean_float (feed e) = Ret v
                  /\ (fst (feed e) <=? v)%float = true
                  /\ (v <=? snd (feed e))%float = true)
    /\ (forall r, depth e = Some r ->
          exists v, mean_int r = Ret v
                    /\ (float_of_int (fst r) <=? v)%float = true
                    /\ (v <=? float_of_int (snd r))%float = true
                    /\ float_truthy v = true).
Proof.
  intros B c c' e H. destruct (gcp_run c) as (r & Hr & Hl).
  rewrite Hr in H. injection H as -> _.
  destruct (Hl _ eq_refl) as (e' & [= <-] & He).
  pose proof catalog_means_within as M. rewrite forallb_forall in M.
  specialize (M e He). unfold means_within in M.
  apply andb_prop in M as [M Md]. apply andb_prop in M as [Ms Mf].
  unfold mean_int, mean_float, int_mean_within, float_mean_within in *.
  split; [|split].
  - destruct (int_truediv _ 2) as [v|]; [|discriminate].
    apply andb_prop in Ms as [? ?]. eauto.
  - destruct (float_truediv _ 2) as [v|]; [|discriminate].
    apply andb_prop in Mf as [? ?]. eauto.
  - intros r Er. rewrite Er in Md.
    destruct (int_truediv (fst r + snd r) 2) as [v|]; [|discriminate].
    apply andb_prop in Md as [M1 M2]. apply andb_prop in M1 as [? ?]. eauto 6.
Qed.

Lemma recommended_values_lie_within_the_ranges_witness :
  exists v, mean_int (70, 100)%Z = Ret v
            /\ (float_of_int 70 <=? v)%float = true
            /\ (v <=? float_of_int 100)%float = true.
Proof.
  pose (c := mk_chat (mk_user_data (Some "сталь") (Some "сверление")
                        (Some "со_сменными_пластинами") None None None None
                        None None) []).
  exact (proj1 (recommended_values_lie_within_the_ranges reference_builtins c c
                  (full 70 100 0.1 0.2 1 12) eq_refl)).
Defined.

(** ** The results of the turning prompts *)

Section Turning.
Context {B : Builtins}.

Lemma listed_depth_mean e r v :
  In e catalog_entries -> depth e = Some r -> mean_int r = Ret v ->
  float_truthy v = true.
Proof.
  intros He Er Hv.
  pose proof catalog_means_within as M. rewrite forallb_forall in M.
  specialize (M e He). unfold means_within in M.
  apply andb_prop in M as [_ Md]. rewrite Er in Md.
  apply andb_prop in Md as [_ Md]. unfold mean_int in Hv. rewrite Hv in Md.
  exact Md.
Qed.

Lemma dimension_found cv s t x :
  conv_inv cv -> current cv = Some s -> dimension_state s = true ->
  float_of_str (replace_comma t) = Some x ->
  is_key x (dimension_keys_of s) = true ->
  let c1 := mk_chat (with_dimension s x (data (chat_of cv))) (sent (chat_of cv)) in
  exists m e sp fd dp,
    ud_material (data (chat_of cv)) = Some m
    /\ get_cutting_parameters c1 = (Ret (Some (Entry e)), c1)
    /\ mean_int (speed e) = Ret sp
    /\ mean_float (feed e) = Ret fd
    /\ mean_depth e dp
    /\ conv_handler cv (mk_message t None)
       = (mk_conversation None
            (after (chat_of cv) (with_dimension s x)
                   (turning_result s m "точение" (str_of_float x) sp fd dp)),
          None).
Proof.
  intros Hinv Hc Hs Hx Hk c1. unfold conv_inv in Hinv. rewrite Hc in Hinv.
  destruct Hinv as [_ Hinv].
  unfold conv_handler, select. cbn [command text]. rewrite Hc.
  destruct s; try discriminate; cbn [states state_inv] in *;
    destruct Hinv as (P & Ho & Et);
    destruct (path3_material _ P) as (m & ops & Em & Hm).
  - destruct (turning_lookup c1 m ops "проходной" Em Hm Ho Et
                             (or_introl eq_refl)) as (d & _ & Hd & L).
    cbn [String.eqb Ascii.eqb Bool.eqb] in L, Hd. cbv iota in L, Hd.
    destruct (dict_get_not_key d x) as (e & He); [rewrite Hd; exact Hk|].
    change (ud_radius (data c1)) with (Some x) in L. cbv beta iota in L.
    rewrite He in L.
    cbn [option_map] in L.
    destruct (gcp_run c1) as (r & L' & Hl). rewrite L in L'. injection L' as <-.
    destruct (Hl _ eq_refl) as (e' & [= <-] & Hin).
    destruct (listed_means _ (Hl _ eq_refl))
      as (e' & [= <-] & (sp & Hsp) & (fd & Hfd) & Hdp).
    assert (D : exists dp, mean_depth e dp
                /\ match depth e with
                   | Some r => exists v, mean_int r = Ret v /\ dp = Some v
                                         /\ float_truthy v = true
                   | None => dp = None
                   end).
    { unfold mean_depth. destruct (depth e) as [r|] eqn:Er.
      - destruct (Hdp r eq_refl) as (v & Hv). exists (Some v).
        pose proof (listed_depth_mean e r v Hin Er Hv) as Tv.
        split; exists v; auto.
      - exists None. auto. }
    destruct D as (dp & Hmd & Hdd).
    exists m, e, sp, fd, dp. repeat (split; [assumption|]).
    assert (E : radius t (chat_of cv)
                = (Ret (Some END),
                   after (chat_of cv) (with_radius x)
                     (turning_result RADIUS m "точение" (str_of_float x)
                        sp fd dp))).
    { apply wp_eq. unfold radius, py_float, set_radius. rewrite Hx.
      apply wp_try, wp_bind, wp_lift. cbn beta iota.
      apply wp_bind, wp_update. cbn beta iota.
      change (mk_chat _ _) with c1.
      apply wp_bind. eapply wp_known; [exact L|]. cbn beta iota.
      cbn [params_truthy negb params_speed params_feed params_depth].
      apply wp_bind, wp_lift. cbn beta iota.
      apply wp_bind, wp_lift. rewrite Hsp. cbn beta iota.
      apply wp_bind, wp_lift. cbn beta iota.
      apply wp_bind, wp_lift. rewrite Hfd. cbn beta iota.
      assert (Em1 : ud_material (data c1) = Some m) by exact Em.
      assert (Eo1 : ud_operation (data c1) = Some "точение") by exact Ho.
      destruct (depth e) as [r|].
      - destruct Hdd as (v & Hv & -> & Tv).
        apply wp_bind, wp_bind, wp_lift. rewrite Hv. cbn beta iota.
        apply wp_ret. cbn beta iota.
        apply wp_bind, wp_getitem. rewrite Em1. cbn beta iota.
        apply wp_bind, wp_getitem. rewrite Eo1. cbn beta iota.
        cbn [opt_float_truthy]. rewrite Tv.
        wp_go. unfold after, turning_result, c1. cbn [data sent app].
        rewrite <- !app_assoc. split; reflexivity.
      - subst dp.
        apply wp_bind, wp_ret. cbn beta iota.
        apply wp_bind, wp_getitem. rewrite Em1. cbn beta iota.
        apply wp_bind, wp_getitem. rewrite Eo1. cbn beta iota.
        cbn [opt_float_truthy].
        wp_go. unfold after, turning_result, c1. cbn [data sent app].
        rewrite <- !app_assoc. split; reflexivity. }
    rewrite E. reflexivity.
  - destruct (turning_lookup c1 m ops "канавочный" Em Hm Ho Et
                             (or_intror eq_refl)) as (d & _ & Hd & L).
    cbn [String.eqb Ascii.eqb Bool.eqb] in L, Hd. cbv iota in L, Hd.
    destruct (dict_get_not_key d x) as (e & He); [rewrite Hd; exact Hk|].
    change (ud_groove_width (data c1)) with (Some x) in L. cbv beta iota in L.
    rewrite He in L.
    cbn [option_map] in L.
    destruct (gcp_run c1) as (r & L' & Hl). rewrite L in L'. injection L' as <-.
    destruct (listed_means _ (Hl _ eq_refl))
      as (e' & [= <-] & (sp & Hsp) & (fd & Hfd) & Hdp).
    assert (D : exists dp, mean_depth e dp).
    { unfold mean_depth. destruct (depth e) as [r|] eqn:Er.
      - destruct (Hdp r eq_refl) as (v & Hv). exists (Some v), v. auto.
      - exists None. auto. }
    destruct D as (dp & Hmd).
    exists m, e, sp, fd, dp. repeat (split; [assumption|]).
    assert (E : groove_width t (chat_of cv)
                = (Ret (Some END),
                   after (chat_of cv) (with_groove_width x)
                     (turning_result GROOVE_WIDTH m "точение" (str_of_float x)
                        sp fd dp))).
    { apply wp_eq. unfold groove_width, py_float, set_groove_width. rewrite Hx.
      apply wp_try, wp_bind, wp_lift. cbn beta iota.
      apply wp_bind, wp_update. cbn beta iota.
      change (mk_chat _ _) with c1.
      apply wp_bind. eapply wp_known; [exact L|]. cbn beta iota.
      cbn [params_truthy negb params_speed params_feed params_depth].
      apply wp_bind, wp_lift. cbn beta iota.
      apply wp_bind, wp_lift. rewrite Hsp. cbn beta iota.
      apply wp_bind, wp_lift. cbn beta iota.
      apply wp_bind, wp_lift. rewrite Hfd. cbn beta iota.
      assert (Em1 : ud_material (data c1) = Some m) by exact Em.
      assert (Eo1 : ud_operation (data c1) = Some "точение") by exact Ho.
      apply wp_bind, wp_getitem. rewrite Em1. cbn beta iota.
      apply wp_bind, wp_getitem. rewrite Eo1. cbn beta iota.
      wp_go. unfold after, turning_result, c1. cbn [data sent app].
      rewrite <- !app_assoc. split; reflexivity. }
    rewrite E. reflexivity.
Qed.

End Turning.

(** X12. At the radius and width prompts of a reachable conversation a value
    equal to a key of the dimension dict ends the conversation with the
    result: a heading with the material, the operation and the value written
    with [str], the mean speed, the mean feed, for a radius the mean depth,
    and the invitation to restart with the [/start] keyboard.  So does the
    text of every radius button, when [float] reads back what [str] wrote;
    the reference built-ins do for 0.4, 0.8 and 1.2. *)
Theorem turning_values_give_the_result :
  (forall (B : Builtins) (cv : conversation) (s : state) (t : string) (x : float),
      reachable cv -> current cv = Some s -> dimension_state s = true ->
      float_of_str (replace_comma t) = Some x ->
      is_key x (dimension_keys_of s) = true ->
      let c1 := mk_chat (with_dimension s x (data (chat_of cv)))
                        (sent (chat_of cv)) in
      exists m e sp fd dp,
        ud_material (data (chat_of cv)) = Some m
        /\ get_cutting_parameters c1 = (Ret (Some (Entry e)), c1)
        /\ mean_int (speed e) = Ret sp
        /\ mean_float (feed e) = Ret fd
        /\ mean_depth e dp
        /\ conv_handler cv (mk_message t None)
           = (mk_conversation None
                (after (chat_of cv) (with_dimension s x)
                       (turning_result s m "точение" (str_of_float x) sp fd dp)),
              None))
  /\ (forall (B : Builtins) (cv : conversation) (k : float),
        reachable cv -> current cv = Some RADIUS -> In k radii ->
        float_of_str (replace_comma (str_of_float k)) = Some k ->
        exists m sp fd dp,
          conv_handler cv (mk_message (str_of_float k) None)
          = (mk_conversation None
               (after (chat_of cv) (with_radius k)
                      (turning_result RADIUS m "точение" (str_of_float k)
                         sp fd dp)),
             None))
  /\ map (fun k => float_of_str (replace_comma (str_of_float k))) radii
     = map Some radii.
Proof.
  split; [|split].
  - intros B cv s t x Hr. apply dimension_found, reachable_inv, Hr.
  - intros B cv k Hr Hc Hk Hrt.
    destruct (dimension_found cv RADIUS (str_of_float k) k
                (reachable_inv cv Hr) Hc eq_refl Hrt)
      as (m & e & sp & fd & dp & _ & _ & _ & _ & _ & E).
    + cbn in Hk. destruct Hk as [<- | [<- | [<- | []]]]; reflexivity.
    + exists m, sp, fd, dp. exact E.
  - vm_compute. reflexivity.
Qed.

Lemma turning_values_give_the_result_witness :
  let cv := run idle profiling_answers in
  exists m sp fd dp,
    conv_handler cv (say "0.8")
    = (mk_conversation None
         (after (chat_of cv) (with_radius 0.8)
                (turning_result RADIUS m "точение" "0.8" sp fd dp)),
       None).
Proof.
  intros cv.
  apply (proj1 (proj2 turning_values_give_the_result) reference_builtins cv
           0.8%float).
  - apply reachable_run. constructor.
  - vm_compute. reflexivity.
  - right. left. reflexivity.
  - vm_compute. reflexivity.
Defined.

(** ** The result of the milling path *)

Lemma calculate_cutting_width_returns D a k :
  (k = "сферическая" -> (0 <=? a)%float = true /\ (a <=? D)%float = true) ->
  exists w, calculate_cutting_width D a k = Ret w.
Proof.
  intros H. unfold calculate_cutting_width.
  destruct (k =? "цилиндрическая"); [eauto|].
  destruct (String.eqb_spec k "сферическая") as [E|_]; [|eauto].
  destruct (H E) as [H0 H1]. rewrite (math_sqrt_in_domain D a H0 H1). eauto.
Qed.

Section Milling.
Context {B : Builtins}.

Lemma milling_result cv t a D k :
  current cv = Some DEPTH_OF_CUT ->
  ud_diameter (data (chat_of cv)) = Some D -> float_truthy D = true ->
  ud_tool_subtype (data (chat_of cv)) = Some k -> k <> "" ->
  float_of_str (replace_comma t) = Some a ->
  (k = "сферическая" -> (0 <=? a)%float = true /\ (a <=? D)%float = true) ->
  let c1 := mk_chat (with_depth_of_cut a (data (chat_of cv)))
                    (sent (chat_of cv)) in
  exists rep,
    conv_handler cv (mk_message t None)
    = (mk_conversation None (after (chat_of cv) (with_depth_of_cut a) [rep]),
       None)
    /\ ((get_cutting_parameters c1 = (Ret None, c1)
         /\ rep = mk_reply no_parameters None)
        \/ exists e sp fd dp w body,
             let n := (1000 * sp / (math_pi * D))%float in
             get_cutting_parameters c1 = (Ret (Some (Entry e)), c1)
             /\ mean_int (speed e) = Ret sp
             /\ mean_float (feed e) = Ret fd
             /\ mean_depth e dp
             /\ calculate_cutting_width D a k = Ret w
             /\ format_result sp fd dp (Some n)
                  (if float_truthy n then Some (fd * n)%float else None)
                  w (calculate_overlap D a) c1 = (Ret body, c1)
             /\ rep = mk_reply body (Some start_keyboard)).
Proof.
  intros Hc Ed TD Ek Hk Ha Hdom c1.
  unfold conv_handler, select. cbn [command text]. rewrite Hc. cbn [states].
  enough (W : wp (depth_of_cut t)
                (fun r c' =>
                   r = Ret (Some END)
                   /\ exists rep,
                        c' = after (chat_of cv) (with_depth_of_cut a) [rep]
                        /\ ((get_cutting_parameters c1 = (Ret None, c1)
                             /\ rep = mk_reply no_parameters None)
                            \/ exists e sp fd dp w body,
                                 let n := (1000 * sp / (math_pi * D))%float in
                                 get_cutting_parameters c1
                                 = (Ret (Some (Entry e)), c1)
                                 /\ mean_int (speed e) = Ret sp
                                 /\ mean_float (feed e) = Ret fd
                                 /\ mean_depth e dp
                                 /\ calculate_cutting_width D a k = Ret w
                                 /\ format_result sp fd dp (Some n)
                                      (if float_truthy n
                                       then Some (fd * n)%float else None)
                                      w (calculate_overlap D a) c1
                                    = (Ret body, c1)
                                 /\ rep = mk_reply body (Some start_keyboard)))
                (chat_of cv)).
  { unfold wp in W. destruct (depth_of_cut t (chat_of cv)) as [r c'].
    cbn [fst snd] in W. destruct W as (-> & rep & -> & H).
    exists rep. split; [reflexivity|exact H]. }
  apply String.eqb_neq in Hk.
  assert (Hpi : (math_pi * D =? 0)%float = false).
  { apply pi_mul_not_zero. unfold float_truthy in TD.
    now apply negb_true_iff in TD. }
  destruct (calculate_cutting_width_returns D a k Hdom) as (w & Hw).
  unfold depth_of_cut, py_float, set_depth_of_cut. rewrite Ha.
  apply wp_try, wp_bind, wp_lift. cbn beta iota.
  apply wp_bind, wp_update. cbn beta iota.
  change (mk_chat _ _) with c1.
  assert (Ed1 : ud_diameter (data c1) = Some D) by exact Ed.
  assert (Ek1 : ud_tool_subtype (data c1) = Some k) by exact Ek.
  apply wp_bind.
  destruct (gcp_run c1) as ([p|] & L & Hl).
  - destruct (listed_means p (Hl p eq_refl))
      as (e & -> & (sp & Hs) & (fd & Hf) & Hdp).
    eapply wp_known; [exact L|]. cbn beta iota. cbn [params_truthy negb].
    apply wp_bind, wp_get. rewrite Ed1. cbn beta iota.
    apply wp_bind, wp_get. rewrite Ek1. cbn beta iota.
    rewrite TD, Hk. cbn [andb negb]. cbv iota.
    apply wp_bind, wp_lift. rewrite Hw. cbn beta iota zeta.
    apply wp_bind, wp_lift. cbn [params_speed]. cbn beta iota.
    apply wp_bind, wp_lift. rewrite Hs. cbn beta iota.
    apply wp_bind, wp_lift. cbn [params_feed]. cbn beta iota.
    apply wp_bind, wp_lift. rewrite Hf. cbn beta iota.
    cbn [params_depth].
    assert (D' : exists dp,
               mean_depth e dp
               /\ forall Q,
                    Q (Ret dp) c1 ->
                    wp match depth e with
                       | Some r => v <- lift (mean_int r) ;; ret (Some v)
                       | None => ret None
                       end Q c1).
    { unfold mean_depth. destruct (depth e) as [r|].
      - destruct (Hdp r eq_refl) as (v & Hv). exists (Some v).
        split; [eauto|]. intros Q HQ. apply wp_bind, wp_lift. rewrite Hv.
        cbn beta iota. apply wp_ret. exact HQ.
      - exists None. split; [reflexivity|]. intros Q HQ. apply wp_ret. exact HQ. }
    destruct D' as (dp & Hmd & Wd).
    apply wp_bind, Wd. cbn beta iota.
    apply wp_bind, wp_get. rewrite Ed1. cbn beta iota. rewrite TD.
    apply wp_bind, wp_bind, wp_lift. unfold float_truediv. rewrite Hpi.
    cbn beta iota. apply wp_ret. cbn beta iota zeta.
    apply wp_bind.
    destruct (format_result_run sp fd dp
                (Some (1000 * sp / (math_pi * D))%float)
                (if float_truthy (1000 * sp / (math_pi * D))
                 then Some (fd * (1000 * sp / (math_pi * D)))%float else None)
                w (calculate_overlap D a) c1) as (body & F).
    eapply wp_known; [exact F|]. cbn beta iota.
    wp_go. split; [reflexivity|].
    eexists. split; [reflexivity|]. right. exists e, sp, fd, dp, w, body.
    cbv zeta. auto 10.
  - eapply wp_known; [exact L|]. cbn beta iota.
    wp_go. split; [reflexivity|].
    eexists. split; [reflexivity|]. left. auto.
Qed.

End Milling.

(** X13. At the depth prompt, with a non-zero diameter [D] and a non-empty
    subtype stored, a depth [a] that is within [0 <= a <= D] when the subtype
    is the ball-nose one ends the conversation with one reply: the "no
    parameters" message when the lookup finds nothing, and otherwise the
    result formatted from the means of the entry's speed, feed and depth
    ranges, the spindle speed [1000 * speed / (math.pi * D)], the feed rate
    [feed * n] and the overlap [calculate_overlap D a]. *)
Theorem depth_in_domain_gives_the_result :
  forall (B : Builtins) (cv : conversation) (t : string) (a D : float)
         (k : string),
    current cv = Some DEPTH_OF_CUT ->
    ud_diameter (data (chat_of cv)) = Some D -> float_truthy D = true ->
    ud_tool_subtype (data (chat_of cv)) = Some k -> k <> "" ->
    float_of_str (replace_comma t) = Some a ->
    (k = "сферическая" -> (0 <=? a)%float = true /\ (a <=? D)%float = true) ->
    let c1 := mk_chat (with_depth_of_cut a (data (chat_of cv)))
                      (sent (chat_of cv)) in
    exists rep,
      conv_handler cv (mk_message t None)
      = (mk_conversation None (after (chat_of cv) (with_depth_of_cut a) [rep]),
         None)
      /\ ((get_cutting_parameters c1 = (Ret None, c1)
           /\ rep = mk_reply no_parameters None)
          \/ exists e sp fd dp w body,
               let n := (1000 * sp / (math_pi * D))%float in
               get_cutting_parameters c1 = (Ret (Some (Entry e)), c1)
               /\ mean_int (speed e) = Ret sp
               /\ mean_float (feed e) = Ret fd
               /\ mean_depth e dp
               /\ calculate_cutting_width D a k = Ret w
               /\ format_result sp fd dp (Some n)
                    (if float_truthy n then Some (fd * n)%float else None)
                    w (calculate_overlap D a) c1 = (Ret body, c1)
               /\ rep = mk_reply body (Some start_keyboard)).
Proof. intros B cv t a D k. apply milling_result. Qed.

Lemma depth_in_domain_gives_the_result_witness :
  let cv := run idle ball_nose_answers in
  exists rep,
    conv_handler cv (say "2,5")
    = (mk_conversation None (after (chat_of cv) (with_depth_of_cut 2.5) [rep]),
       None).
Proof.
  intros cv.
  destruct (depth_in_domain_gives_the_result reference_builtins cv "2,5"
              2.5%float 10%float "сферическая") as (rep & E & _).
  - vm_compute. reflexivity.
  - vm_compute. reflexivity.
  - vm_compute. reflexivity.
  - vm_compute. reflexivity.
  - discriminate.
  - vm_compute. reflexivity.
  - intros _. split; vm_compute; reflexivity.
  - exists rep. exact E.
Defined.

(** ** The paths the keyboards offer *)

Lemma prefix_app p s t : prefix p s = true -> prefix p (s ++ t) = true.
Proof.
  revert s. induction p as [|a p IH]; intros s H;
    [destruct (s ++ t); reflexivity|].
  destruct s as [|b s]; cbn [prefix append] in *; [discriminate H|].
  destruct (ascii_dec a b); [apply IH, H|discriminate H].
Qed.

Lemma prefix_refl_app p t : prefix p (p ++ t) = true.
Proof.
  induction p as [|a p IH]; [destruct t; reflexivity|]. cbn [prefix append].
  destruct (ascii_dec a a); [exact IH|contradiction].
Qed.

Ltac heading_step :=
  lazymatch goal with
  | H : prefix result_heading ?r = true
    |- (let x := ?a in @?f x) ?c = ?rhs -> ?G =>
      first
        [ let P := fresh "P" in
          assert (P : prefix result_heading a = true)
            by (repeat match goal with
                       | |- context [match ?x with _ => _ end] => destruct x
                       end;
                first [exact H | apply prefix_app, H]);
          change (f a c = rhs -> G);
          generalize a P; clear P H; clear r; intros r H; cbv beta
        | change (f a c = rhs -> G); generalize a; intro; cbv beta ]
  end.

Section Offered_paths.
Context {B : Builtins}.

Lemma offered_not_empty m o t ts k :
  subscript m o t = Ret ts -> In k (dict_keys ts) -> k <> "".
Proof.
  intros Hs Hk.
  apply subscript_Ret in Hs as (ops & tts & H1 & H2 & H3).
  pose proof (tool_type_listed _ _ _ _ _ _ H1 H2 H3) as L.
  apply mem_cases in L.
  destruct (material_cases _ _ H1) as [-> | ->];
    destruct (operation_cases _ _ _ _ H1 H2) as [-> | [-> | ->]];
    cbn in L; destruct L as [<- | [<- | []]];
    looked_up; cbn in Hk;
    repeat match goal with
           | H : _ \/ _ |- _ => destruct H as [<- | H]
           | H : False |- _ => destruct H
           end;
    discriminate.
Qed.

Lemma offered_choice u m o t keys k :
  ud_material u = Some m -> ud_operation u = Some o -> ud_tool_type u = Some t ->
  choices TOOL_SUBTYPE u = Some keys -> In k keys ->
  exists ts, subscript m o t = Ret ts /\ In k (dict_keys ts).
Proof.
  intros Em Eo Et Hc Hk. cbn [choices] in Hc. rewrite Em, Eo, Et in Hc.
  destruct (subscript m o t) as [ts|]; [|discriminate].
  injection Hc as <-. eauto.
Qed.

(** Every result message starts with the heading, so it is not the "no
    parameters" message. *)
Lemma format_result_heading sp fd dp n fpm w o c body :
  format_result sp fd dp n fpm w o c = (Ret body, c) ->
  prefix result_heading body = true.
Proof.
  cbv beta iota delta [format_result bind ud_get ret].
  lazymatch goal with
  | |- (let x := ?a in @?f x) ?c = ?rhs -> ?G =>
      assert (H : prefix result_heading a = true) by apply prefix_refl_app;
      change (f a c = rhs -> G);
      generalize a H; clear H; intros r H; cbv beta
  end.
  repeat heading_step.
  intros [= <-]. exact H.
Qed.

Lemma result_is_not_no_parameters body :
  prefix result_heading body = true -> body <> no_parameters.
Proof. intros H ->. discriminate H. Qed.

Lemma drilling_offered cv t d :
  conv_inv cv -> current cv = Some DIAMETER ->
  ud_operation (data (chat_of cv)) = Some "сверление" ->
  float_of_str (replace_comma t) = Some d ->
  (d =? 0)%float = false ->
  (ud_tool_type (data (chat_of cv)) = Some "со_сменными_пластинами"
   \/ exists keys k,
        ud_tool_type (data (chat_of cv)) = Some "монолитное"
        /\ ud_tool_subtype (data (chat_of cv)) = Some k
        /\ choices TOOL_SUBTYPE (data (chat_of cv)) = Some keys
        /\ In k keys) ->
  let c1 := mk_chat (with_diameter d (data (chat_of cv))) (sent (chat_of cv)) in
  exists e sp fd body,
    let n := (1000 * sp / (math_pi * d))%float in
    get_cutting_parameters c1 = (Ret (Some (Entry e)), c1)
    /\ mean_int (speed e) = Ret sp
    /\ mean_float (feed e) = Ret fd
    /\ format_result sp fd None (Some n) (Some (fd * n)%float) None None c1
       = (Ret body, c1)
    /\ prefix result_heading body = true
    /\ body <> no_parameters
    /\ conv_handler cv (mk_message t None)
       = (mk_conversation None
            (after (chat_of cv) (with_diameter d)
                   [mk_reply body (Some start_keyboard)]), None).
Proof.
  intros Hinv Hc Eo Hd Hd0 Hpath.
  destruct (drilling_terminal cv t d Hinv Hc Eo Hd Hd0) as (rep & E & H).
  intros c1.
  assert (F : exists e, get_cutting_parameters c1 = (Ret (Some (Entry e)), c1)).
  { pose proof Hinv as Hi. unfold conv_inv in Hi. rewrite Hc in Hi.
    destruct Hi as [_ [P _]].
    destruct (path3_material _ P) as (m & ops & Em & Hm).
    destruct Hpath as [Et | (keys & k & Et & Ek & Hk & Hin)].
    - exact (indexable_drill_lookup c1 m ops Em Hm Eo Et).
    - destruct (offered_choice _ m "сверление" "монолитное" keys k Em Eo Et
                  Hk Hin) as (ts & Hs & Hin').
      destruct (offered_subtype_lookup c1 m "сверление" "монолитное" ts k
                  Em Eo Et Ek Hs eq_refl Hin') as (e & _ & L).
      eauto. }
  destruct F as (e & F).
  destruct H as [[L _] | (e' & sp & fd & body & L & Hs & Hf & Hb & ->)].
  - fold c1 in L. rewrite F in L. discriminate.
  - exists e', sp, fd, body. cbv zeta.
    pose proof (format_result_heading _ _ _ _ _ _ _ _ _ Hb) as P.
    repeat split; try assumption.
    apply result_is_not_no_parameters, P.
Qed.

Lemma milling_offered cv t a D keys k :
  conv_inv cv -> current cv = Some DEPTH_OF_CUT ->
  ud_diameter (data (chat_of cv)) = Some D -> float_truthy D = true ->
  ud_tool_subtype (data (chat_of cv)) = Some k ->
  choices TOOL_SUBTYPE (data (chat_of cv)) = Some keys -> In k keys ->
  float_of_str (replace_comma t) = Some a ->
  (k = "сферическая" -> (0 <=? a)%float = true /\ (a <=? D)%float = true) ->
  let c1 := mk_chat (with_depth_of_cut a (data (chat_of cv)))
                    (sent (chat_of cv)) in
  exists e sp fd dp w body,
    let n := (1000 * sp / (math_pi * D))%float in
    get_cutting_parameters c1 = (Ret (Some (Entry e)), c1)
    /\ mean_int (speed e) = Ret sp
    /\ mean_float (feed e) = Ret fd
    /\ mean_depth e dp
    /\ calculate_cutting_width D a k = Ret w
    /\ format_result sp fd dp (Some n)
         (if float_truthy n then Some (fd * n)%float else None)
         w (calculate_overlap D a) c1 = (Ret body, c1)
    /\ prefix result_heading body = true
    /\ body <> no_parameters
    /\ conv_handler cv (mk_message t None)
       = (mk_conversation None
            (after (chat_of cv) (with_depth_of_cut a)
                   [mk_reply body (Some start_keyboard)]), None).
Proof.
  intros Hinv Hc Ed TD Ek Hk Hin Ha Hdom.
  pose proof Hinv as Hi. unfold conv_inv in Hi. rewrite Hc in Hi.
  destruct Hi as [_ [P [Eo _]]].
  destruct P as (m & ops & o & tts & tt & ts0 & Em & Hm & Eo' & Ho & Et & Ht).
  rewrite Eo in Eo'. injection Eo' as <-.
  destruct (offered_choice _ m "фрезерование" tt keys k Em Eo Et Hk Hin)
    as (ts & Hs & Hin').
  pose proof (offered_not_empty _ _ _ _ _ Hs Hin') as Hne.
  destruct (milling_result cv t a D k Hc Ed TD Ek Hne Ha Hdom) as (rep & E & H).
  intros c1.
  destruct (offered_subtype_lookup c1 m "фрезерование" tt ts k
              Em Eo Et Ek Hs eq_refl Hin') as (e & _ & L).
  destruct H as [[L' _] | (e' & sp & fd & dp & w & body & H)].
  - fold c1 in L'. rewrite L in L'. discriminate.
  - exists e', sp, fd, dp, w, body.
    destruct H as (Hl & Hsp & Hfd & Hdp & Hw & Hb & ->).
    pose proof (format_result_heading _ _ _ _ _ _ _ _ _ Hb) as Q.
    cbv zeta. repeat split; try assumption.
    apply result_is_not_no_parameters, Q.
Qed.

End Offered_paths.

(** X14. A path chosen from the keyboards ends with a result, never with the
    "no parameters" message: in a reachable conversation about drilling, with
    a drill with indexable inserts or a subtype that is one of the keys
    offered, the lookup finds an entry for every non-zero diameter, and the
    one reply sent is [format_result] of the means of its speed and feed
    ranges, the spindle speed [1000 * speed / (math.pi * d)] and the feed
    rate [feed * n], with the [/start] keyboard; for milling with a non-zero
    diameter and an offered subtype, so is, for every depth of cut (for the
    ball-nose cutter, every depth within [0 <= a <= D]), the result formatted
    with the mean depth, the cutting width and [calculate_overlap D a].  The
    text sent starts with the heading of a result and is not the "no
    parameters" message. *)
Theorem offered_paths_end_with_a_result :
  (forall (B : Builtins) (cv : conversation) (t : string) (d : float),
      reachable cv -> current cv = Some DIAMETER ->
      ud_operation (data (chat_of cv)) = Some "сверление" ->
      float_of_str (replace_comma t) = Some d ->
      (d =? 0)%float = false ->
      (ud_tool_type (data (chat_of cv)) = Some "со_сменными_пластинами"
       \/ exists keys k,
            ud_tool_type (data (chat_of cv)) = Some "монолитное"
            /\ ud_tool_subtype (data (chat_of cv)) = Some k
            /\ choices TOOL_SUBTYPE (data (chat_of cv)) = Some keys
            /\ In k keys) ->
      let c1 := mk_chat (with_diameter d (data (chat_of cv)))
                        (sent (chat_of cv)) in
      exists e sp fd body,
        let n := (1000 * sp / (math_pi * d))%float in
        get_cutting_parameters c1 = (Ret (Some (Entry e)), c1)
        /\ mean_int (speed e) = Ret sp
        /\ mean_float (feed e) = Ret fd
        /\ format_result sp fd None (Some n) (Some (fd * n)%float) None None c1
           = (Ret body, c1)
        /\ prefix result_heading body = true
        /\ body <> no_parameters
        /\ conv_handler cv (mk_message t None)
           = (mk_conversation None
                (after (chat_of cv) (with_diameter d)
                       [mk_reply body (Some start_keyboard)]), None))
  /\ (forall (B : Builtins) (cv : conversation) (t : string) (a D : float)
             (keys : list string) (k : string),
        reachable cv -> current cv = Some DEPTH_OF_CUT ->
        ud_diameter (data (chat_of cv)) = Some D -> float_truthy D = true ->
        ud_tool_subtype (data (chat_of cv)) = Some k ->
        choices TOOL_SUBTYPE (data (chat_of cv)) = Some keys -> In k keys ->
        float_of_str (replace_comma t) = Some a ->
        (k = "сферическая" ->
         (0 <=? a)%float = true /\ (a <=? D)%float = true) ->
        let c1 := mk_chat (with_depth_of_cut a (data (chat_of cv)))
                          (sent (chat_of cv)) in
        exists e sp fd dp w body,
          let n := (1000 * sp / (math_pi * D))%float in
          get_cutting_parameters c1 = (Ret (Some (Entry e)), c1)
          /\ mean_int (speed e) = Ret sp
          /\ mean_float (feed e) = Ret fd
          /\ mean_depth e dp
          /\ calculate_cutting_width D a k = Ret w
          /\ format_result sp fd dp (Some n)
               (if float_truthy n then Some (fd * n)%float else None)
               w (calculate_overlap D a) c1 = (Ret body, c1)
          /\ prefix result_heading body = true
          /\ body <> no_parameters
          /\ conv_handler cv (mk_message t None)
             = (mk_conversation None
                  (after (chat_of cv) (with_depth_of_cut a)
                         [mk_reply body (Some start_keyboard)]), None)).
Proof.
  split.
  - intros B cv t d Hr. apply drilling_offered, reachable_inv, Hr.
  - intros B cv t a D keys k Hr. apply milling_offered, reachable_inv, Hr.
Qed.

Lemma offered_paths_end_with_a_result_witness :
  let cv := run idle [start_command; say "цветной_металл"; say "фрезерование";
                      say "с_пластинами"; say "торцевая"; say "63"; say "6"] in
  exists body,
    prefix result_heading body = true
    /\ body <> no_parameters
    /\ conv_handler cv (say "3")
       = (mk_conversation None
            (after (chat_of cv) (with_depth_of_cut 3)
                   [mk_reply body (Some start_keyboard)]), None).
Proof.
  intros cv.
  destruct (proj2 offered_paths_end_with_a_result reference_builtins cv "3"
              3%float 63%float ["торцевая"; "пазовая"] "торцевая")
    as (e & sp & fd & dp & w & body & H).
  - apply reachable_run. constructor.
  - vm_compute. reflexivity.
  - vm_compute. reflexivity.
  - vm_compute. reflexivity.
  - vm_compute. reflexivity.
  - vm_compute. reflexivity.
  - left. reflexivity.
  - vm_compute. reflexivity.
  - intros H. discriminate H.
  - exists body. exact (proj2 (proj2 (proj2 (proj2 (proj2 (proj2 H)))))).
Defined.

(** ** A cutter of diameter zero *)

Section ZeroCutter.
Context {B : Builtins}.

Lemma milling_zero_diameter cv t a D :
  current cv = Some DEPTH_OF_CUT ->
  ud_diameter (data (chat_of cv)) = Some D -> float_truthy D = false ->
  float_of_str (replace_comma t) = Some a ->
  let c1 := mk_chat (with_depth_of_cut a (data (chat_of cv)))
                    (sent (chat_of cv)) in
  exists rep,
    conv_handler cv (mk_message t None)
    = (mk_conversation None (after (chat_of cv) (with_depth_of_cut a) [rep]),
       None)
    /\ ((get_cutting_parameters c1 = (Ret None, c1)
         /\ rep = mk_reply no_parameters None)
        \/ exists e sp fd dp body,
             get_cutting_parameters c1 = (Ret (Some (Entry e)), c1)
             /\ mean_int (speed e) = Ret sp
             /\ mean_float (feed e) = Ret fd
             /\ mean_depth e dp
             /\ format_result sp fd dp None None None None c1 = (Ret body, c1)
             /\ rep = mk_reply body (Some start_keyboard)).
Proof.
  intros Hc Ed TD Ha c1.
  unfold conv_handler, select. cbn [command text]. rewrite Hc. cbn [states].
  enough (W : wp (depth_of_cut t)
                (fun r c' =>
                   r = Ret (Some END)
                   /\ exists rep,
                        c' = after (chat_of cv) (with_depth_of_cut a) [rep]
                        /\ ((get_cutting_parameters c1 = (Ret None, c1)
                             /\ rep = mk_reply no_parameters None)
                            \/ exists e sp fd dp body,
                                 get_cutting_parameters c1
                                 = (Ret (Some (Entry e)), c1)
                                 /\ mean_int (speed e) = Ret sp
                                 /\ mean_float (feed e) = Ret fd
                                 /\ mean_depth e dp
                                 /\ format_result sp fd dp None None None None c1
                                    = (Ret body, c1)
                                 /\ rep = mk_reply body (Some start_keyboard)))
                (chat_of cv)).
  { unfold wp in W. destruct (depth_of_cut t (chat_of cv)) as [r c'].
    cbn [fst snd] in W. destruct W as (-> & rep & -> & H).
    exists rep. split; [reflexivity|exact H]. }
  unfold depth_of_cut, py_float, set_depth_of_cut. rewrite Ha.
  apply wp_try, wp_bind, wp_lift. cbn beta iota.
  apply wp_bind, wp_update. cbn beta iota.
  change (mk_chat _ _) with c1.
  assert (Ed1 : ud_diameter (data c1) = Some D) by exact Ed.
  apply wp_bind.
  destruct (gcp_run c1) as ([p|] & L & Hl).
  - destruct (listed_means p (Hl p eq_refl))
      as (e & -> & (sp & Hs) & (fd & Hf) & Hdp).
    eapply wp_known; [exact L|]. cbn beta iota. cbn [params_truthy negb].
    apply wp_bind, wp_get. rewrite Ed1. cbn beta iota.
    apply wp_bind, wp_get. cbn beta iota.
    rewrite TD. cbn [andb].
    assert (Wc : forall Q : result (option float) -> chat -> Prop,
               Q (Ret None) c1 ->
               wp match ud_tool_subtype (data c1) with
                  | Some _ => ret None
                  | None => ret None
                  end Q c1).
    { intros Q HQ. destruct (ud_tool_subtype (data c1)); exact HQ. }
    apply wp_bind, Wc. cbn beta iota zeta.
    apply wp_bind, wp_lift. cbn [params_speed]. cbn beta iota.
    apply wp_bind, wp_lift. rewrite Hs. cbn beta iota.
    apply wp_bind, wp_lift. cbn [params_feed]. cbn beta iota.
    apply wp_bind, wp_lift. rewrite Hf. cbn beta iota.
    cbn [params_depth].
    assert (D' : exists dp,
               mean_depth e dp
               /\ forall Q,
                    Q (Ret dp) c1 ->
                    wp match depth e with
                       | Some r => v <- lift (mean_int r) ;; ret (Some v)
                       | None => ret None
                       end Q c1).
    { unfold mean_depth. destruct (depth e) as [r|].
      - destruct (Hdp r eq_refl) as (v & Hv). exists (Some v).
        split; [eauto|]. intros Q HQ. apply wp_bind, wp_lift. rewrite Hv.
        cbn beta iota. apply wp_ret. exact HQ.
      - exists None. split; [reflexivity|]. intros Q HQ. apply wp_ret. exact HQ. }
    destruct D' as (dp & Hmd & Wd).
    apply wp_bind, Wd. cbn beta iota.
    apply wp_bind, wp_get. rewrite Ed1. cbn beta iota. rewrite TD.
    apply wp_bind, wp_ret. cbn beta iota zeta.
    apply wp_bind.
    destruct (format_result_run sp fd dp None None None None c1) as (body & F).
    eapply wp_known; [exact F|]. cbn beta iota.
    wp_go. split; [reflexivity|].
    eexists. split; [reflexivity|]. right. exists e, sp, fd, dp, body. auto 10.
  - eapply wp_known; [exact L|]. cbn beta iota.
    wp_go. split; [reflexivity|].
    eexists. split; [reflexivity|]. left. auto.
Qed.

End ZeroCutter.

(** X15. A cutter diameter of zero is accepted: at the depth prompt, with a
    zero diameter stored, every number ends the conversation with one reply
    and no exception; the cutting width, the overlap, the spindle speed and
    the feed rate are not computed, and the result is formatted from the mean
    speed, feed and depth alone.  For steel and a solid cylindrical cutter the
    message shows the speed 100.0 and the feed 0.20 and nothing else. *)
Theorem zero_cutter_diameter_gives_a_short_result :
  (forall (B : Builtins) (cv : conversation) (t : string) (a D : float),
      current cv = Some DEPTH_OF_CUT ->
      ud_diameter (data (chat_of cv)) = Some D -> float_truthy D = false ->
      float_of_str (replace_comma t) = Some a ->
      let c1 := mk_chat (with_depth_of_cut a (data (chat_of cv)))
                        (sent (chat_of cv)) in
      exists rep,
        conv_handler cv (mk_message t None)
        = (mk_conversation None
             (after (chat_of cv) (with_depth_of_cut a) [rep]), None)
        /\ ((get_cutting_parameters c1 = (Ret None, c1)
             /\ rep = mk_reply no_parameters None)
            \/ exists e sp fd dp body,
                 get_cutting_parameters c1 = (Ret (Some (Entry e)), c1)
                 /\ mean_int (speed e) = Ret sp
                 /\ mean_float (feed e) = Ret fd
                 /\ mean_depth e dp
                 /\ format_result sp fd dp None None None None c1
                    = (Ret body, c1)
                 /\ rep = mk_reply body (Some start_keyboard)))
  /\ (let cv := run idle zero_cutter_answers in
      current cv = Some DEPTH_OF_CUT
      /\ ud_diameter (data (chat_of cv)) = Some 0%float
      /\ last_body (run cv [say "2"]) = zero_cutter_message).
Proof.
  split.
  - intros B cv t a D. apply milling_zero_diameter.
  - vm_compute. repeat split; reflexivity.
Qed.

Lemma zero_cutter_diameter_gives_a_short_result_witness :
  let cv := run idle zero_cutter_answers in
  exists rep,
    conv_handler cv (say "2")
    = (mk_conversation None (after (chat_of cv) (with_depth_of_cut 2) [rep]),
       None).
Proof.
  intros cv.
  destruct (proj1 zero_cutter_diameter_gives_a_short_result reference_builtins
              cv "2" 2%float 0%float) as (rep & E & _).
  - vm_compute. reflexivity.
  - vm_compute. reflexivity.
  - vm_compute. reflexivity.
  - vm_compute. reflexivity.
  - exists rep. exact E.
Defined.

(** ** What the result message leaves out *)

(** Two chains of [let]s are compared binding by binding. *)
Ltac let_step tac :=
  lazymatch goal with
  | |- (let x := ?a in @?f x) = (let y := ?b in @?g y) =>
      change (f a = g b);
      first [ constr_eq a b | replace a with b by tac ];
      let r := fresh "r" in set (r := b); cbv beta
  | |- (let x := ?a in @?f x) ?c = (let y := ?b in @?g y) ?c' =>
      change (f a c = g b c');
      first [ constr_eq a b | replace a with b by tac ];
      let r := fresh "r" in set (r := b); cbv beta
  end.

Ltac unfold_flags :=
  repeat match goal with x := _ : bool |- _ => subst x end.

(** X16. What [format_result] leaves out: the cutting width passed to it is
    never used; for milling the depth passed is not shown; a depth, a spindle
    speed or a feed rate equal to zero is treated as a missing one; and
    without a non-zero diameter stored the overlap is not shown. *)
Theorem format_result_omissions :
  forall (B : Builtins) (speed feed : float) (depth n fpm w : option float)
         (o : option Z) (c : chat),
    (forall w', format_result speed feed depth n fpm w' o c
                = format_result speed feed depth n fpm w o c)
    /\ (ud_operation (data c) = Some "фрезерование" ->
        format_result speed feed depth n fpm w o c
        = format_result speed feed None n fpm w o c)
    /\ (forall z, (z =? 0)%float = true ->
          format_result speed feed (Some z) n fpm w o c
          = format_result speed feed None n fpm w o c
          /\ format_result speed feed depth (Some z) fpm w o c
             = format_result speed feed depth None fpm w o c
          /\ format_result speed feed depth n (Some z) w o c
             = format_result speed feed depth n None w o c)
    /\ (opt_float_truthy (ud_diameter (data c)) = false ->
        format_result speed feed depth n fpm w o c
        = format_result speed feed depth n fpm w None c).
Proof.
  intros B speed feed depth n fpm w o c.
  cbv beta iota delta [format_result bind ud_get ret].
  split; [reflexivity|]. split; [|split].
  - intros E. rewrite E.
    repeat let_step ltac:(unfold_flags;
                          cbn [String.eqb Ascii.eqb Bool.eqb negb andb];
                          destruct depth; reflexivity).
    reflexivity.
  - intros z Hz.
    repeat split;
      repeat let_step ltac:(unfold float_truthy; rewrite Hz; cbn [negb];
                            rewrite ?andb_false_r; reflexivity);
      reflexivity.
  - intros E.
    repeat let_step ltac:(destruct o as [k|]; [|reflexivity];
                          destruct (ud_diameter (data c)) as [d|]; [|reflexivity];
                          cbn [opt_float_truthy] in E; rewrite E, andb_false_r;
                          reflexivity).
    reflexivity.
Qed.

Lemma format_result_omissions_witness :
  let c := chat_of (run idle ball_nose_answers) in
  format_result 95 0.165 (Some 2%float) (Some 3024%float) (Some 499%float)
    (Some 8%float) (Some 100%Z) c
  = format_result 95 0.165 None (Some 3024%float) (Some 499%float)
      (Some 8%float) (Some 100%Z) c.
Proof.
  intros c.
  apply (proj1 (proj2 (format_result_omissions reference_builtins 95 0.165
                         (Some 2%float) (Some 3024%float) (Some 499%float)
                         (Some 8%float) (Some 100%Z) c))).
  vm_compute. reflexivity.
Defined.

(** ** The overlap along the depth of cut *)

(** X17. For a fixed diameter the overlap does not grow with the depth: if
    [a1 <= a2] and the overlap is defined at [a2], it is defined at [a1] and
    is at least as large. *)
Theorem calculate_overlap_antitone :
  forall D a1 a2 : float,
    (a1 <=? a2)%float = true ->
    forall p2, calculate_overlap D a2 = Some p2 ->
    exists p1, calculate_overlap D a1 = Some p1 /\ (p2 <= p1)%Z.
Proof.
  intros D a1 a2 H p2. unfold calculate_overlap.
  repeat match goal with
  | |- context [(a2 <=? ?t)%float] =>
      let E := fresh "E" in
      destruct (a2 <=? t)%float eqn:E;
      [ rewrite (leb_trans _ _ _ H E) in * | ]
  end;
  intros [= <-];
  repeat match goal with
  | |- context [(a1 <=? ?t)%float] => destruct (a1 <=? t)%float
  end;
  eexists; (split; [reflexivity|lia]).
Qed.

Lemma calculate_overlap_antitone_witness :
  exists p1, calculate_overlap 10 4 = Some p1 /\ (30 <= p1)%Z.
Proof.
  apply (calculate_overlap_antitone 10 4 8); vm_compute; reflexivity.
Defined.

(** X18. The overlap at the edges: it is [None] when the depth or the
    diameter is a NaN, and 100 for every depth [a <= 0] (a negative depth is
    not rejected) and diameter [D >= 0]. *)
Theorem calculate_overlap_edges :
  forall D a : float,
    (is_nan a = true \/ is_nan D = true -> calculate_overlap D a = None)
    /\ ((a <=? 0)%float = true -> (0 <=? D)%float = true ->
        calculate_overlap D a = Some 100%Z).
Proof.
  intros D a. unfold calculate_overlap. split.
  - intros [H|H].
    + now rewrite !(leb_nan_l a) by exact H.
    + rewrite !(leb_nan_r a) by (exact H || apply mul_nan_r, H). reflexivity.
  - intros Ha HD.
    rewrite (leb_trans a 0 (0.3 * D) Ha); [reflexivity|].
    apply scaled_not_negative; [exact I|exact HD].
Qed.

Lemma calculate_overlap_edges_witness :
  calculate_overlap 10 nan = None
  /\ calculate_overlap 10 (-2) = Some 100%Z.
Proof.
  split.
  - apply (proj1 (calculate_overlap_edges 10 nan)). left. reflexivity.
  - apply (proj2 (calculate_overlap_edges 10 (-2))); reflexivity.
Defined.

(** ** Messages the dispatcher handles alike *)

(** X19. In every state of a running conversation the [/cancel] command
    sends "Операция отменена." with the [/start] keyboard and ends the
    conversation; [user_data] keeps the answers stored so far.  When no
    conversation is running the command is ignored. *)
Theorem cancel_ends_and_keeps_answers :
  forall (B : Builtins) (cv : conversation) (t : string),
    (forall s, current cv = Some s ->
       conv_handler cv (mk_message t (Some "cancel"))
       = (mk_conversation None
            (after (chat_of cv) (fun u => u)
                   [mk_reply "Операция отменена." (Some start_keyboard)]),
          None))
    /\ (current cv = None ->
        conv_handler cv (mk_message t (Some "cancel")) = (cv, None)).
Proof.
  intros B cv t. unfold conv_handler, select. cbn [command text]. split.
  - intros s ->. reflexivity.
  - intros ->. reflexivity.
Qed.

Lemma cancel_ends_and_keeps_answers_witness :
  let cv := run idle ball_nose_answers in
  conv_handler cv (mk_message "/cancel" (Some "cancel"))
  = (mk_conversation None
       (after (chat_of cv) (fun u => u)
              [mk_reply "Операция отменена." (Some start_keyboard)]), None)
  /\ conv_handler idle (mk_message "/cancel" (Some "cancel")) = (idle, None).
Proof.
  intros cv. split.
  - apply (proj1 (cancel_ends_and_keeps_answers reference_builtins cv "/cancel")
             DEPTH_OF_CUT).
    vm_compute. reflexivity.
  - apply (proj2 (cancel_ends_and_keeps_answers reference_builtins idle "/cancel")).
    reflexivity.
Defined.

Lemma run_idle_ignored {B : Builtins} cv msgs :
  current cv = None ->
  Forall (fun m => command m <> Some "start") msgs ->
  run cv msgs = cv.
Proof.
  intros Hc H. induction H as [|m msgs Hm _ IH]; [reflexivity|].
  cbn [run]. unfold conv_handler, select. rewrite Hc.
  destruct (command m) as [cmd|]; [|exact IH].
  unfold entry_points. destruct (String.eqb_spec cmd "start"); [congruence|exact IH].
Qed.

(** X20. While no conversation is running (before the first [/start] and
    after a conversation ended) every message but the [/start] command is
    ignored: nothing is sent and nothing stored, whatever the messages are.
    In a running conversation a command other than [/start] and [/cancel] is
    ignored as well. *)
Theorem unhandled_messages_change_nothing :
  forall (B : Builtins) (cv : conversation),
    (forall msgs,
        current cv = None ->
        Forall (fun m => command m <> Some "start") msgs ->
        run cv msgs = cv)
    /\ (forall msg s cmd,
          current cv = Some s -> command msg = Some cmd ->
          cmd <> "start" -> cmd <> "cancel" ->
          conv_handler cv msg = (cv, None)).
Proof.
  intros B cv. split.
  - intros msgs. apply run_idle_ignored.
  - intros msg s cmd Hc Hm H1 H2. unfold conv_handler, select, fallbacks.
    rewrite Hc, Hm.
    destruct (String.eqb_spec cmd "cancel"); [congruence|].
    destruct (String.eqb_spec cmd "start"); [congruence|reflexivity].
Qed.

Lemma unhandled_messages_change_nothing_witness :
  let cv := run idle [start_command; say "дерево"] in
  run cv [say "сталь"; mk_message "/help" (Some "help"); say "10"] = cv
  /\ (let cv' := run idle ball_nose_answers in
      conv_handler cv' (mk_message "/help" (Some "help")) = (cv', None)).
Proof.
  intros cv. split.
  - apply (proj1 (unhandled_messages_change_nothing reference_builtins cv)).
    + vm_compute. reflexivity.
    + repeat constructor; discriminate.
  - intros cv'.
    apply (proj2 (unhandled_messages_change_nothing reference_builtins cv')
             _ DEPTH_OF_CUT "help").
    + vm_compute. reflexivity.
    + reflexivity.
    + discriminate.
    + discriminate.
Defined.

Lemma replace_comma_idempotent s : replace_comma (replace_comma s) = replace_comma s.
Proof.
  induction s as [|c s IH]; cbn; [reflexivity|]. rewrite IH. f_equal.
  destruct (Ascii.eqb c ",") eqn:E; [reflexivity|]. now rewrite E.
Qed.

(** X21. At the four numeric prompts two texts that are equal after their
    commas are replaced by points have the same effect: same replies, same
    state, same values stored. *)
Theorem commas_read_as_points :
  forall (B : Builtins) (cv : conversation) (s : state) (t1 t2 : string),
    current cv = Some s -> numeric_state s = true ->
    replace_comma t1 = replace_comma t2 ->
    conv_handler cv (mk_message t1 None) = conv_handler cv (mk_message t2 None).
Proof.
  intros B cv s t1 t2 Hc Hs Ht. unfold conv_handler, select. cbn [command text].
  rewrite Hc.
  destruct s; try discriminate; cbn [states];
    unfold diameter, depth_of_cut, radius, groove_width; rewrite Ht; reflexivity.
Qed.

Lemma commas_read_as_points_witness :
  let cv := run idle profiling_answers in
  conv_handler cv (say "0,8") = conv_handler cv (say "0.8").
Proof.
  intros cv.
  apply (commas_read_as_points reference_builtins cv RADIUS);
    vm_compute; reflexivity.
Defined.
